(** * KhietAn Homestay room API: a shallow embedding of [backend/server.py]

    The Flask handlers of [backend/server.py] are embedded as functions on an
    explicit server state (the module globals [rooms_collection] and
    [fallback_rooms], plus the JSON mirror file), and the booking policy and
    the room store are verified against the repository's specification.

    Conventions of the embedding.
    - A Python [str] is a [string] whose characters are the code points
      U+0000..U+00FF; [String.compare] is then Python's code-point order.
    - A Python [dict] with a fixed set of keys is a record of [option]s:
      [None] is an absent key, so [d.get(k, dflt)], [k in d] and [d[k]]
      keep their three meanings.
    - A JSON number is what [request.get_json] and [json.load] make of it:
      a Python [int] (an integer of any size) or a Python [float] (an IEEE 754
      binary64 value, [spec_float] of the Standard Library). [float] rounds
      an [int] to the nearest double and raises [OverflowError] beyond the
      range; [int] truncates a double and raises on an infinity or a NaN.
    - A [datetime] is its date text, its time text and its microseconds; a
      stored timestamp is such an object or a string, as the code leaves it.
    - The clock, the ObjectId generator and the availability of the database
      and of the disk are inputs ([Env]) or part of the state. *)

From Stdlib Require Import String Ascii List ZArith Bool Lia.
From Stdlib Require Import DecimalString OrderedTypeEx SpecFloat.
From Stdlib Require DecimalPos.
Import ListNotations.

Open Scope string_scope.
Open Scope list_scope.


(* ===================================================================== *)
(** * Python strings *)
(* ===================================================================== *)

Module Py.

(** [bool(s)]: a string is truthy unless empty. *)
Definition truthy (s : string) : bool := negb (s =? "").

(** [bool(d.get(k))] for a string-valued key: absent or empty is falsy. *)
Definition truthy_opt (o : option string) : bool :=
  match o with Some s => truthy s | None => false end.

(** [d.get(k, '')]. *)
Definition get_str (o : option string) : string :=
  match o with Some s => s | None => "" end.

(** [d.get(k) == s]: [None == s] is [False]. *)
Definition opt_eqb (o : option string) (s : string) : bool :=
  match o with Some x => x =? s | None => false end.

Definition code (c : ascii) : N := N_of_ascii c.

Definition is_ascii_digit (c : ascii) : bool :=
  ((48 <=? code c) && (code c <=? 57))%N.

(** [c.isdigit()] on U+0000..U+00FF: the ASCII digits and the three
    superscript digits U+00B2, U+00B3, U+00B9 (Numeric_Type=Digit). *)
Definition isdigit_char (c : ascii) : bool :=
  is_ascii_digit c
  || (code c =? 178)%N || (code c =? 179)%N || (code c =? 185)%N.

Fixpoint all_chars (p : ascii -> bool) (s : string) : bool :=
  match s with
  | EmptyString => true
  | String c s' => p c && all_chars p s'
  end.

(** [s.isdigit()]: false on the empty string. *)
Definition isdigit (s : string) : bool := truthy s && all_chars isdigit_char s.

(** [s.isascii()]. *)
Definition isascii (s : string) : bool :=
  all_chars (fun c => (code c <? 128)%N) s.

Definition digit_val (c : ascii) : Z := Z.of_N (code c) - 48.

Fixpoint int_acc (acc : Z) (s : string) : Z :=
  match s with
  | EmptyString => acc
  | String c s' => int_acc (10 * acc + digit_val c) s'
  end.

(** [sys.get_int_max_str_digits()]: the limit of CPython 3.11 on the number
    of digits that [int(s)] reads and [str(n)] writes. *)
Definition max_str_digits : nat := 4300.

(** [int(s)] for a string on which [isdigit] holds: the decimal value when
    every character is a decimal digit and there are no more of them than
    the limit, [ValueError] otherwise (the superscript digits are not
    decimal digits). *)
Definition int_of_str (s : string) : option Z :=
  if truthy s && all_chars is_ascii_digit s
     && (String.length s <=? max_str_digits)%nat
  then Some (int_acc 0 s) else None.

(** The number of decimal digits that [int] scans at the head of [s]. *)
Fixpoint leading_digits (s : string) : nat :=
  match s with
  | String c s' => if is_ascii_digit c then S (leading_digits s') else O
  | EmptyString => O
  end.

(** The decimal text of an integer. *)
Definition decimal (n : Z) : string := NilZero.string_of_int (Z.to_int n).

(** [str(n)] for an integer: its decimal text, [None] ([ValueError]) when
    it has more digits than the limit. *)
Definition str_of_int (n : Z) : option string :=
  if (String.length (decimal (Z.abs n)) <=? max_str_digits)%nat
  then Some (decimal n) else None.

(** The text of the two [ValueError]s of [int(s)], of the one of [str(n)]. *)
Definition int_error (s : string) : string :=
  if (max_str_digits <? leading_digits s)%nat
  then "Exceeds the limit (4300 digits) for integer string conversion: value has "
       ++ decimal (Z.of_nat (leading_digits s))
       ++ " digits; use sys.set_int_max_str_digits() to increase the limit"
  else "invalid literal for int() with base 10: "
       ++ String.substring 0 200 ("'" ++ s ++ "'").

Definition str_error : string :=
  "Exceeds the limit (4300 digits) for integer string conversion; use sys.set_int_max_str_digits() to increase the limit".

Fixpoint zeros (n : nat) : string :=
  match n with O => "" | S n' => String "0" (zeros n') end.

(** [s.zfill(width)]: zeros go after a leading sign. *)
Definition zfill (width : nat) (s : string) : string :=
  let pad := zeros (width - String.length s) in
  match s with
  | String c s' =>
      if (Ascii.eqb c "-" || Ascii.eqb c "+")%bool
      then String c (pad ++ s') else pad ++ s
  | EmptyString => pad
  end.

Definition is_hex_char (c : ascii) : bool :=
  (is_ascii_digit c
   || ((97 <=? code c) && (code c <=? 102))
   || ((65 <=? code c) && (code c <=? 70)))%N.

Definition lower_char (c : ascii) : ascii :=
  if ((65 <=? code c) && (code c <=? 90))%N
  then ascii_of_N (code c + 32) else c.

Fixpoint lower (s : string) : string :=
  match s with
  | EmptyString => EmptyString
  | String c s' => String (lower_char c) (lower s')
  end.

(** ASCII whitespace: blank, [\t], [\n], [\v], [\f], [\r]. *)
Definition is_space (c : ascii) : bool :=
  ((code c =? 32) || ((9 <=? code c) && (code c <=? 13)))%N.

(** [bytes.fromhex(s).hex()]: pairs of hexadecimal digits, with ASCII
    whitespace allowed before each pair and at the end; [None] is its
    [ValueError]. *)
Fixpoint fromhex (s : string) : option string :=
  match s with
  | EmptyString => Some EmptyString
  | String c s' =>
      if is_space c then fromhex s'
      else
        match s' with
        | String d s'' =>
            if is_hex_char c && is_hex_char d
            then option_map (fun r => String (lower_char c) (String (lower_char d) r))
                            (fromhex s'')
            else None
        | EmptyString => None
        end
  end.

(** [max(l + [0])]. *)
Definition max_with_zero (l : list Z) : Z := fold_right Z.max 0%Z l.

(** A JSON number as Python holds it. *)
Inductive number : Type :=
| Int (n : Z)
| Float (f : spec_float).

(** The double nearest to an integer, an infinity beyond the range. *)
Definition double (n : Z) : spec_float := binary_normalize 53 1024 n 0 false.

(** The integer part of a finite double, towards zero. *)
Definition trunc (f : spec_float) : Z :=
  match f with
  | S754_finite sign m e =>
      let magnitude := if (0 <=? e)%Z then (Z.pos m * 2 ^ e)%Z
                       else (Z.pos m / 2 ^ (- e))%Z in
      if sign then (- magnitude)%Z else magnitude
  | _ => 0%Z
  end.

(** A [datetime] without time zone: [ymd] is its date as [strftime('%Y-%m-%d')]
    and [isoformat] both write it (years of four digits), [hms] its time of
    day to the second, [microsecond] the rest, below one million. *)
Record datetime : Type := mkDatetime {
  ymd : string;
  hms : string;
  microsecond : N
}.

(** The fraction that [isoformat] and [str] append: nothing on a whole
    second, six digits otherwise. *)
Definition fraction (d : datetime) : string :=
  if (microsecond d =? 0)%N then ""
  else "." ++ zfill 6 (decimal (Z.of_N (microsecond d))).

(** [d.isoformat()]. *)
Definition isoformat (d : datetime) : string :=
  ymd d ++ "T" ++ hms d ++ fraction d.

(** [str(d)]. *)
Definition str_datetime (d : datetime) : string :=
  ymd d ++ " " ++ hms d ++ fraction d.

(** [d.strftime('%Y-%m-%d')]. *)
Definition strftime_ymd (d : datetime) : string := ymd d.

End Py.

(* ===================================================================== *)
(** * Data model *)
(* ===================================================================== *)

(** The [_id] of a stored room: a plain string or a [bson.ObjectId] (kept as
    its 24-digit lower-case hexadecimal rendering). *)
Inductive DocId : Type :=
| StrId (s : string)
| ObjId (hex : string).

(** A stored timestamp: the string that [isoformat()] gave or that the JSON
    file holds, or a [datetime] object. *)
Inductive Timestamp : Type :=
| Text (s : string)
| Instant (d : Py.datetime).

(** An element of a room's [bookedIntervals]. [createdAt] is only ever
    assigned a string; [updatedAt] a string in file mode and a [datetime] in
    database mode. *)
Record Interval : Type := mkInterval {
  checkIn : option string;
  checkOut : option string;
  guestName : option string;
  guestPhone : option string;
  guestEmail : option string;
  notes : option string;
  createdAt : option string;
  updatedAt : option Timestamp
}.

(** A room document, as stored in the collection, in [fallback_rooms] and in
    [rooms_data.json]. *)
Record Room : Type := mkRoom {
  _id : option DocId;
  name : option string;
  price : option Py.number;
  persons : option Z;
  description : option string;
  amenities : option (list string);
  bookedIntervals : option (list Interval);
  created_at : option Timestamp;
  updated_at : option Timestamp
}.

(** The dictionary built by [convert_room_for_api]. The key [available] is
    only added by [get_available_rooms]. *)
Record ApiRoom : Type := mkApiRoom {
  api_room_id : string;
  api_id : string;
  api_name : string;
  api_price : Py.number;
  api_capacity : Z;
  api_persons : Z;
  api_description : string;
  api_amenities : list string;
  api_bookedIntervals : list Interval;
  api_created_at : option string;
  api_updated_at : option string;
  api_available : option bool
}.

(** Exceptions that the handlers can raise and that their outermost
    [except Exception as e] turns into a 500 envelope. *)
Inductive Exception : Type :=
| KeyError (key : string)
| ValueError (msg : string)
| TypeError (msg : string)
| AttributeError (msg : string)
| OverflowError (msg : string)
| PyMongoError (msg : string).

(** [str(e)]. *)
Definition str_exc (e : Exception) : string :=
  match e with
  | KeyError k => "'" ++ k ++ "'"
  | ValueError m | TypeError m | AttributeError m | OverflowError m
  | PyMongoError m => m
  end.

(** The [data] member of a response envelope. *)
Inductive Payload : Type :=
| NoData
| RoomList (rooms : list ApiRoom)
| OneRoom (room : ApiRoom)
| Booking (interval : Interval)
| RoomStatus (room_id : string) (available : bool) (status_text : string)
             (currentBooking : option (string * string)).

(** [jsonify({...}), code]. *)
Record Response : Type := mkResponse {
  status : nat;
  success : bool;
  message : option string;
  error : option string;
  data : Payload;
  count : option nat;
  source : option string
}.

(** The database handle: the documents of the collection in natural order,
    and whether operations on it currently raise (with which message). *)
Record Collection : Type := mkCollection {
  docs : list Room;
  failure : option string
}.

(** The module globals of [server.py] and the mirror file. *)
Record Server : Type := mkServer {
  rooms_collection : option Collection;
  fallback_rooms : list Room;
  json_file : list Room;
  disk_writable : bool
}.

(** What a request reads from outside the state. A handler reads the clock
    at most twice. *)
Record Env : Type := mkEnv {
  now : Py.datetime;        (* the first datetime.now() of the request *)
  now_again : Py.datetime;  (* the second *)
  utcnow : Py.datetime;     (* the first datetime.utcnow() of the request *)
  utcnow_again : Py.datetime;
                            (* the second *)
  fresh_oid : string;       (* the hexadecimal form of the next ObjectId() *)
  positional_by_last : bool
                            (* which array condition the database follows to
                               resolve the positional operator, see [Mongo] *)
}.

(** [datetime.now().strftime('%Y-%m-%d')], where it is the first reading. *)
Definition today (env : Env) : string := Py.strftime_ymd (now env).

(** The JSON body of [POST] and [PUT] on [/backend/api/admin/rooms]. *)
Record RoomData : Type := mkRoomData {
  d_name : option string;
  d_price : option Py.number;
  d_capacity : option Py.number;
  d_persons : option Py.number;
  d_description : option string;
  d_amenities : option (list string);
  d_custom_id : option string
}.

(** The JSON body of [book], [unbook] and [update-booking]. *)
Record BookingData : Type := mkBookingData {
  b_checkIn : option string;
  b_checkOut : option string;
  b_guestName : option string;
  b_guestPhone : option string;
  b_guestEmail : option string;
  b_notes : option string
}.

(* ===================================================================== *)
(** * Exceptions *)
(* ===================================================================== *)

(** A computation that returns or raises. *)
Definition M (A : Type) : Type := (Exception + A)%type.

Definition ret {A : Type} (x : A) : M A := inr x.
Definition raise {A : Type} (e : Exception) : M A := inl e.
Definition bind {A B : Type} (m : M A) (k : A -> M B) : M B :=
  match m with
  | inl e => inl e
  | inr x => k x
  end.

Notation "x <- m ;; k" := (bind m (fun x => k))
  (at level 61, m at next level, right associativity).

(** A list comprehension [[x for x in l if keep(x)]] whose test may raise. *)
Fixpoint filterM {A : Type} (keep : A -> M bool) (l : list A) : M (list A) :=
  match l with
  | [] => ret []
  | x :: l' =>
      b <- keep x ;; ys <- filterM keep l' ;; ret (if b then x :: ys else ys)
  end.

(* ===================================================================== *)
(** * Envelopes *)
(* ===================================================================== *)

Definition envelope_error (code : nat) (err : string) : Response :=
  mkResponse code false None (Some err) NoData None None.

Definition envelope_message (code : nat) (msg : string) (d : Payload) : Response :=
  mkResponse code true (Some msg) None d None None.

Definition envelope_rooms (rooms : list ApiRoom) (src : option string) : Response :=
  mkResponse 200 true None None (RoomList rooms) (Some (List.length rooms)) src.

(** [except Exception as e: return jsonify({'success': False, 'error': str(e)}), 500]. *)
Definition internal_error (e : Exception) : Response :=
  envelope_error 500 (str_exc e).

(** A handler body under its [try], for a body that assigns nothing before
    its last point that can raise: an exception then meets the state [s] in
    which the body started, and yields the 500 envelope. The file-mode branch
    of [update_room] assigns between two such points and is not run this
    way. *)
Definition run (s : Server) (body : M (Server * Response)) : Server * Response :=
  match body with
  | inl e => (s, internal_error e)
  | inr out => out
  end.

(* ===================================================================== *)
(** * Identifiers and generic list updates *)
(* ===================================================================== *)

(** [str(id_value)]. *)
Definition str_id (i : DocId) : string :=
  match i with StrId s => s | ObjId h => h end.

Definition id_eqb (a b : DocId) : bool :=
  match a, b with
  | StrId x, StrId y => x =? y
  | ObjId x, ObjId y => x =? y
  | _, _ => false
  end.

(** [r.get('_id') == i]. *)
Definition has_id (i : DocId) (r : Room) : bool :=
  match _id r with Some j => id_eqb j i | None => false end.

(** [ObjectId(room_id)]: on a string of 24 characters that [bytes.fromhex]
    reads, the ObjectId of those bytes (fewer than twelve when the string
    has blanks); [None] is [InvalidId]. An [ObjId] is kept as the hexadecimal
    text of its bytes, which is what [str] gives. *)
Definition ObjectId (s : string) : option DocId :=
  if (String.length s =? 24)%nat then option_map ObjId (Py.fromhex s) else None.

(** Rewrites the first element satisfying [p]; the in-place mutation of the
    dictionary that [next(...)] or [find_one] returned. *)
Fixpoint update_first {A : Type} (p : A -> bool) (f : A -> A) (l : list A) : list A :=
  match l with
  | [] => []
  | x :: l' => if p x then f x :: l' else x :: update_first p f l'
  end.

(** Rewrites the element at index [k], if any. *)
Fixpoint update_nth {A : Type} (k : nat) (f : A -> A) (l : list A) : list A :=
  match l, k with
  | [], _ => []
  | x :: l', O => f x :: l'
  | x :: l', S k' => x :: update_nth k' f l'
  end.

(** Index of the first element satisfying [p]. *)
Fixpoint index_of {A : Type} (p : A -> bool) (l : list A) : option nat :=
  match l with
  | [] => None
  | x :: l' => if p x then Some O else option_map S (index_of p l')
  end.

(* Field setters of the two dictionaries. *)

Definition set_id (i : option DocId) (r : Room) : Room :=
  mkRoom i (name r) (price r) (persons r) (description r) (amenities r)
         (bookedIntervals r) (created_at r) (updated_at r).
Definition set_name (v : option string) (r : Room) : Room :=
  mkRoom (_id r) v (price r) (persons r) (description r) (amenities r)
         (bookedIntervals r) (created_at r) (updated_at r).
Definition set_price (v : option Py.number) (r : Room) : Room :=
  mkRoom (_id r) (name r) v (persons r) (description r) (amenities r)
         (bookedIntervals r) (created_at r) (updated_at r).
Definition set_persons (v : option Z) (r : Room) : Room :=
  mkRoom (_id r) (name r) (price r) v (description r) (amenities r)
         (bookedIntervals r) (created_at r) (updated_at r).
Definition set_description (v : option string) (r : Room) : Room :=
  mkRoom (_id r) (name r) (price r) (persons r) v (amenities r)
         (bookedIntervals r) (created_at r) (updated_at r).
Definition set_amenities (v : option (list string)) (r : Room) : Room :=
  mkRoom (_id r) (name r) (price r) (persons r) (description r) v
         (bookedIntervals r) (created_at r) (updated_at r).
Definition set_bookedIntervals (v : option (list Interval)) (r : Room) : Room :=
  mkRoom (_id r) (name r) (price r) (persons r) (description r) (amenities r)
         v (created_at r) (updated_at r).
Definition set_updated_at (v : option Timestamp) (r : Room) : Room :=
  mkRoom (_id r) (name r) (price r) (persons r) (description r) (amenities r)
         (bookedIntervals r) (created_at r) v.

(** The five assignments of [update_booking] on the matched interval. *)
Definition set_guest (g ph em nt : string) (upd : Timestamp) (i : Interval)
  : Interval :=
  mkInterval (checkIn i) (checkOut i) (Some g) (Some ph) (Some em) (Some nt)
             (createdAt i) (Some upd).

Definition set_fallback_rooms (l : list Room) (s : Server) : Server :=
  mkServer (rooms_collection s) l (json_file s) (disk_writable s).
Definition set_collection (c : Collection) (s : Server) : Server :=
  mkServer (Some c) (fallback_rooms s) (json_file s) (disk_writable s).
Definition set_json_file (l : list Room) (s : Server) : Server :=
  mkServer (rooms_collection s) (fallback_rooms s) l (disk_writable s).

(* Structural equality of documents, for [modified_count]. *)

Definition option_eqb {A : Type} (eqb : A -> A -> bool) (a b : option A) : bool :=
  match a, b with
  | Some x, Some y => eqb x y
  | None, None => true
  | _, _ => false
  end.

Fixpoint list_eqb {A : Type} (eqb : A -> A -> bool) (a b : list A) : bool :=
  match a, b with
  | [], [] => true
  | x :: a', y :: b' => eqb x y && list_eqb eqb a' b'
  | _, _ => false
  end.

Definition float_eqb (a b : spec_float) : bool :=
  match a, b with
  | S754_zero x, S754_zero y => Bool.eqb x y
  | S754_infinity x, S754_infinity y => Bool.eqb x y
  | S754_nan, S754_nan => true
  | S754_finite x m e, S754_finite y n f =>
      Bool.eqb x y && (m =? n)%positive && (e =? f)%Z
  | _, _ => false
  end.

Definition number_eqb (a b : Py.number) : bool :=
  match a, b with
  | Py.Int x, Py.Int y => (x =? y)%Z
  | Py.Float x, Py.Float y => float_eqb x y
  | _, _ => false
  end.

Definition datetime_eqb (a b : Py.datetime) : bool :=
  (Py.ymd a =? Py.ymd b) && (Py.hms a =? Py.hms b)
  && (Py.microsecond a =? Py.microsecond b)%N.

Definition Timestamp_eqb (a b : Timestamp) : bool :=
  match a, b with
  | Text x, Text y => x =? y
  | Instant x, Instant y => datetime_eqb x y
  | _, _ => false
  end.

Definition Interval_eqb (a b : Interval) : bool :=
  option_eqb String.eqb (checkIn a) (checkIn b)
  && option_eqb String.eqb (checkOut a) (checkOut b)
  && option_eqb String.eqb (guestName a) (guestName b)
  && option_eqb String.eqb (guestPhone a) (guestPhone b)
  && option_eqb String.eqb (guestEmail a) (guestEmail b)
  && option_eqb String.eqb (notes a) (notes b)
  && option_eqb String.eqb (createdAt a) (createdAt b)
  && option_eqb Timestamp_eqb (updatedAt a) (updatedAt b).

Definition Room_eqb (a b : Room) : bool :=
  option_eqb id_eqb (_id a) (_id b)
  && option_eqb String.eqb (name a) (name b)
  && option_eqb number_eqb (price a) (price b)
  && option_eqb Z.eqb (persons a) (persons b)
  && option_eqb String.eqb (description a) (description b)
  && option_eqb (list_eqb String.eqb) (amenities a) (amenities b)
  && option_eqb (list_eqb Interval_eqb) (bookedIntervals a) (bookedIntervals b)
  && option_eqb Timestamp_eqb (created_at a) (created_at b)
  && option_eqb Timestamp_eqb (updated_at a) (updated_at b).

(* ===================================================================== *)
(** * The pymongo operations the handlers call *)
(* ===================================================================== *)

Module Mongo.

(** [UpdateResult]. *)
Record UpdateResult : Type := mkUpdateResult {
  matched_count : nat;
  modified_count : nat
}.

(** Every operation raises while the server is unreachable. *)
Definition guard {A : Type} (c : Collection) (x : A) : M A :=
  match failure c with
  | Some msg => raise (PyMongoError msg)
  | None => ret x
  end.

(** [list(collection.find())]. *)
Definition find (c : Collection) : M (list Room) := guard c (docs c).

(** [collection.find_one({'_id': i})]. *)
Definition find_one (c : Collection) (i : DocId) : M (option Room) :=
  guard c (List.find (has_id i) (docs c)).

(** What BSON keeps of a [datetime]: whole milliseconds. *)
Definition bson_datetime (d : Py.datetime) : Py.datetime :=
  Py.mkDatetime (Py.ymd d) (Py.hms d) (Py.microsecond d / 1000 * 1000)%N.

Definition bson_timestamp (t : Timestamp) : Timestamp :=
  match t with
  | Text x => Text x
  | Instant d => Instant (bson_datetime d)
  end.

(** A [datetime] as the value of a [$set]: what a later read returns. *)
Definition date (d : Py.datetime) : Timestamp := Instant (bson_datetime d).

Definition bson_interval (i : Interval) : Interval :=
  mkInterval (checkIn i) (checkOut i) (guestName i) (guestPhone i) (guestEmail i)
             (notes i) (createdAt i) (option_map bson_timestamp (updatedAt i)).

(** A document as the collection returns it after it was written. *)
Definition bson_room (r : Room) : Room :=
  mkRoom (_id r) (name r) (price r) (persons r) (description r) (amenities r)
         (option_map (map bson_interval) (bookedIntervals r))
         (option_map bson_timestamp (created_at r))
         (option_map bson_timestamp (updated_at r)).

(** BSON has integers of at most eight bytes. *)
Definition fits_int64 (n : Z) : bool :=
  ((- 2 ^ 63 <=? n) && (n <=? 2 ^ 63 - 1))%Z.

Definition encodable (r : Room) : bool :=
  match price r with Some (Py.Int n) => fits_int64 n | _ => true end
  && match persons r with Some n => fits_int64 n | None => true end.

(** [collection.bulk_write([ReplaceOne({'_id': i}, doc, upsert=True)])]:
    the matching document is replaced, or [doc] is inserted. The server is
    selected first, then the document is encoded, which raises
    [OverflowError] on an integer beyond eight bytes. *)
Definition replace_one_upsert (c : Collection) (i : DocId) (doc : Room)
  : M Collection :=
  _ <- guard c tt ;;
  if encodable doc
  then ret (mkCollection
              (if existsb (has_id i) (docs c)
               then update_first (has_id i) (fun _ => bson_room doc) (docs c)
               else docs c ++ [bson_room doc])
              (failure c))
  else raise (OverflowError "MongoDB can only handle up to 8-byte ints").

(** [collection.update_one(filter, update)]: the first document matching
    [filter] is rewritten by [update]; it counts as modified when the
    rewritten document differs from the stored one. *)
Definition update_one (c : Collection) (filter : Room -> bool)
           (update : Room -> Room) : M (Collection * UpdateResult) :=
  guard c
    match List.find filter (docs c) with
    | None => (c, mkUpdateResult 0 0)
    | Some old =>
        (mkCollection (update_first filter update (docs c)) (failure c),
         mkUpdateResult 1 (if Room_eqb old (update old) then 0 else 1))
    end.

(** [{'$push': {'bookedIntervals': i}}]: appends, creating the array when
    the field is absent. *)
Definition push_interval (i : Interval) (r : Room) : Room :=
  set_bookedIntervals
    (Some (match bookedIntervals r with Some l => l | None => [] end ++ [i])) r.

(** An array element matches the condition document
    [{'checkIn': ci, 'checkOut': co}] when both fields equal the given
    strings. *)
Definition pair_matches (ci co : string) (i : Interval) : bool :=
  Py.opt_eqb (checkIn i) ci && Py.opt_eqb (checkOut i) co.

(** [{'$pull': {'bookedIntervals': {'checkIn': ci, 'checkOut': co}}}]:
    removes every matching element; nothing to do on an absent field. *)
Definition pull_pair (ci co : string) (r : Room) : Room :=
  match bookedIntervals r with
  | Some l =>
      set_bookedIntervals
        (Some (List.filter (fun i => negb (pair_matches ci co i)) l)) r
  | None => r
  end.

(** The filter [{'bookedIntervals.checkIn': ci, 'bookedIntervals.checkOut': co}]:
    without [$elemMatch], each dotted condition is satisfied by some
    element of the array, not necessarily the same one. *)
Definition array_filter (ci co : string) (r : Room) : bool :=
  match bookedIntervals r with
  | Some l =>
      existsb (fun i => Py.opt_eqb (checkIn i) ci) l
      && existsb (fun i => Py.opt_eqb (checkOut i) co) l
  | None => false
  end.

(** The array index that the positional operator [$] stands for: the first
    element satisfying one of the two array conditions of the filter.
    Which of the two the server records is left open by its documentation;
    [by_last] selects the later condition ([checkOut]). *)
Definition positional (by_last : bool) (ci co : string) (l : list Interval)
  : option nat :=
  if by_last then index_of (fun i => Py.opt_eqb (checkOut i) co) l
  else index_of (fun i => Py.opt_eqb (checkIn i) ci) l.

(** [{'$set': {'bookedIntervals.$.guestName': g, ...}}]. *)
Definition set_positional (by_last : bool) (ci co : string)
           (f : Interval -> Interval) (r : Room) : Room :=
  match bookedIntervals r with
  | Some l =>
      match positional by_last ci co l with
      | Some k => set_bookedIntervals (Some (update_nth k f l)) r
      | None => r
      end
  | None => r
  end.

End Mongo.

(* ===================================================================== *)
(** * Helpers of [server.py] *)
(* ===================================================================== *)

(** [MongoJSONEncoder] on a timestamp: a [datetime] is written as its
    [isoformat()]. *)
Definition jsonify_timestamp (t : Timestamp) : Timestamp :=
  match t with
  | Text x => Text x
  | Instant d => Text (Py.isoformat d)
  end.

Definition jsonify_interval (i : Interval) : Interval :=
  mkInterval (checkIn i) (checkOut i) (guestName i) (guestPhone i) (guestEmail i)
             (notes i) (createdAt i) (option_map jsonify_timestamp (updatedAt i)).

(** [json.dump(..., cls=MongoJSONEncoder)] on a room, as [json.load] reads it
    back: an ObjectId is written as its string, a [datetime] as its
    [isoformat()]. *)
Definition jsonify_room (r : Room) : Room :=
  mkRoom (option_map (fun i => StrId (str_id i)) (_id r))
         (name r) (price r) (persons r) (description r) (amenities r)
         (option_map (map jsonify_interval) (bookedIntervals r))
         (option_map jsonify_timestamp (created_at r))
         (option_map jsonify_timestamp (updated_at r)).

(** [save_fallback_data]: rewrites the mirror file from [fallback_rooms];
    a failing write is swallowed. *)
Definition save_fallback_data (s : Server) : Server :=
  if disk_writable s
  then set_json_file (map jsonify_room (fallback_rooms s)) s
  else s.

(** [sync_mongodb_to_json]: rewrites the mirror file from the collection;
    any exception is swallowed. *)
Definition sync_mongodb_to_json (s : Server) : Server :=
  match rooms_collection s with
  | Some c =>
      match Mongo.find c with
      | inr rooms =>
          if disk_writable s then set_json_file (map jsonify_room rooms) s else s
      | inl _ => s
      end
  | None => s
  end.

(** [str(room.get(k, '')) if room.get(k) else None]: a [datetime] is truthy
    and [str] writes it with a blank between date and time. *)
Definition api_timestamp (o : option Timestamp) : option string :=
  match o with
  | Some (Text t) => if Py.truthy t then Some t else None
  | Some (Instant d) => Some (Py.str_datetime d)
  | None => None
  end.

(** [convert_room_for_api]. *)
Definition convert_room_for_api (room : Room) : ApiRoom :=
  let id_str := match _id room with Some i => str_id i | None => "" end in
  mkApiRoom id_str id_str
    (Py.get_str (name room))
    (match price room with Some p => p | None => Py.Int 0 end)
    (match persons room with Some n => n | None => 0%Z end)
    (match persons room with Some n => n | None => 0%Z end)
    (Py.get_str (description room))
    (match amenities room with Some l => l | None => [] end)
    (match bookedIntervals room with Some l => l | None => [] end)
    (api_timestamp (created_at room))
    (api_timestamp (updated_at room))
    None.

(** [room.get('bookedIntervals', [])]. *)
Definition intervals_of (room : Room) : list Interval :=
  match bookedIntervals room with Some l => l | None => [] end.

(** [next((r for r in fallback_rooms if r.get('_id') == room_id), None)]. *)
Definition find_fallback (room_id : string) (rooms : list Room) : option Room :=
  List.find (has_id (StrId room_id)) rooms.

(** The lookup of the read handlers and of [update_room] in database mode:
    by string id, then by ObjectId when the string is one. Returns the
    document with the identifier it was found under. *)
Definition find_by_either (c : Collection) (room_id : string)
  : M (option (DocId * Room)) :=
  room <- Mongo.find_one c (StrId room_id) ;;
  match room with
  | Some r => ret (Some (StrId room_id, r))
  | None =>
      match ObjectId room_id with
      | Some oid =>
          match Mongo.find_one c oid with
          | inr (Some r) => ret (Some (oid, r))
          | _ => ret None
          end
      | None => ret None
      end
  end.

(** The lookup of the three booking handlers in database mode: [None] is the
    early 404 (the string is no ObjectId); otherwise the filter to update by
    and the document found, which is [None] when the ObjectId is unknown. *)
Definition find_for_booking (c : Collection) (room_id : string)
  : M (option (DocId * option Room)) :=
  room <- Mongo.find_one c (StrId room_id) ;;
  match room with
  | Some r => ret (Some (StrId room_id, Some r))
  | None =>
      match ObjectId room_id with
      | Some oid =>
          match Mongo.find_one c oid with
          | inr found => ret (Some (oid, found))
          | inl _ => ret None
          end
      | None => ret None
      end
  end.

(* ===================================================================== *)
(** * Booking policy *)
(* ===================================================================== *)

(** The loop of [get_room_status]: the room is booked on [today] when some
    interval has [check_in <= today < check_out]; the first such interval
    gives [currentBooking]. *)
Fixpoint status_scan (today : string) (l : list Interval)
  : bool * option (string * string) :=
  match l with
  | [] => (true, None)
  | interval :: l' =>
      let check_in := Py.get_str (checkIn interval) in
      let check_out := Py.get_str (checkOut interval) in
      if (check_in <=? today) && (today <? check_out)
      then (false, Some (check_in, check_out))
      else status_scan today l'
  end.

(** The inner loop of [get_available_rooms]. *)
Fixpoint available_scan (today : string) (l : list Interval) : bool :=
  match l with
  | [] => true
  | interval :: l' =>
      let check_in := Py.get_str (checkIn interval) in
      let check_out := Py.get_str (checkOut interval) in
      if (check_in <=? today) && (today <? check_out)
      then false
      else available_scan today l'
  end.

(** The closure [has_duplicate_booking] of [book_room], with the variables
    it captures as arguments. *)
Fixpoint has_duplicate_booking (check_in check_out guest_name : string)
         (existing_intervals : list Interval) : bool :=
  match existing_intervals with
  | [] => false
  | interval :: rest =>
      if Py.opt_eqb (checkIn interval) check_in
         && Py.opt_eqb (checkOut interval) check_out
         && Py.opt_eqb (guestName interval) guest_name
      then true
      else
        let existing_start := Py.get_str (checkIn interval) in
        let existing_end := Py.get_str (checkOut interval) in
        if Py.truthy existing_start && Py.truthy existing_end
           && ((check_in <? existing_end) && (existing_start <? check_out))
        then true
        else has_duplicate_booking check_in check_out guest_name rest
  end.

(** [has_duplicate_booking] with its exact-duplicate clause deleted: the
    simplification that the specification allows. *)
Fixpoint overlap_only (check_in check_out : string)
         (existing_intervals : list Interval) : bool :=
  match existing_intervals with
  | [] => false
  | interval :: rest =>
      let existing_start := Py.get_str (checkIn interval) in
      let existing_end := Py.get_str (checkOut interval) in
      if Py.truthy existing_start && Py.truthy existing_end
         && ((check_in <? existing_end) && (existing_start <? check_out))
      then true
      else overlap_only check_in check_out rest
  end.

(** The dictionary [new_interval] of [book_room]. *)
Definition new_interval (env : Env) (data : BookingData)
           (check_in check_out guest_name : string) : Interval :=
  mkInterval (Some check_in) (Some check_out) (Some guest_name)
             (Some (Py.get_str (b_guestPhone data)))
             (Some (Py.get_str (b_guestEmail data)))
             (Some (Py.get_str (b_notes data)))
             (Some (Py.isoformat (now env))) None.

(** [interval['checkIn'] == check_in and interval['checkOut'] == check_out]:
    subscripting raises [KeyError] on an absent key, and [and] does not
    evaluate its right operand when the left one is false. *)
Definition pair_equal (check_in check_out : string) (interval : Interval) : M bool :=
  match checkIn interval with
  | None => raise (KeyError "checkIn")
  | Some ci =>
      if ci =? check_in
      then match checkOut interval with
           | None => raise (KeyError "checkOut")
           | Some co => ret (co =? check_out)
           end
      else ret false
  end.

(** The [for ... else] of [update_booking] in file mode: the first interval
    with the pair is rewritten; [None] is the [else] branch. *)
Fixpoint update_first_pair (check_in check_out : string)
         (f : Interval -> Interval) (l : list Interval)
  : M (option (list Interval)) :=
  match l with
  | [] => ret None
  | interval :: l' =>
      hit <- pair_equal check_in check_out interval ;;
      if hit then ret (Some (f interval :: l'))
      else
        r <- update_first_pair check_in check_out f l' ;;
        ret (option_map (cons interval) r)
  end.

(* ===================================================================== *)
(** * Read handlers *)
(* ===================================================================== *)

(** [GET /backend/api/rooms]. *)
Definition get_public_rooms (s : Server) : Response :=
  match rooms_collection s with
  | None =>
      envelope_rooms (map convert_room_for_api (fallback_rooms s)) (Some "fallback")
  | Some c =>
      match Mongo.find c with
      | inr rooms =>
          envelope_rooms (map convert_room_for_api rooms) (Some "mongodb")
      | inl e =>
          match fallback_rooms s with
          | _ :: _ =>
              envelope_rooms (map convert_room_for_api (fallback_rooms s))
                             (Some "fallback_error_recovery")
          | [] => internal_error e
          end
      end
  end.

(** The rooms a read handler works on. *)
Definition all_rooms (s : Server) : M (list Room) :=
  match rooms_collection s with
  | None => ret (fallback_rooms s)
  | Some c => Mongo.find c
  end.

Definition mark_available (a : ApiRoom) : ApiRoom :=
  mkApiRoom (api_room_id a) (api_id a) (api_name a) (api_price a)
            (api_capacity a) (api_persons a) (api_description a)
            (api_amenities a) (api_bookedIntervals a) (api_created_at a)
            (api_updated_at a) (Some true).

(** [GET /backend/api/rooms/available]. *)
Definition get_available_rooms (env : Env) (s : Server) : Response :=
  match all_rooms s with
  | inr rooms =>
      let available_rooms :=
        map (fun room => mark_available (convert_room_for_api room))
            (List.filter (fun room => available_scan (today env) (intervals_of room))
                         rooms) in
      envelope_rooms available_rooms None
  | inl e => internal_error e
  end.

(** The room lookup shared by the read handlers and [update_room]. *)
Definition lookup_room (s : Server) (room_id : string) : M (option (DocId * Room)) :=
  match rooms_collection s with
  | None =>
      ret (option_map (fun r => (StrId room_id, r))
                      (find_fallback room_id (fallback_rooms s)))
  | Some c => find_by_either c room_id
  end.

(** [GET /backend/api/rooms/<room_id>/status]. *)
Definition get_room_status (env : Env) (s : Server) (room_id : string) : Response :=
  match lookup_room s room_id with
  | inr None => envelope_error 404 "Room not found"
  | inr (Some (_, room)) =>
      let '(is_available, current_booking) :=
        status_scan (today env) (intervals_of room) in
      mkResponse 200 true None None
        (RoomStatus room_id is_available
                    (if is_available then "available" else "booked")
                    current_booking)
        None None
  | inl e => internal_error e
  end.

(* ===================================================================== *)
(** * Room handlers *)
(* ===================================================================== *)

(** [float(x)] on the value of a key; [None] is Python's [None]. An [int] is
    rounded to the nearest double and raises when that is beyond the range;
    a [float] is returned as it is. *)
Definition py_float (o : option Py.number) : M spec_float :=
  match o with
  | Some (Py.Int n) =>
      match Py.double n with
      | S754_infinity _ => raise (OverflowError "int too large to convert to float")
      | f => ret f
      end
  | Some (Py.Float f) => ret f
  | None => raise (TypeError "float() argument must be a string or a real number, not 'NoneType'")
  end.

(** [int(x)] on the value of a key: an [int] as it is, a [float] truncated
    towards zero; an infinity and a NaN raise. *)
Definition py_int (o : option Py.number) : M Z :=
  match o with
  | Some (Py.Int n) => ret n
  | Some (Py.Float (S754_infinity _)) =>
      raise (OverflowError "cannot convert float infinity to integer")
  | Some (Py.Float S754_nan) =>
      raise (ValueError "cannot convert float NaN to integer")
  | Some (Py.Float f) => ret (Py.trunc f)
  | None => raise (TypeError "int() argument must be a string, a bytes-like object or a real number, not 'NoneType'")
  end.

Definition is_some {A : Type} (o : option A) : bool :=
  match o with Some _ => true | None => false end.

(** [all(field in data for field in required_fields)]. *)
Definition has_required_fields (data : RoomData) : bool :=
  is_some (d_name data) && is_some (d_price data) && is_some (d_capacity data)
  && is_some (d_description data) && is_some (d_amenities data).

(** The rejection test on [custom_id]. *)
Definition bad_custom_id (custom_id : option string) : bool :=
  match custom_id with
  | Some c =>
      Py.truthy c && (negb (Py.isdigit c) || negb (String.length c =? 4)%nat)
  | None => false
  end.

(** [[int(r.get('_id', 0)) for r in fallback_rooms
      if str(r.get('_id', '0')).isdigit()]]. *)
Fixpoint numeric_ids (rooms : list Room) : M (list Z) :=
  match rooms with
  | [] => ret []
  | r :: rooms' =>
      let shown := match _id r with Some i => str_id i | None => "0" end in
      if Py.isdigit shown then
        n <- match _id r with
             | None => ret 0%Z
             | Some (StrId x) =>
                 match Py.int_of_str x with
                 | Some n => ret n
                 | None => raise (ValueError (Py.int_error x))
                 end
             | Some (ObjId _) =>
                 raise (TypeError "int() argument must be a string, a bytes-like object or a real number, not 'ObjectId'")
             end ;;
        ns <- numeric_ids rooms' ;;
        ret (n :: ns)
      else numeric_ids rooms'
  end.

(** The id that [add_room] gives the new room. *)
Definition resolve_id (env : Env) (s : Server) (data : RoomData) : M DocId :=
  if Py.truthy_opt (d_custom_id data)
  then ret (StrId (Py.get_str (d_custom_id data)))
  else
    match rooms_collection s with
    | None =>
        ids <- numeric_ids (fallback_rooms s) ;;
        match Py.str_of_int (Py.max_with_zero ids + 1) with
        | Some text => ret (StrId (Py.zfill 4 text))
        | None => raise (ValueError Py.str_error)
        end
    | Some _ => ret (ObjId (fresh_oid env))
    end.

(** The dictionary [new_room] of [add_room], before it is given its id: the
    two timestamps are two readings of the clock, kept as [datetime]
    objects. *)
Definition new_room (env : Env) (data : RoomData) (p : spec_float) (n : Z) : Room :=
  mkRoom None (d_name data) (Some (Py.Float p)) (Some n) (d_description data)
         (Some (match d_amenities data with Some l => l | None => [] end))
         (Some []) (Some (Instant (utcnow env))) (Some (Instant (utcnow_again env))).

(** [POST /backend/api/admin/rooms]. *)
Definition add_room (env : Env) (s : Server) (data : RoomData) : Server * Response :=
  run s
    (if negb (has_required_fields data)
     then ret (s, envelope_error 400 "Missing required fields")
     else if bad_custom_id (d_custom_id data)
     then ret (s, envelope_error 400
                    "Room ID must be exactly 4 digits (e.g., 0101, 0201)")
     else
       p <- py_float (d_price data) ;;
       n <- py_int (d_capacity data) ;;
       let new_room := new_room env data p n in
       match rooms_collection s with
       | None =>
           i <- resolve_id env s data ;;
           let new_room := set_id (Some i) new_room in
           match List.find (has_id i) (fallback_rooms s) with
           | Some _ =>
               ret (s, envelope_error 400
                         ("Room with ID " ++ str_id i ++ " already exists"))
           | None =>
               let s' := save_fallback_data
                           (set_fallback_rooms (fallback_rooms s ++ [new_room]) s) in
               ret (s', envelope_message 201 "Room added successfully"
                          (OneRoom (convert_room_for_api new_room)))
           end
       | Some c =>
           i <- resolve_id env s data ;;
           let new_room := set_id (Some i) new_room in
           existing <- (if Py.truthy_opt (d_custom_id data)
                        then Mongo.find_one c i else ret None) ;;
           match existing with
           | Some _ =>
               ret (s, envelope_error 400
                         ("Room with ID " ++ str_id i ++ " already exists"))
           | None =>
               c' <- Mongo.replace_one_upsert c i new_room ;;
               let s' := sync_mongodb_to_json (set_collection c' s) in
               ret (s', envelope_message 201 "Room added successfully"
                          (OneRoom (convert_room_for_api new_room)))
           end
       end).

(** The assignments of [update_room] that take a value as it is. *)
Definition assign_name (data : RoomData) (room : Room) : Room :=
  match d_name data with Some v => set_name (Some v) room | None => room end.

Definition assign_description (data : RoomData) (room : Room) : Room :=
  match d_description data with
  | Some v => set_description (Some v) room | None => room end.

Definition assign_amenities (data : RoomData) (room : Room) : Room :=
  match d_amenities data with
  | Some v => set_amenities (Some v) room | None => room end.

(** [room['price'] = float(data['price'])] under [if 'price' in data]. *)
Definition assign_price (data : RoomData) (room : Room) : M Room :=
  match d_price data with
  | Some v => p <- py_float (Some v) ;; ret (set_price (Some (Py.Float p)) room)
  | None => ret room
  end.

(** [room['persons'] = int(data[key])] under [if key in data]. *)
Definition assign_persons (value : option Py.number) (room : Room) : M Room :=
  match value with
  | Some v => n <- py_int (Some v) ;; ret (set_persons (Some n) room)
  | None => ret room
  end.

(** The assignments of [update_room] in file mode, in their order. They are
    made on the stored dictionary itself, so the result is the room as they
    leave it, with the exception that stopped them, if one did. *)
Definition apply_update_fallback (env : Env) (data : RoomData) (room : Room)
  : Room * option Exception :=
  let room := assign_name data room in
  match assign_price data room with
  | inl e => (room, Some e)
  | inr room =>
      match assign_persons (d_capacity data) room with
      | inl e => (room, Some e)
      | inr room =>
          let room := assign_amenities data (assign_description data room) in
          (set_updated_at (Some (Text (Py.isoformat (utcnow env)))) room, None)
      end
  end.

(** The assignments of [update_room] in database mode, on the copy of the
    document found under [room_id]: an exception leaves the document alone.
    [updated_at] is a [datetime] object. *)
Definition apply_update_mongo (env : Env) (room_id : DocId) (data : RoomData)
           (existing_room : Room) : M Room :=
  let room := assign_name data (set_id (Some room_id) existing_room) in
  room <- assign_price data room ;;
  room <- assign_persons (d_capacity data) room ;;
  room <- assign_persons (d_persons data) room ;;
  let room := assign_amenities data (assign_description data room) in
  ret (set_updated_at (Some (Instant (utcnow env))) room).

(** [PUT /backend/api/admin/rooms/<room_id>]. In file mode the state that
    an exception meets holds the assignments made so far, and nothing is
    saved. *)
Definition update_room (env : Env) (s : Server) (room_id : string) (data : RoomData)
  : Server * Response :=
  match rooms_collection s with
  | None =>
      match find_fallback room_id (fallback_rooms s) with
      | None => (s, envelope_error 404 "Room not found")
      | Some room =>
          let '(room', raised) := apply_update_fallback env data room in
          let s1 := set_fallback_rooms
                      (update_first (has_id (StrId room_id)) (fun _ => room')
                                    (fallback_rooms s)) s in
          match raised with
          | Some e => (s1, internal_error e)
          | None =>
              (save_fallback_data s1,
               envelope_message 200 "Room updated successfully"
                                (OneRoom (convert_room_for_api room')))
          end
      end
  | Some c =>
      run s
        (found <- find_by_either c room_id ;;
         match found with
         | None => ret (s, envelope_error 404 "Room not found")
         | Some (i, existing_room) =>
             updated_room <- apply_update_mongo env i data existing_room ;;
             c' <- Mongo.replace_one_upsert c i updated_room ;;
             let s' := sync_mongodb_to_json (set_collection c' s) in
             ret (s', envelope_message 200 "Room updated successfully"
                        (OneRoom (convert_room_for_api updated_room)))
         end)
  end.

(* ===================================================================== *)
(** * Booking handlers *)
(* ===================================================================== *)

(** [POST /backend/api/admin/rooms/<room_id>/book]. *)
Definition book_room (env : Env) (s : Server) (room_id : string) (data : BookingData)
  : Server * Response :=
  run s
    (if negb (Py.truthy_opt (b_checkIn data))
        || negb (Py.truthy_opt (b_checkOut data))
        || negb (Py.truthy_opt (b_guestName data))
     then ret (s, envelope_error 400
                    "Missing required fields: checkIn, checkOut, guestName")
     else
       let check_in := Py.get_str (b_checkIn data) in
       let check_out := Py.get_str (b_checkOut data) in
       let guest_name := Py.get_str (b_guestName data) in
       let interval := new_interval env data check_in check_out guest_name in
       let created := envelope_message 200 "Booking created successfully"
                                       (Booking interval) in
       let conflict := envelope_error 409
         "Booking already exists or dates overlap with existing booking" in
       match rooms_collection s with
       | None =>
           match find_fallback room_id (fallback_rooms s) with
           | None => ret (s, envelope_error 404 "Room not found")
           | Some room =>
               if has_duplicate_booking check_in check_out guest_name
                                        (intervals_of room)
               then ret (s, conflict)
               else
                 let append room :=
                   set_updated_at (Some (Text (Py.isoformat (now_again env))))
                     (set_bookedIntervals
                        (Some (intervals_of room ++ [interval])) room) in
                 let s' := save_fallback_data
                             (set_fallback_rooms
                                (update_first (has_id (StrId room_id)) append
                                              (fallback_rooms s)) s) in
                 ret (s', created)
           end
       | Some c =>
           found <- find_for_booking c room_id ;;
           match found with
           | None => ret (s, envelope_error 404 "Room not found")
           | Some (_, None) =>
               raise (AttributeError "'NoneType' object has no attribute 'get'")
           | Some (i, Some room) =>
               if has_duplicate_booking check_in check_out guest_name
                                        (intervals_of room)
               then ret (s, conflict)
               else
                 res <- Mongo.update_one c (has_id i)
                          (fun r => set_updated_at (Some (Mongo.date (now_again env)))
                                      (Mongo.push_interval interval r)) ;;
                 let '(c', result) := res in
                 if (Mongo.modified_count result =? 0)%nat
                 then ret (set_collection c' s,
                           envelope_error 500 "Failed to update room")
                 else ret (sync_mongodb_to_json (set_collection c' s), created)
           end
       end).

(** [POST /backend/api/admin/rooms/<room_id>/unbook]. *)
Definition unbook_room (env : Env) (s : Server) (room_id : string) (data : BookingData)
  : Server * Response :=
  run s
    (if negb (Py.truthy_opt (b_checkIn data))
        || negb (Py.truthy_opt (b_checkOut data))
     then ret (s, envelope_error 400 "Missing required fields: checkIn, checkOut")
     else
       let check_in := Py.get_str (b_checkIn data) in
       let check_out := Py.get_str (b_checkOut data) in
       let cancelled := envelope_message 200 "Booking cancelled successfully" NoData in
       match rooms_collection s with
       | None =>
           match find_fallback room_id (fallback_rooms s) with
           | None => ret (s, envelope_error 404 "Room not found")
           | Some room =>
               match bookedIntervals room with
               | Some l =>
                   kept <- filterM (fun interval =>
                                      hit <- pair_equal check_in check_out interval ;;
                                      ret (negb hit)) l ;;
                   let reassigned :=
                     set_fallback_rooms
                       (update_first (has_id (StrId room_id))
                                     (set_bookedIntervals (Some kept))
                                     (fallback_rooms s)) s in
                   if (List.length kept =? List.length l)%nat
                   then ret (reassigned, envelope_error 404 "Booking not found")
                   else
                     let s' := save_fallback_data
                                 (set_fallback_rooms
                                    (update_first
                                       (has_id (StrId room_id))
                                       (fun room =>
                                          set_updated_at
                                            (Some (Text (Py.isoformat (now env))))
                                            (set_bookedIntervals (Some kept) room))
                                       (fallback_rooms s)) s) in
                     ret (s', cancelled)
               | None => ret (s, cancelled)
               end
           end
       | Some c =>
           found <- find_for_booking c room_id ;;
           match found with
           | None => ret (s, envelope_error 404 "Room not found")
           | Some (i, _) =>
               res <- Mongo.update_one c (has_id i)
                        (fun r => set_updated_at (Some (Mongo.date (now env)))
                                    (Mongo.pull_pair check_in check_out r)) ;;
               let '(c', result) := res in
               if (Mongo.modified_count result =? 0)%nat
               then ret (set_collection c' s,
                         envelope_error 404 "Booking not found or failed to update")
               else ret (sync_mongodb_to_json (set_collection c' s), cancelled)
           end
       end).

(** [PUT /backend/api/admin/rooms/<room_id>/update-booking]. *)
Definition update_booking (env : Env) (s : Server) (room_id : string)
           (data : BookingData) : Server * Response :=
  run s
    (if negb (Py.truthy_opt (b_checkIn data))
        || negb (Py.truthy_opt (b_checkOut data))
        || negb (Py.truthy_opt (b_guestName data))
     then ret (s, envelope_error 400
                    "Missing required fields: checkIn, checkOut, guestName")
     else
       let check_in := Py.get_str (b_checkIn data) in
       let check_out := Py.get_str (b_checkOut data) in
       let overwrite :=
         set_guest (Py.get_str (b_guestName data)) (Py.get_str (b_guestPhone data))
                   (Py.get_str (b_guestEmail data)) (Py.get_str (b_notes data)) in
       let updated := envelope_message 200 "Booking updated successfully" NoData in
       match rooms_collection s with
       | None =>
           match find_fallback room_id (fallback_rooms s) with
           | None => ret (s, envelope_error 404 "Room not found")
           | Some room =>
               match bookedIntervals room with
               | Some l =>
                   r <- update_first_pair check_in check_out
                          (overwrite (Text (Py.isoformat (now env)))) l ;;
                   match r with
                   | None => ret (s, envelope_error 404 "Booking not found")
                   | Some l' =>
                       let s' := save_fallback_data
                                   (set_fallback_rooms
                                      (update_first
                                         (has_id (StrId room_id))
                                         (fun room =>
                                            set_updated_at
                                              (Some (Text (Py.isoformat (now_again env))))
                                              (set_bookedIntervals (Some l') room))
                                         (fallback_rooms s)) s) in
                       ret (s', updated)
                   end
               | None => ret (s, updated)
               end
           end
       | Some c =>
           found <- find_for_booking c room_id ;;
           match found with
           | None => ret (s, envelope_error 404 "Room not found")
           | Some (i, _) =>
               res <- Mongo.update_one c
                        (fun r => has_id i r && Mongo.array_filter check_in check_out r)
                        (fun r => set_updated_at (Some (Mongo.date (now_again env)))
                                    (Mongo.set_positional (positional_by_last env)
                                                          check_in check_out
                                                          (overwrite (Mongo.date (now env)))
                                                          r)) ;;
               let '(c', result) := res in
               if (Mongo.matched_count result =? 0)%nat
               then ret (set_collection c' s, envelope_error 404 "Booking not found")
               else ret (sync_mongodb_to_json (set_collection c' s), updated)
           end
       end).

(* ===================================================================== *)
(** * Notions of the specification *)
(* ===================================================================== *)

(** The date [x] lies in the half-open range [[lo, hi)]. *)
Definition in_range (lo hi x : string) : Prop :=
  (lo <=? x) = true /\ (x <? hi) = true.

(** Two half-open ranges intersect when some date lies in both. *)
Definition ranges_intersect (lo1 hi1 lo2 hi2 : string) : Prop :=
  exists x, in_range lo1 hi1 x /\ in_range lo2 hi2 x.

(** The test of [classifyAvailability]: [checkIn <= asOfDate < checkOut]. *)
Definition booked_on (asOfDate : string) (i : Interval) : bool :=
  (Py.get_str (checkIn i) <=? asOfDate) && (asOfDate <? Py.get_str (checkOut i)).

(** The pair by which an interval is addressed. *)
Definition dates (i : Interval) : string * string :=
  (Py.get_str (checkIn i), Py.get_str (checkOut i)).

(** The rooms of the backend in use. *)
Definition active_rooms (s : Server) : list Room :=
  match rooms_collection s with
  | None => fallback_rooms s
  | Some c => docs c
  end.

(** The booking handlers reach the room [room], stored under [i], from the
    path parameter [room_id]. *)
Definition located (s : Server) (room_id : string) (i : DocId) (room : Room) : Prop :=
  match rooms_collection s with
  | None => i = StrId room_id /\ find_fallback room_id (fallback_rooms s) = Some room
  | Some c => find_for_booking c room_id = inr (Some (i, Some room))
  end.

(** [removeBooking] as the specification words it: the first interval with
    the pair is removed. *)
Fixpoint remove_first_pair (ci co : string) (l : list Interval) : list Interval :=
  match l with
  | [] => []
  | i :: l' =>
      if Mongo.pair_matches ci co i then l' else i :: remove_first_pair ci co l'
  end.

(** Partial update of one key: the requested value when the request has the
    key, the stored value otherwise. *)
Definition patched {A : Type} (requested stored : option A) : option A :=
  match requested with
  | Some v => Some v
  | None => stored
  end.

(** Whether a computation returns, and what. *)
Definition returns {A : Type} (m : M A) : bool :=
  match m with inr _ => true | inl _ => false end.

Definition value {A : Type} (m : M A) : option A :=
  match m with inr x => Some x | inl _ => None end.

(** The price that an update request asks for: [float(price)]. *)
Definition requested_price (data : RoomData) : option Py.number :=
  match d_price data with
  | Some v => option_map Py.Float (value (py_float (Some v)))
  | None => None
  end.

(** The number of persons that an update request asks for: [int(capacity)],
    and in database mode [int(persons)] when the request has that key too. *)
Definition requested_persons (s : Server) (data : RoomData) : option Z :=
  match rooms_collection s, d_persons data with
  | Some _, Some v => value (py_int (Some v))
  | _, _ => match d_capacity data with
            | Some v => value (py_int (Some v))
            | None => None
            end
  end.

(** The numbers of an update convert: [float] and [int] return on each
    numeric key that the handler reads, [price], [capacity] and, in database
    mode, [persons]. *)
Definition update_converts (s : Server) (data : RoomData) : bool :=
  match d_price data with Some v => returns (py_float (Some v)) | None => true end
  && match d_capacity data with Some v => returns (py_int (Some v)) | None => true end
  && match rooms_collection s, d_persons data with
     | Some _, Some v => returns (py_int (Some v))
     | _, _ => true
     end.

(** The updated document can be written: in database mode the stored
    document is one that BSON encodes and the requested number of persons
    fits in eight bytes. *)
Definition update_storable (s : Server) (data : RoomData) (old : Room) : bool :=
  match rooms_collection s with
  | None => true
  | Some _ =>
      Mongo.encodable old
      && match requested_persons s data with
         | Some n => Mongo.fits_int64 n
         | None => true
         end
  end.

(** A room as the backend in use keeps it: as it is in [fallback_rooms], as
    BSON encodes it in the collection. *)
Definition stored (s : Server) (r : Room) : Room :=
  match rooms_collection s with
  | None => r
  | Some _ => Mongo.bson_room r
  end.

(** The value that a booking handler gives a timestamp at the clock reading
    [d]: the [isoformat()] string in file mode, the [datetime] in database
    mode, where it is kept to the millisecond. *)
Definition booking_stamp (s : Server) (d : Py.datetime) : Timestamp :=
  match rooms_collection s with
  | None => Text (Py.isoformat d)
  | Some _ => Mongo.date d
  end.

(** The value of [updated_at] after [update_room]: the [isoformat()] string
    in file mode, the [datetime] itself in database mode. *)
Definition update_stamp (env : Env) (s : Server) : Timestamp :=
  match rooms_collection s with
  | None => Text (Py.isoformat (utcnow env))
  | Some _ => Instant (utcnow env)
  end.

(** A room of the API with its two timestamps left out. *)
Definition untimed (a : ApiRoom) : ApiRoom :=
  mkApiRoom (api_room_id a) (api_id a) (api_name a) (api_price a) (api_capacity a)
            (api_persons a) (api_description a) (api_amenities a)
            (api_bookedIntervals a) None None (api_available a).

(** The numbers of a create convert: [float(price)] and [int(capacity)]
    return. *)
Definition convertible (data : RoomData) : bool :=
  match py_float (d_price data), py_int (d_capacity data) with
  | inr _, inr _ => true
  | _, _ => false
  end.

(** In database mode, the database is reachable and [ObjectId()] returns an
    identifier that no stored document carries. *)
Definition database_ready (env : Env) (s : Server) : Prop :=
  forall c, rooms_collection s = Some c ->
            failure c = None
            /\ existsb (has_id (ObjId (fresh_oid env))) (docs c) = false.

(** The two clauses of [has_duplicate_booking] on one existing interval. *)
Definition exact_duplicate (check_in check_out guest_name : string) (e : Interval) : bool :=
  Py.opt_eqb (checkIn e) check_in && Py.opt_eqb (checkOut e) check_out
  && Py.opt_eqb (guestName e) guest_name.

Definition overlaps (check_in check_out : string) (e : Interval) : bool :=
  Py.truthy (Py.get_str (checkIn e)) && Py.truthy (Py.get_str (checkOut e))
  && ((check_in <? Py.get_str (checkOut e))
      && (Py.get_str (checkIn e) <? check_out)).

(** The candidate lies apart from [e]: [e] ends on or before its check-in
    (back to back when equal), or starts on or after its check-out. *)
Definition apart (check_in check_out : string) (e : Interval) : Prop :=
  (Py.get_str (checkOut e) <=? check_in) = true
  \/ (check_out <=? Py.get_str (checkIn e)) = true.

(** Every interval carries both dates, so that subscripting never raises. *)
Definition has_dates (i : Interval) : bool :=
  is_some (checkIn i) && is_some (checkOut i).

(* ===================================================================== *)
(** * Sample data *)
(* ===================================================================== *)

Module Sample.

(** A request served on a whole second, its second clock reading a moment
    later. *)
Definition env : Env :=
  mkEnv (Py.mkDatetime "2024-05-20" "10:00:00" 0)
        (Py.mkDatetime "2024-05-20" "10:00:00" 250)
        (Py.mkDatetime "2024-05-20" "03:00:00" 0)
        (Py.mkDatetime "2024-05-20" "03:00:00" 125)
        "65f0c0ffee0123456789abcd" true.

Definition later : Env :=
  mkEnv (Py.mkDatetime "2024-05-21" "09:30:00" 0)
        (Py.mkDatetime "2024-05-21" "09:30:00" 250)
        (Py.mkDatetime "2024-05-21" "02:30:00" 0)
        (Py.mkDatetime "2024-05-21" "02:30:00" 125)
        "65f0c0ffee0123456789abce" true.

(** The same instant, with the positional operator resolved either way. *)
Definition resolving (by_last : bool) : Env :=
  mkEnv (Py.mkDatetime "2024-05-21" "09:30:00" 0)
        (Py.mkDatetime "2024-05-21" "09:30:00" 250)
        (Py.mkDatetime "2024-05-21" "02:30:00" 0)
        (Py.mkDatetime "2024-05-21" "02:30:00" 125)
        "65f0c0ffee0123456789abce" by_last.

(** A request served in the middle of a millisecond. *)
Definition precise : Env :=
  mkEnv (Py.mkDatetime "2024-05-22" "08:15:30" 123456)
        (Py.mkDatetime "2024-05-22" "08:15:30" 123789)
        (Py.mkDatetime "2024-05-22" "01:15:30" 123456)
        (Py.mkDatetime "2024-05-22" "01:15:30" 123789)
        "65f0c0ffee0123456789abcf" true.

(** A room as the JSON file holds it after [add_room] wrote it. *)
Definition room (i : string) (l : list Interval) : Room :=
  mkRoom (Some (StrId i)) (Some "Garden room") (Some (Py.Float (Py.double 450000)))
         (Some 2%Z) (Some "Ground floor, garden view") (Some ["wifi"])
         (Some l) (Some (Text "2024-05-01T08:00:00"))
         (Some (Text "2024-05-01T08:00:00")).

(** A room of a hand-written snapshot, without the [bookedIntervals] key. *)
Definition bare_room (i : string) : Room :=
  mkRoom (Some (StrId i)) (Some "Attic") (Some (Py.Int 300000)) (Some 1%Z)
         (Some "Under the roof") (Some []) None None None.

(** An interval the way [book_room] stores it. *)
Definition stay (ci co g : string) : Interval :=
  mkInterval (Some ci) (Some co) (Some g) (Some "") (Some "") (Some "")
             (Some "2024-05-20T10:00:00") None.

Definition file_mode (rooms : list Room) : Server :=
  mkServer None rooms rooms true.

Definition db_mode (rooms : list Room) : Server :=
  mkServer (Some (mkCollection rooms None)) [] rooms true.

(** The database went away after the snapshot [snapshot] was loaded. *)
Definition db_down (snapshot : list Room) : Server :=
  mkServer (Some (mkCollection [] (Some "connection closed"))) snapshot snapshot true.

Definition booking (ci co g : string) : BookingData :=
  mkBookingData (Some ci) (Some co) (Some g) None None None.

Definition new_room_data (custom_id : option string) : RoomData :=
  mkRoomData (Some "Lake room") (Some (Py.Int 500000)) (Some (Py.Int 2)) None
             (Some "First floor, lake view") (Some ["wifi"; "balcony"]) custom_id.

Definition rename (n : string) : RoomData :=
  mkRoomData (Some n) None None None None None None.

(** The double nearest to [n / d]: what a JSON literal such as 2.9, that is
    29 / 10, is parsed to. *)
Definition real (n d : Z) : Py.number :=
  Py.Float (SFdiv 53 1024 (Py.double n) (Py.double d)).

(** An update of the two numeric keys. *)
Definition reprice (price capacity : Py.number) : RoomData :=
  mkRoomData None (Some price) (Some capacity) None None None None.

(** A new name with a price beyond the doubles. *)
Definition overpriced (n : string) : RoomData :=
  mkRoomData (Some n) (Some (Py.Int (10 ^ 400))) None None None None None.

(** The string of four superscript twos, U+00B2. *)
Definition superscript_id : string :=
  String "178" (String "178" (String "178" (String "178" ""))).

End Sample.

(* ===================================================================== *)
(** * The remaining room handlers *)
(* ===================================================================== *)

(** [GET /backend/api/rooms/<room_id>]. *)
Definition get_public_room (s : Server) (room_id : string) : Response :=
  match lookup_room s room_id with
  | inr None => envelope_error 404 "Room not found"
  | inr (Some (_, room)) =>
      mkResponse 200 true None None (OneRoom (convert_room_for_api room)) None None
  | inl e => internal_error e
  end.

(** [GET /backend/api/admin/rooms/<room_id>]: the same body as the public
    handler. *)
Definition get_room (s : Server) (room_id : string) : Response :=
  match lookup_room s room_id with
  | inr None => envelope_error 404 "Room not found"
  | inr (Some (_, room)) =>
      mkResponse 200 true None None (OneRoom (convert_room_for_api room)) None None
  | inl e => internal_error e
  end.

(** [GET /backend/api/admin/rooms]: the list without the recovery branch of
    the public handler. *)
Definition get_all_rooms (s : Server) : Response :=
  match rooms_collection s with
  | None =>
      envelope_rooms (map convert_room_for_api (fallback_rooms s)) (Some "fallback")
  | Some c =>
      match Mongo.find c with
      | inr rooms => envelope_rooms (map convert_room_for_api rooms) (Some "mongodb")
      | inl e => internal_error e
      end
  end.

(** Drops the first element satisfying [p]. *)
Fixpoint remove_first {A : Type} (p : A -> bool) (l : list A) : list A :=
  match l with
  | [] => []
  | x :: l' => if p x then l' else x :: remove_first p l'
  end.

(** [collection.delete_one({'_id': i})]: deletes the first matching document;
    the number returned is [deleted_count]. *)
Definition delete_one (c : Collection) (i : DocId) : M (Collection * nat) :=
  Mongo.guard c
    (mkCollection (remove_first (has_id i) (docs c)) (failure c),
     if existsb (has_id i) (docs c) then 1 else 0).

(** [DELETE /backend/api/admin/rooms/<room_id>]. *)
Definition delete_room (s : Server) (room_id : string) : Server * Response :=
  let deleted := envelope_message 200 "Room deleted successfully" NoData in
  run s
    match rooms_collection s with
    | None =>
        let original_count := List.length (fallback_rooms s) in
        let s1 := set_fallback_rooms
                    (List.filter (fun r => negb (has_id (StrId room_id) r))
                                 (fallback_rooms s)) s in
        if (List.length (fallback_rooms s1) =? original_count)%nat
        then ret (s1, envelope_error 404 "Room not found")
        else ret (save_fallback_data s1, deleted)
    | Some c =>
        result <- delete_one c (StrId room_id) ;;
        let result :=
          if (snd result =? 0)%nat
          then match ObjectId room_id with
               | Some obj_id =>
                   match delete_one (fst result) obj_id with
                   | inr again => again
                   | inl _ => result
                   end
               | None => result
               end
          else result in
        if (snd result =? 0)%nat
        then ret (set_collection (fst result) s, envelope_error 404 "Room not found")
        else ret (sync_mongodb_to_json (set_collection (fst result) s), deleted)
    end.

(* ===================================================================== *)
(** * Connecting, reconnecting and the manual sync *)
(* ===================================================================== *)

(** The state of [Server] together with the global [data_source]. The
    globals [client] and [db] are set and reset together with
    [rooms_collection] and are not kept apart. *)
Record Process : Type := mkProcess {
  server : Server;
  data_source : string
}.

(** What an attempt to connect meets: no [MONGODB_URI], an exception from
    [MongoClient] or from the ping, or a collection. *)
Inductive Connection : Type :=
| NoUri
| Refused
| Connected (c : Collection).

Definition clear_collection (s : Server) : Server :=
  mkServer None (fallback_rooms s) (json_file s) (disk_writable s).

(** [load_fallback_data]; [readable] is whether the file opens and parses. *)
Definition load_fallback_data (readable : bool) (p : Process) : bool * Process :=
  if readable
  then (true, mkProcess (set_fallback_rooms (json_file (server p)) (server p))
                        "fallback_json")
  else (false, p).

(** [connect_mongodb]. *)
Definition connect_mongodb (o : Connection) (p : Process) : bool * Process :=
  match o with
  | NoUri => (false, p)
  | Refused => (false, mkProcess (clear_collection (server p)) (data_source p))
  | Connected c =>
      (true, mkProcess (sync_mongodb_to_json (set_collection c (server p))) "mongodb")
  end.

(** The globals as the module initialises them, beside the file on disk. *)
Definition initial (file : list Room) (writable : bool) : Process :=
  mkProcess (mkServer None [] file writable) "none".

(** The module-level [if not connect_mongodb(): load_fallback_data()]. *)
Definition startup (o : Connection) (readable : bool) (file : list Room)
           (writable : bool) : Process :=
  let '(connected, p) := connect_mongodb o (initial file writable) in
  if connected then p else snd (load_fallback_data readable p).

(** [POST /backend/reconnect]. *)
Definition reconnect_database (o : Connection) (p : Process) : Process * Response :=
  let '(connected, p') := connect_mongodb o p in
  if connected
  then (p', mkResponse 200 true (Some "Successfully reconnected to MongoDB") None
                       NoData None (Some "mongodb"))
  else (p', mkResponse 200 false
                       (Some "Failed to reconnect to MongoDB, using fallback data")
                       None NoData None (Some (data_source p'))).

(** The boolean that [sync_mongodb_to_json] returns. *)
Definition sync_succeeds (s : Server) : bool :=
  match rooms_collection s with
  | Some c =>
      match Mongo.find c with
      | inr _ => disk_writable s
      | inl _ => false
      end
  | None => false
  end.

(** [POST /backend/sync]. *)
Definition sync_data (s : Server) : Server * Response :=
  match rooms_collection s with
  | Some _ =>
      if sync_succeeds s
      then (sync_mongodb_to_json s,
            mkResponse 200 true (Some "Data synced to JSON backup") None NoData None None)
      else (sync_mongodb_to_json s,
            mkResponse 500 false (Some "Failed to sync data") None NoData None None)
  | None =>
      (s, mkResponse 400 false (Some "MongoDB not connected, nothing to sync") None
                     NoData None None)
  end.

(* ===================================================================== *)
(** * Notions for the properties of the store *)
(* ===================================================================== *)

(** The state in which the backend in use holds the rooms [l]. *)
Definition with_active (l : list Room) (s : Server) : Server :=
  match rooms_collection s with
  | None => set_fallback_rooms l s
  | Some c => set_collection (mkCollection l (failure c)) s
  end.

(** The mirror write that follows a mutation. *)
Definition mirror (s : Server) : Server :=
  match rooms_collection s with
  | None => save_fallback_data s
  | Some _ => sync_mongodb_to_json s
  end.

(** The database starts raising. *)
Definition database_fails (msg : string) (s : Server) : Server :=
  match rooms_collection s with
  | Some c => set_collection (mkCollection (docs c) (Some msg)) s
  | None => s
  end.

(** No two rooms of the list carry the same [_id]. *)
Definition unique_ids (rooms : list Room) : Prop := NoDup (map _id rooms).

(** No two intervals of the list have intersecting half-open ranges. *)
Definition pairwise_apart (l : list Interval) : Prop :=
  ForallOrdPairs
    (fun a b => ~ ranges_intersect (Py.get_str (checkIn a)) (Py.get_str (checkOut a))
                                   (Py.get_str (checkIn b)) (Py.get_str (checkOut b)))
    l.

(** The mirror file holds the rooms of the backend in use. *)
Definition mirrored (s : Server) : Prop :=
  json_file s = map jsonify_room (active_rooms s).

(** What a room shows of its identity and of its calendar. *)
Definition calendar (r : Room) : option DocId * list (string * string) :=
  (_id r, map dates (intervals_of r)).

(** The answer is one of the two success codes. *)
Definition succeeded (r : Response) : Prop := status r = 200 \/ status r = 201.

(** A document that is the first under its id is what the lookup returns,
    when the path parameter names it as the handlers expect: the string id
    itself, or the hexadecimal form of an ObjectId that no string id
    equals. *)
Definition names (room_id : string) (i : DocId) (l : list Room) : Prop :=
  i = StrId room_id
  \/ (ObjectId room_id = Some i /\ existsb (has_id (StrId room_id)) l = false).


(** The path parameter reaches at most one kind of identifier: when it reads
    as an ObjectId, no two rooms carry it, one as a string and one as an
    ObjectId. *)
Definition unambiguous (room_id : string) (rooms : list Room) : Prop :=
  forall oid, ObjectId room_id = Some oid ->
              existsb (has_id (StrId room_id)) rooms = true ->
              existsb (has_id oid) rooms = false.

(** The calendar of a room is tidy: every interval has a check-in date and
    no two intervals intersect. *)
Definition tidy (r : Room) : Prop :=
  pairwise_apart (intervals_of r)
  /\ Forall (fun e => Py.truthy (Py.get_str (checkIn e)) = true) (intervals_of r).

(** No room of the backend in use is booked twice on any date. *)
Definition no_double_booking (s : Server) : Prop := Forall tidy (active_rooms s).

(* ===================================================================== *)
(** * The routes *)
(* ===================================================================== *)

(** The routes of the application that answer with the JSON envelope, with
    the path parameter and the body of each. *)
Inductive Request : Type :=
| GetPublicRooms
| GetPublicRoom (room_id : string)
| GetAvailableRooms
| GetRoomStatus (room_id : string)
| GetAllRooms
| GetRoom (room_id : string)
| AddRoom (data : RoomData)
| UpdateRoom (room_id : string) (data : RoomData)
| DeleteRoom (room_id : string)
| BookRoom (room_id : string) (data : BookingData)
| UnbookRoom (room_id : string) (data : BookingData)
| UpdateBooking (room_id : string) (data : BookingData)
| ReconnectDatabase
| SyncData.

(** A request as it arrives: the clock it reads, and what an attempt to
    connect would meet at that moment. *)
Record Event : Type := mkEvent {
  clock : Env;
  link : Connection;
  request : Request
}.

(** A handler that only assigns the globals of [Server]. *)
Definition writing (out : Server * Response) (p : Process) : Process * Response :=
  (mkProcess (fst out) (data_source p), snd out).

(** The dispatch of one request on the globals of the process. *)
Definition handle (e : Event) (p : Process) : Process * Response :=
  let env := clock e in
  let s := server p in
  match request e with
  | GetPublicRooms => (p, get_public_rooms s)
  | GetPublicRoom room_id => (p, get_public_room s room_id)
  | GetAvailableRooms => (p, get_available_rooms env s)
  | GetRoomStatus room_id => (p, get_room_status env s room_id)
  | GetAllRooms => (p, get_all_rooms s)
  | GetRoom room_id => (p, get_room s room_id)
  | AddRoom data => writing (add_room env s data) p
  | UpdateRoom room_id data => writing (update_room env s room_id data) p
  | DeleteRoom room_id => writing (delete_room s room_id) p
  | BookRoom room_id data => writing (book_room env s room_id data) p
  | UnbookRoom room_id data => writing (unbook_room env s room_id data) p
  | UpdateBooking room_id data => writing (update_booking env s room_id data) p
  | ReconnectDatabase => reconnect_database (link e) p
  | SyncData => writing (sync_data s) p
  end.

(** The process after a sequence of requests, one at a time. *)
Fixpoint serve (events : list Event) (p : Process) : Process :=
  match events with
  | [] => p
  | e :: events' => serve events' (fst (handle e p))
  end.

(** The process runs on the database and holds no snapshot. *)
Definition without_snapshot (p : Process) : Prop :=
  rooms_collection (server p) <> None
  /\ fallback_rooms (server p) = []
  /\ data_source p = "mongodb".

(** [int] reads the id of the room whenever [isdigit] holds of its string:
    the test that the comprehension of [add_room] passes without raising. *)
Definition readable_id (r : Room) : bool :=
  match _id r with
  | None => true
  | Some (StrId x) => negb (Py.isdigit x) || is_some (Py.int_of_str x)
  | Some (ObjId h) => negb (Py.isdigit h)
  end.

(** The room is one that the path parameter can name: its id is the string
    itself, or the ObjectId that the string reads as. *)
Definition named (room_id : string) (r : Room) : bool :=
  has_id (StrId room_id) r
  || match ObjectId room_id with Some oid => has_id oid r | None => false end.

(* ===================================================================== *)
(** * The string order *)
(* ===================================================================== *)

Section StringOrder.

Lemma ltb_lt (a b : string) : (a <? b) = true <-> String_as_OT.lt a b.
Proof.
  rewrite <- String_as_OT.cmp_lt. unfold String.ltb, String_as_OT.cmp.
  destruct (a ?= b); split; intro H; congruence.
Qed.

Lemma ltb_trans (a b c : string) :
  (a <? b) = true -> (b <? c) = true -> (a <? c) = true.
Proof.
  rewrite !ltb_lt. apply String_as_OT.lt_trans.
Qed.

Lemma ltb_irrefl (a : string) : (a <? a) = false.
Proof.
  destruct (a <? a) eqn:E; [| reflexivity].
  apply ltb_lt in E. exfalso. apply (String_as_OT.lt_not_eq a a E). reflexivity.
Qed.

Lemma leb_iff (a b : string) :
  (a <=? b) = true <-> a = b \/ (a <? b) = true.
Proof.
  unfold String.leb, String.ltb.
  destruct (a ?= b) eqn:E.
  - apply String.compare_eq_iff in E. tauto.
  - tauto.
  - split; [discriminate |].
    intros [-> | H]; [| discriminate].
    assert (R : (b ?= b) = Eq) by (apply String_as_OT.cmp_eq; reflexivity).
    congruence.
Qed.

Lemma leb_refl (a : string) : (a <=? a) = true.
Proof. apply leb_iff. now left. Qed.

Lemma leb_ltb_trans (a b c : string) :
  (a <=? b) = true -> (b <? c) = true -> (a <? c) = true.
Proof.
  intros H1 H2. apply leb_iff in H1. destruct H1 as [-> | H1]; [assumption |].
  eapply ltb_trans; eassumption.
Qed.

(** [a < b] is the negation of [b <= a]: the order is total. *)
Lemma ltb_negb_leb (a b : string) : (a <? b) = negb (b <=? a).
Proof.
  unfold String.ltb, String.leb. rewrite (String.compare_antisym a b).
  destruct (b ?= a); reflexivity.
Qed.

Lemma leb_ltb_false (a b : string) : (a <=? b) = true -> (b <? a) = false.
Proof. intro H. rewrite ltb_negb_leb, H. reflexivity. Qed.

Lemma ltb_empty (a : string) : (a <? "") = false.
Proof. destruct a; reflexivity. Qed.

Lemma ltb_truthy (a b : string) : (a <? b) = true -> Py.truthy b = true.
Proof.
  destruct b; [rewrite ltb_empty; discriminate | reflexivity].
Qed.

End StringOrder.

(* ===================================================================== *)
(** * Lists, identifiers and document equality *)
(* ===================================================================== *)

Section Lists.

Context {A : Type}.
Variables (p : A -> bool) (f : A -> A).

Lemma update_first_hit (l : list A) (x : A) :
  List.find p l = Some x ->
  update_first p f l = update_first p (fun _ => f x) l.
Proof.
  induction l as [| y l IH]; simpl; [discriminate |].
  destruct (p y); intro H.
  - now inversion H.
  - now rewrite IH.
Qed.

Lemma update_first_same (l : list A) (x : A) :
  List.find p l = Some x -> f x = x -> update_first p f l = l.
Proof.
  induction l as [| y l IH]; simpl; [discriminate |].
  destruct (p y); intros H E.
  - inversion H; subst. now rewrite E.
  - now rewrite IH.
Qed.

(** After the update, the first match is the rewritten element, provided
    the rewriting keeps it a match. *)
Lemma find_update_first (l : list A) (x : A) :
  List.find p l = Some x -> p (f x) = true ->
  List.find p (update_first p f l) = Some (f x).
Proof.
  induction l as [| y l IH]; simpl; [discriminate |].
  destruct (p y) eqn:E; intros H K.
  - inversion H; subst. simpl. now rewrite K.
  - simpl. rewrite E. now apply IH.
Qed.

Lemma find_existsb (l : list A) (x : A) :
  List.find p l = Some x -> existsb p l = true.
Proof.
  induction l as [| y l IH]; simpl; [discriminate |].
  destruct (p y); simpl; auto.
Qed.

Lemma existsb_find (l : list A) :
  existsb p l = true -> exists x, List.find p l = Some x.
Proof.
  induction l as [| y l IH]; simpl; [discriminate |].
  destruct (p y); simpl; eauto.
Qed.

End Lists.

Section Filters.

Context {A : Type}.
Variable p : A -> bool.

Lemma filter_length_le (l : list A) :
  (List.length (List.filter p l) <= List.length l)%nat.
Proof.
  induction l as [| y l IH]; simpl; [lia |].
  destruct (p y); simpl; lia.
Qed.

Lemma filter_drops (l : list A) (x : A) :
  In x l -> p x = false ->
  (List.length (List.filter p l) < List.length l)%nat.
Proof.
  induction l as [| y l IH]; simpl; [tauto |].
  intros [-> | H] K.
  - rewrite K. pose proof (filter_length_le l). lia.
  - specialize (IH H K). destruct (p y); simpl; lia.
Qed.

Lemma filter_keeps_all (l : list A) :
  (forall x, In x l -> p x = true) -> List.filter p l = l.
Proof.
  induction l as [| y l IH]; simpl; [reflexivity |].
  intro H. rewrite (H y) by now left. f_equal. apply IH. auto.
Qed.

End Filters.

Section Equality.

Lemma id_eqb_eq (a b : DocId) : id_eqb a b = true <-> a = b.
Proof.
  destruct a, b; simpl; rewrite ?String.eqb_eq; split; congruence.
Qed.

Lemma id_eqb_refl (a : DocId) : id_eqb a a = true.
Proof. now apply id_eqb_eq. Qed.

Lemma has_id_eq (i : DocId) (r : Room) : has_id i r = true <-> _id r = Some i.
Proof.
  unfold has_id. destruct (_id r) as [j |].
  - rewrite id_eqb_eq. split; congruence.
  - split; discriminate.
Qed.

Lemma find_has_id (i : DocId) (l : list Room) (r : Room) :
  List.find (has_id i) l = Some r -> _id r = Some i.
Proof.
  intro H. apply find_some in H. now apply has_id_eq.
Qed.

Lemma list_eqb_length {A : Type} (eqb : A -> A -> bool) (a b : list A) :
  list_eqb eqb a b = true -> List.length a = List.length b.
Proof.
  revert b. induction a as [| x a IH]; destruct b as [| y b]; simpl;
    try discriminate; [reflexivity |].
  intro H. apply andb_true_iff in H. f_equal. now apply IH.
Qed.

(** Documents that compare equal have interval arrays of the same length. *)
Lemma Room_eqb_intervals (a b : Room) :
  Room_eqb a b = true ->
  List.length (intervals_of a) = List.length (intervals_of b)
  /\ is_some (bookedIntervals a) = is_some (bookedIntervals b).
Proof.
  unfold Room_eqb, intervals_of. rewrite !andb_true_iff.
  intros [[[_ H] _] _].
  destruct (bookedIntervals a), (bookedIntervals b); simpl in *;
    try discriminate; auto.
  split; [now apply list_eqb_length in H | reflexivity].
Qed.

End Equality.

(* ===================================================================== *)
(** * Availability on a date *)
(* ===================================================================== *)

Section Availability.

Variable asOfDate : string.

Lemma status_scan_find (l : list Interval) :
  status_scan asOfDate l =
  match List.find (booked_on asOfDate) l with
  | Some i => (false, Some (dates i))
  | None => (true, None)
  end.
Proof.
  induction l as [| i l IH]; simpl; [reflexivity |].
  unfold booked_on at 1.
  destruct ((Py.get_str (checkIn i) <=? asOfDate)
            && (asOfDate <? Py.get_str (checkOut i))); [reflexivity | exact IH].
Qed.

Lemma available_scan_find (l : list Interval) :
  available_scan asOfDate l = negb (existsb (booked_on asOfDate) l).
Proof.
  induction l as [| i l IH]; simpl; [reflexivity |].
  unfold booked_on at 1.
  destruct ((Py.get_str (checkIn i) <=? asOfDate)
            && (asOfDate <? Py.get_str (checkOut i))); [reflexivity | exact IH].
Qed.

Lemma find_booked_none (l : list Interval) :
  List.find (booked_on asOfDate) l = None <->
  (forall i, In i l -> booked_on asOfDate i = false).
Proof.
  split.
  - intros H i Hi. exact (find_none _ _ H i Hi).
  - induction l as [| i l IH]; simpl; [reflexivity |].
    intro H. rewrite (H i) by now left. apply IH. auto.
Qed.

End Availability.

(** C2. For every list of intervals and every date, the loops of
    [get_room_status] and [get_available_rooms] report the room unavailable
    exactly when some interval has [checkIn <= asOfDate < checkOut] in the
    lexicographic order of strings, and the current booking is the pair of
    the first such interval in list order; the interval
    [2024-06-01, 2024-06-05) makes the room unavailable on 2024-06-03 and
    leaves it available on 2024-06-05 and on 2024-05-31. *)
Theorem classify_availability (asOfDate : string) (l : list Interval) :
  (fst (status_scan asOfDate l) = false <->
   exists i, In i l /\ booked_on asOfDate i = true)
  /\ available_scan asOfDate l = fst (status_scan asOfDate l)
  /\ snd (status_scan asOfDate l) =
     option_map dates (List.find (booked_on asOfDate) l)
  /\ (let june := Sample.stay "2024-06-01" "2024-06-05" "An" in
      status_scan "2024-06-03" [june] = (false, Some ("2024-06-01", "2024-06-05"))
      /\ status_scan "2024-06-05" [june] = (true, None)
      /\ status_scan "2024-05-31" [june] = (true, None))
  /\ (let first := Sample.stay "2024-06-03" "2024-06-10" "An" in
      let earlier := Sample.stay "2024-06-01" "2024-06-05" "Binh" in
      snd (status_scan "2024-06-04" [first; earlier])
      = Some ("2024-06-03", "2024-06-10")).
Proof.
  repeat split; try reflexivity.
  - rewrite status_scan_find.
    destruct (List.find (booked_on asOfDate) l) as [i |] eqn:E; simpl.
    + intros _. exists i. apply find_some in E. tauto.
    + discriminate.
  - intros [i [Hi Hb]]. rewrite status_scan_find.
    destruct (List.find (booked_on asOfDate) l) as [j |] eqn:E; simpl;
      [reflexivity |].
    rewrite (proj1 (find_booked_none asOfDate l) E i Hi) in Hb. discriminate.
  - rewrite available_scan_find, status_scan_find.
    destruct (List.find (booked_on asOfDate) l) as [i |] eqn:E; simpl.
    + now rewrite (find_existsb _ _ _ E).
    + destruct (existsb (booked_on asOfDate) l) eqn:X; [| reflexivity].
      apply existsb_find in X. destruct X as [x X]. congruence.
  - rewrite status_scan_find.
    now destruct (List.find (booked_on asOfDate) l).
Qed.

(* ===================================================================== *)
(** * Listing rooms while the database is failing *)
(* ===================================================================== *)

(** C9. When the database raises during [GET /backend/api/rooms] and the
    fallback list is not empty, the handler answers 200 with the rooms of
    that list and the source tag [fallback_error_recovery]; it answers 500
    only when the database raises and the fallback list is empty, and then
    it does. *)
Theorem get_public_rooms_recovery (s : Server) :
  (forall c msg,
      rooms_collection s = Some c -> failure c = Some msg ->
      fallback_rooms s <> [] ->
      get_public_rooms s =
      mkResponse 200 true None None
                 (RoomList (map convert_room_for_api (fallback_rooms s)))
                 (Some (List.length (fallback_rooms s)))
                 (Some "fallback_error_recovery"))
  /\ (status (get_public_rooms s) = 500 ->
      fallback_rooms s = []
      /\ exists c msg, rooms_collection s = Some c /\ failure c = Some msg)
  /\ (forall c msg,
         rooms_collection s = Some c -> failure c = Some msg ->
         fallback_rooms s = [] ->
         get_public_rooms s = envelope_error 500 msg).
Proof.
  unfold get_public_rooms, Mongo.find, Mongo.guard.
  split; [| split].
  - intros c msg Hc Hf Hne. rewrite Hc, Hf. simpl.
    destruct (fallback_rooms s) as [| r l]; [congruence |].
    unfold envelope_rooms. now rewrite length_map.
  - destruct (rooms_collection s) as [c |]; [| discriminate].
    destruct (failure c) as [msg |] eqn:Hf; [| discriminate]. simpl.
    destruct (fallback_rooms s); [| discriminate].
    intros _. split; [reflexivity |]. now exists c, msg.
  - intros c msg Hc Hf He. now rewrite Hc, Hf, He.
Qed.

Lemma get_public_rooms_recovery_witness :
  get_public_rooms (Sample.db_down [Sample.room "0101" []]) =
  mkResponse 200 true None None
             (RoomList [convert_room_for_api (Sample.room "0101" [])])
             (Some 1%nat) (Some "fallback_error_recovery")
  /\ get_public_rooms (Sample.db_down []) = envelope_error 500 "connection closed".
Proof.
  split.
  - apply (proj1 (get_public_rooms_recovery
                    (Sample.db_down [Sample.room "0101" []]))
                 (mkCollection [] (Some "connection closed")) "connection closed");
      [reflexivity | reflexivity | discriminate].
  - apply (proj2 (proj2 (get_public_rooms_recovery (Sample.db_down [])))
                 (mkCollection [] (Some "connection closed")) "connection closed");
      reflexivity.
Defined.

(* ===================================================================== *)
(** * Cancelling on a room without the [bookedIntervals] key *)
(* ===================================================================== *)

(** C10. In file mode, when the room exists and its record has no
    [bookedIntervals] key, [unbook] answers 200 with the message
    "Booking cancelled successfully" and changes neither the room nor the
    mirror file. *)
Theorem unbook_room_without_intervals
        (env : Env) (s : Server) (room_id : string) (data : BookingData) (room : Room) :
  rooms_collection s = None ->
  Py.truthy_opt (b_checkIn data) = true ->
  Py.truthy_opt (b_checkOut data) = true ->
  find_fallback room_id (fallback_rooms s) = Some room ->
  bookedIntervals room = None ->
  unbook_room env s room_id data =
  (s, mkResponse 200 true (Some "Booking cancelled successfully") None NoData None None).
Proof.
  intros Hmode Hin Hout Hroom Hnone.
  unfold unbook_room. rewrite Hin, Hout, Hmode, Hroom, Hnone. reflexivity.
Qed.

Lemma unbook_room_without_intervals_witness :
  unbook_room Sample.env (Sample.file_mode [Sample.bare_room "0301"]) "0301"
              (Sample.booking "2024-06-01" "2024-06-05" "An") =
  (Sample.file_mode [Sample.bare_room "0301"],
   mkResponse 200 true (Some "Booking cancelled successfully") None NoData None None).
Proof.
  apply (unbook_room_without_intervals _ _ _ _ (Sample.bare_room "0301"));
    reflexivity.
Defined.

(* ===================================================================== *)
(** * What the mirror writes leave alone *)
(* ===================================================================== *)

Section Mirror.

Lemma save_fallback_rooms (s : Server) :
  fallback_rooms (save_fallback_data s) = fallback_rooms s
  /\ rooms_collection (save_fallback_data s) = rooms_collection s
  /\ disk_writable (save_fallback_data s) = disk_writable s.
Proof.
  unfold save_fallback_data.
  destruct (disk_writable s) eqn:W; simpl; rewrite ?W; auto.
Qed.

Lemma sync_keeps_store (s : Server) :
  fallback_rooms (sync_mongodb_to_json s) = fallback_rooms s
  /\ rooms_collection (sync_mongodb_to_json s) = rooms_collection s
  /\ disk_writable (sync_mongodb_to_json s) = disk_writable s.
Proof.
  unfold sync_mongodb_to_json.
  destruct (rooms_collection s) as [c |] eqn:E;
    [destruct (Mongo.find c); [| destruct (disk_writable s) eqn:W] |];
    simpl; rewrite ?E, ?W; auto.
Qed.

Lemma active_rooms_save (s : Server) :
  active_rooms (save_fallback_data s) = active_rooms s.
Proof.
  unfold active_rooms. destruct (save_fallback_rooms s) as [F [C _]].
  now rewrite F, C.
Qed.

Lemma active_rooms_sync (s : Server) :
  active_rooms (sync_mongodb_to_json s) = active_rooms s.
Proof.
  unfold active_rooms. destruct (sync_keeps_store s) as [F [C _]].
  now rewrite F, C.
Qed.

(** In file mode a successful save leaves the file equal to the list. *)
Lemma save_writes (s : Server) :
  disk_writable s = true ->
  json_file (save_fallback_data s) = map jsonify_room (fallback_rooms s).
Proof. unfold save_fallback_data. now intros ->. Qed.

(** In database mode a successful sync leaves the file equal to the
    collection. *)
Lemma sync_writes (s : Server) (c : Collection) :
  rooms_collection s = Some c -> failure c = None -> disk_writable s = true ->
  json_file (sync_mongodb_to_json s) = map jsonify_room (docs c).
Proof.
  unfold sync_mongodb_to_json, Mongo.find, Mongo.guard.
  now intros -> -> ->.
Qed.

End Mirror.

(* ===================================================================== *)
(** * Creating a room under an id already in use *)
(* ===================================================================== *)

Section Create.

Variables (env : Env) (s : Server) (data : RoomData).

Lemma required_numbers :
  has_required_fields data = true ->
  exists p n, d_price data = Some p /\ d_capacity data = Some n.
Proof.
  unfold has_required_fields. rewrite !andb_true_iff.
  intros [[[[_ Hp] Hn] _] _].
  destruct (d_price data) as [p |], (d_capacity data) as [n |];
    try discriminate. eauto.
Qed.

Lemma converted_numbers :
  convertible data = true ->
  exists p n, py_float (d_price data) = inr p /\ py_int (d_capacity data) = inr n.
Proof.
  unfold convertible.
  destruct (py_float (d_price data)) as [e | p]; [discriminate |].
  destruct (py_int (d_capacity data)) as [e | n]; [discriminate |]. eauto.
Qed.

Lemma has_id_bson (i : DocId) (r : Room) :
  has_id i (Mongo.bson_room r) = has_id i r.
Proof. reflexivity. Qed.

Lemma has_id_set_id (i : DocId) (r : Room) : has_id i (set_id (Some i) r) = true.
Proof. unfold has_id. cbn. apply id_eqb_refl. Qed.

Lemma replace_stores (c c' : Collection) (i : DocId) (doc : Room) :
  Mongo.replace_one_upsert c i doc = inr c' -> has_id i doc = true ->
  existsb (has_id i) (docs c') = true /\ failure c' = None.
Proof.
  unfold Mongo.replace_one_upsert, Mongo.guard.
  destruct (failure c) eqn:Hup; [discriminate |]. cbn [bind ret].
  destruct (Mongo.encodable doc); [| discriminate].
  intros H K. inversion H; subst; clear H. cbn [docs failure].
  split; [| reflexivity].
  destruct (existsb (has_id i) (docs c)) eqn:X.
  - destruct (existsb_find _ _ X) as [x Fx].
    eapply find_existsb. apply (find_update_first _ _ _ _ Fx).
    now rewrite has_id_bson.
  - rewrite existsb_app. cbn [existsb]. rewrite has_id_bson, K. apply orb_true_r.
Qed.

Lemma add_room_rejects_used_id (i : DocId) :
  has_required_fields data = true ->
  bad_custom_id (d_custom_id data) = false ->
  convertible data = true ->
  database_ready env s ->
  resolve_id env s data = inr i ->
  existsb (has_id i) (active_rooms s) = true ->
  add_room env s data =
  (s, envelope_error 400 ("Room with ID " ++ str_id i ++ " already exists")).
Proof.
  intros Hreq Hid Hnum Hdb Hres Hex.
  destruct (converted_numbers Hnum) as [p [n [Hp Hn]]].
  unfold add_room. rewrite Hreq, Hid, Hp, Hn. cbn [negb bind ret].
  unfold active_rooms in Hex.
  destruct (rooms_collection s) as [c |] eqn:Hc.
  - rewrite Hres. cbn [bind].
    destruct (Hdb c Hc) as [Hup Hfresh].
    destruct (Py.truthy_opt (d_custom_id data)) eqn:Hcustom.
    + unfold Mongo.find_one, Mongo.guard. rewrite Hup. cbn [bind ret].
      destruct (existsb_find _ _ Hex) as [x ->]. reflexivity.
    + unfold resolve_id in Hres. rewrite Hcustom, Hc in Hres.
      inversion Hres; subst. congruence.
  - rewrite Hres. cbn [bind].
    destruct (existsb_find _ _ Hex) as [x ->]. reflexivity.
Qed.

(** A create that answers 201 leaves a room with the resolved id in the
    store, and the database as reachable as it was. *)
Lemma add_room_stores (i : DocId) (s1 : Server) (r1 : Response) :
  add_room env s data = (s1, r1) -> status r1 = 201 ->
  resolve_id env s data = inr i ->
  existsb (has_id i) (active_rooms s1) = true
  /\ (forall c1, rooms_collection s1 = Some c1 -> failure c1 = None).
Proof.
  unfold add_room.
  destruct (negb (has_required_fields data));
    [intros H; inversion H; subst; discriminate |].
  destruct (bad_custom_id (d_custom_id data));
    [intros H; inversion H; subst; discriminate |].
  destruct (py_float (d_price data)) as [e | p];
    [intros H; inversion H; subst; discriminate |].
  destruct (py_int (d_capacity data)) as [e | n];
    [intros H; inversion H; subst; discriminate |].
  cbn [bind].
  destruct (rooms_collection s) as [c |] eqn:Hc; intros H S201 Hres;
    rewrite Hres in H; cbn [bind] in H.
  - destruct (if Py.truthy_opt (d_custom_id data)
              then Mongo.find_one c i else ret None) as [e | [x |]];
      cbn [bind run] in H; try (inversion H; subst; discriminate).
    destruct (Mongo.replace_one_upsert c i (set_id (Some i) (new_room env data p n)))
      as [e | c'] eqn:R; cbn [bind run ret] in H;
      inversion H; subst; clear H; [discriminate |].
    destruct (replace_stores _ _ _ _ R (has_id_set_id i _)) as [X U].
    rewrite active_rooms_sync.
    split; [exact X |].
    intros c1 H1.
    destruct (sync_keeps_store (set_collection c' s)) as [_ [C _]].
    rewrite C in H1. cbn in H1. congruence.
  - destruct (List.find (has_id i) (fallback_rooms s)) eqn:F;
      cbn [run ret] in H; inversion H; subst; [discriminate |].
    rewrite active_rooms_save. split.
    + unfold active_rooms.
      cbn [rooms_collection fallback_rooms set_fallback_rooms].
      rewrite Hc, existsb_app. cbn [existsb].
      rewrite has_id_set_id. apply orb_true_r.
    + intros c1 H1.
      match type of H1 with
      | rooms_collection (save_fallback_data ?t) = _ =>
          destruct (save_fallback_rooms t) as [_ [C _]]; rewrite C in H1
      end.
      cbn in H1. congruence.
Qed.

End Create.

(** C4, as amended. When a create has stored a room under the id it
    resolved, a second create whose body is valid and whose price and
    capacity convert, and that resolves to the same id, answers 400 with the
    error "Room with ID ... already exists" and leaves the whole state, hence
    the first room, as it was: the stored room is never overwritten. *)
Theorem add_room_duplicate_conflict
        (env1 env2 : Env) (s s1 : Server) (d1 d2 : RoomData)
        (r1 : Response) (i : DocId) :
  add_room env1 s d1 = (s1, r1) -> status r1 = 201 ->
  resolve_id env1 s d1 = inr i ->
  has_required_fields d2 = true ->
  bad_custom_id (d_custom_id d2) = false ->
  convertible d2 = true ->
  database_ready env2 s1 ->
  resolve_id env2 s1 d2 = inr i ->
  add_room env2 s1 d2 =
  (s1, mkResponse 400 false None
                  (Some ("Room with ID " ++ str_id i ++ " already exists")%string)
                  NoData None None).
Proof.
  intros Hfirst H201 Hres1 Hreq Hid Hnum Hdb Hres2.
  destruct (add_room_stores env1 s d1 i s1 r1 Hfirst H201 Hres1) as [Hstored _].
  exact (add_room_rejects_used_id env2 s1 d2 i Hreq Hid Hnum Hdb Hres2 Hstored).
Qed.

Lemma add_room_duplicate_conflict_witness :
  let first := add_room Sample.env (Sample.file_mode [])
                        (Sample.new_room_data (Some "0101")) in
  status (snd first) = 201
  /\ add_room Sample.later (fst first) (Sample.new_room_data (Some "0101")) =
     (fst first,
      mkResponse 400 false None (Some "Room with ID 0101 already exists")
                 NoData None None).
Proof.
  split; [reflexivity |].
  apply (add_room_duplicate_conflict
           Sample.env Sample.later (Sample.file_mode []) _
           (Sample.new_room_data (Some "0101")) (Sample.new_room_data (Some "0101"))
           (snd (add_room Sample.env (Sample.file_mode [])
                          (Sample.new_room_data (Some "0101"))))
           (StrId "0101"));
    try reflexivity.
  intros c H. discriminate H.
Defined.

(** C4 as stated fails: [float(price)] runs while the document is built,
    before the test for a used id. A second create under the id 0101 whose
    price is the integer 10^400 answers 500 with the text of the
    [OverflowError], not the conflict, in file mode and in database mode;
    the first room stays as it was. *)
Theorem add_room_duplicate_overflow :
  let second := mkRoomData (Some "Lake room") (Some (Py.Int (10 ^ 400)))
                           (Some (Py.Int 2)) None (Some "First floor")
                           (Some []) (Some "0101") in
  let on_file := add_room Sample.env (Sample.file_mode [])
                          (Sample.new_room_data (Some "0101")) in
  let on_database := add_room Sample.env (Sample.db_mode [])
                              (Sample.new_room_data (Some "0101")) in
  status (snd on_file) = 201 /\ status (snd on_database) = 201
  /\ resolve_id Sample.later (fst on_file) second = inr (StrId "0101")
  /\ resolve_id Sample.later (fst on_database) second = inr (StrId "0101")
  /\ add_room Sample.later (fst on_file) second =
     (fst on_file, envelope_error 500 "int too large to convert to float")
  /\ add_room Sample.later (fst on_database) second =
     (fst on_database, envelope_error 500 "int too large to convert to float").
Proof. vm_compute. repeat split. Qed.

(* ===================================================================== *)
(** * Partial update of a room *)
(* ===================================================================== *)

Section Update.

Variables (env : Env) (data : RoomData).

Lemma find_by_either_found (c : Collection) (room_id : string)
      (i : DocId) (r : Room) :
  find_by_either c room_id = inr (Some (i, r)) ->
  failure c = None /\ List.find (has_id i) (docs c) = Some r.
Proof.
  unfold find_by_either, Mongo.find_one, Mongo.guard.
  destruct (failure c); [discriminate |]. cbn [bind ret].
  destruct (List.find (has_id (StrId room_id)) (docs c)) as [x |] eqn:F.
  - intro H. inversion H; subst. auto.
  - destruct (ObjectId room_id) as [oid |]; [| discriminate].
    destruct (List.find (has_id oid) (docs c)) as [x |] eqn:G; [| discriminate].
    intro H. inversion H; subst. auto.
Qed.

Lemma apply_update_fallback_fields (s : Server) (old : Room) :
  rooms_collection s = None -> update_converts s data = true ->
  exists new,
    apply_update_fallback env data old = (new, None)
    /\ name new = patched (d_name data) (name old)
    /\ price new = patched (requested_price data) (price old)
    /\ persons new = patched (requested_persons s data) (persons old)
    /\ description new = patched (d_description data) (description old)
    /\ amenities new = patched (d_amenities data) (amenities old)
    /\ _id new = _id old
    /\ bookedIntervals new = bookedIntervals old
    /\ created_at new = created_at old
    /\ updated_at new = Some (update_stamp env s).
Proof.
  intros Hmode. unfold update_converts, requested_price, requested_persons,
    update_stamp, apply_update_fallback, assign_price, assign_persons,
    assign_name, assign_description, assign_amenities.
  rewrite Hmode.
  destruct (d_price data) as [v |];
    [destruct (py_float (Some v)) as [e | p] eqn:P; [discriminate |] |];
    (destruct (d_capacity data) as [w |];
     [destruct (py_int (Some w)) as [e | n] eqn:N; [discriminate |] |]);
    intros _; cbn [bind ret]; eexists; (split; [reflexivity |]);
    destruct (d_name data), (d_description data), (d_amenities data);
    cbn; repeat split; reflexivity.
Qed.

Lemma apply_update_mongo_fields (s : Server) (c : Collection) (i : DocId) (old : Room) :
  rooms_collection s = Some c -> _id old = Some i ->
  update_converts s data = true ->
  exists new,
    apply_update_mongo env i data old = inr new
    /\ name new = patched (d_name data) (name old)
    /\ price new = patched (requested_price data) (price old)
    /\ persons new = patched (requested_persons s data) (persons old)
    /\ description new = patched (d_description data) (description old)
    /\ amenities new = patched (d_amenities data) (amenities old)
    /\ _id new = _id old
    /\ bookedIntervals new = bookedIntervals old
    /\ created_at new = created_at old
    /\ updated_at new = Some (update_stamp env s).
Proof.
  intros Hmode Hid. unfold update_converts, requested_price, requested_persons,
    update_stamp, apply_update_mongo, assign_price, assign_persons,
    assign_name, assign_description, assign_amenities.
  rewrite Hmode, Hid.
  destruct (d_price data) as [v |];
    [destruct (py_float (Some v)) as [e | p] eqn:P; [discriminate |] |];
    (destruct (d_capacity data) as [w |];
     [destruct (py_int (Some w)) as [e | n] eqn:N; [discriminate |] |]);
    (destruct (d_persons data) as [u |];
     [destruct (py_int (Some u)) as [e | m] eqn:K;
      [rewrite ?andb_false_r; discriminate |] |]);
    intros _; cbn [bind ret]; eexists; (split; [reflexivity |]);
    destruct (d_name data), (d_description data), (d_amenities data);
    cbn; repeat split; reflexivity.
Qed.

End Update.

(** C6, as amended. [updateRoom] on an existing room, with a request whose
    numbers convert ([float(price)], [int(capacity)] and, in database mode,
    [int(persons)] return) and, in database mode, fit the database, answers
    200 with the updated record, in which every key present in the request
    has the requested value, converted, and every other key has the value
    it had, except [updated_at], which becomes the current time. The store
    holds that record in place of the old one (the database keeps its
    timestamps to the millisecond), the other rooms stay as they were, and
    the result is written through to the mirror file. On an id that no room
    has, it answers 404 and changes nothing. *)
Theorem update_room_partial
        (env : Env) (s : Server) (room_id : string) (data : RoomData) :
  (lookup_room s room_id = inr None ->
   update_room env s room_id data = (s, envelope_error 404 "Room not found"))
  /\ (forall i old,
         lookup_room s room_id = inr (Some (i, old)) ->
         update_converts s data = true ->
         update_storable s data old = true ->
         exists new s',
           update_room env s room_id data =
           (s', mkResponse 200 true (Some "Room updated successfully") None
                           (OneRoom (convert_room_for_api new)) None None)
           /\ active_rooms s' =
              update_first (has_id i) (fun _ => stored s new) (active_rooms s)
           /\ (disk_writable s = true ->
               json_file s' = map jsonify_room (active_rooms s'))
           /\ name new = patched (d_name data) (name old)
           /\ price new = patched (requested_price data) (price old)
           /\ persons new = patched (requested_persons s data) (persons old)
           /\ description new = patched (d_description data) (description old)
           /\ amenities new = patched (d_amenities data) (amenities old)
           /\ _id new = _id old
           /\ bookedIntervals new = bookedIntervals old
           /\ created_at new = created_at old
           /\ updated_at new = Some (update_stamp env s)).
Proof.
  unfold update_room, lookup_room, stored, update_storable.
  destruct (rooms_collection s) as [c |] eqn:Hmode; split.
  - intro H. now rewrite H.
  - intros i old H Hnum Hfit. rewrite H. cbn [bind].
    destruct (find_by_either_found c room_id i old H) as [Hup Hfind].
    destruct (apply_update_mongo_fields env data s c i old Hmode
                (find_has_id _ _ _ Hfind) Hnum) as [new [A Fields]].
    rewrite A. cbn [bind].
    assert (Enc : Mongo.encodable new = true).
    { apply andb_true_iff in Hfit. destruct Hfit as [E F].
      destruct Fields as [_ [P [N _]]].
      unfold Mongo.encodable. rewrite P, N.
      apply andb_true_iff in E. destruct E as [E1 E2].
      apply andb_true_iff. split.
      - unfold requested_price. destruct (d_price data) as [v |]; [| exact E1].
        destruct (value (py_float (Some v))); [reflexivity | exact E1].
      - destruct (requested_persons s data); [exact F | exact E2]. }
    unfold Mongo.replace_one_upsert, Mongo.guard. rewrite Hup, Enc.
    rewrite (find_existsb _ _ _ Hfind). cbn [bind ret run].
    exists new. eexists. split; [reflexivity |].
    split; [rewrite active_rooms_sync; unfold active_rooms; cbn;
            now rewrite Hmode |].
    split.
    + intro W. rewrite active_rooms_sync. unfold active_rooms at 1. cbn.
      now rewrite W.
    + exact Fields.
  - unfold find_fallback. destruct (List.find (has_id (StrId room_id)) (fallback_rooms s));
      [discriminate | reflexivity].
  - intros i old H Hnum _. unfold find_fallback in *.
    destruct (List.find (has_id (StrId room_id)) (fallback_rooms s)) as [r |] eqn:F;
      [| discriminate].
    cbn in H. inversion H; subst; clear H.
    destruct (apply_update_fallback_fields env data s old Hmode Hnum)
      as [new [A Fields]].
    rewrite A.
    exists new. eexists. split; [reflexivity |].
    split.
    { rewrite active_rooms_save. unfold active_rooms. cbn. now rewrite Hmode. }
    split.
    { intro W. rewrite active_rooms_save.
      rewrite save_writes by exact W. unfold active_rooms. cbn. now rewrite Hmode. }
    exact Fields.
Qed.

Lemma update_room_partial_witness :
  let s := Sample.file_mode [Sample.room "0101" []; Sample.room "0102" []] in
  let request := Sample.reprice (Py.Int (2 ^ 53 + 1)) (Sample.real (-29) 10) in
  update_room Sample.env s "9999" request =
  (s, envelope_error 404 "Room not found")
  /\ exists new s',
      update_room Sample.env s "0102" request =
      (s', mkResponse 200 true (Some "Room updated successfully") None
                      (OneRoom (convert_room_for_api new)) None None)
      /\ active_rooms s' = [Sample.room "0101" []; new]
      /\ name new = Some "Garden room"
      /\ price new = Some (Py.Float (Py.double (2 ^ 53)))
      /\ persons new = Some (-2)%Z
      /\ updated_at new = Some (Text "2024-05-20T03:00:00").
Proof.
  intros s request. split.
  - apply (proj1 (update_room_partial Sample.env s "9999" request)).
    reflexivity.
  - destruct (proj2 (update_room_partial Sample.env s "0102" request)
                    (StrId "0102") (Sample.room "0102" []) eq_refl eq_refl eq_refl)
      as [new [s' [E [A [_ [N [P [C [_ [_ [_ [_ [_ U]]]]]]]]]]]]].
    exists new, s'. repeat split; assumption.
Defined.

(** C6 as stated fails on a request with a price that [float] does not
    convert, the integer 10^400 beside a new name. In database mode the
    answer is 500 and nothing is applied. In file mode the answer is 500
    too, and the name, assigned before [float] raised, stays in the stored
    room, with [updated_at] as it was and the mirror file as it was. *)
Theorem update_room_overflow :
  let request := Sample.overpriced "Sea room" in
  let on_database := Sample.db_mode [Sample.room "0101" []] in
  let on_file := Sample.file_mode [Sample.room "0101" []] in
  update_room Sample.env on_database "0101" request =
  (on_database, envelope_error 500 "int too large to convert to float")
  /\ snd (update_room Sample.env on_file "0101" request) =
     envelope_error 500 "int too large to convert to float"
  /\ map name (fallback_rooms (fst (update_room Sample.env on_file "0101" request)))
     = [Some "Sea room"]
  /\ map updated_at
         (fallback_rooms (fst (update_room Sample.env on_file "0101" request)))
     = [Some (Text "2024-05-01T08:00:00")]
  /\ json_file (fst (update_room Sample.env on_file "0101" request)) =
     [Sample.room "0101" []].
Proof. vm_compute. repeat split. Qed.

(* ===================================================================== *)
(** * The conflict test of [book_room] *)
(* ===================================================================== *)

Section Conflict.

Variables (check_in check_out : string).

Lemma has_duplicate_booking_existsb (guest_name : string) (l : list Interval) :
  has_duplicate_booking check_in check_out guest_name l =
  existsb (fun e => exact_duplicate check_in check_out guest_name e || overlaps check_in check_out e) l.
Proof.
  induction l as [| e l IH]; simpl; [reflexivity |].
  unfold exact_duplicate at 1, overlaps at 1.
  destruct (Py.opt_eqb (checkIn e) check_in && Py.opt_eqb (checkOut e) check_out
            && Py.opt_eqb (guestName e) guest_name); [reflexivity |].
  simpl.
  destruct (Py.truthy (Py.get_str (checkIn e))
            && Py.truthy (Py.get_str (checkOut e))
            && ((check_in <? Py.get_str (checkOut e))
                && (Py.get_str (checkIn e) <? check_out))); [reflexivity |].
  exact IH.
Qed.

Lemma overlap_only_existsb (l : list Interval) :
  overlap_only check_in check_out l = existsb (overlaps check_in check_out) l.
Proof.
  induction l as [| e l IH]; simpl; [reflexivity |].
  unfold overlaps at 1.
  destruct (Py.truthy (Py.get_str (checkIn e))
            && Py.truthy (Py.get_str (checkOut e))
            && ((check_in <? Py.get_str (checkOut e))
                && (Py.get_str (checkIn e) <? check_out))); [reflexivity |].
  exact IH.
Qed.

Lemma opt_eqb_eq (o : option string) (x : string) :
  Py.opt_eqb o x = true <-> o = Some x.
Proof.
  destruct o as [y |]; simpl.
  - rewrite String.eqb_eq. split; congruence.
  - split; discriminate.
Qed.

(** An interval with the candidate's dates overlaps it as soon as the
    candidate's range is not empty. *)
Lemma same_dates_overlap (e : Interval) :
  Py.truthy check_in = true -> (check_in <? check_out) = true ->
  checkIn e = Some check_in -> checkOut e = Some check_out ->
  overlaps check_in check_out e = true.
Proof.
  intros Ht Hlt Hi Ho. unfold overlaps. rewrite Hi, Ho. simpl.
  now rewrite Ht, (ltb_truthy _ _ Hlt), Hlt.
Qed.

Lemma exact_duplicate_overlaps (guest_name : string) (e : Interval) :
  Py.truthy check_in = true -> (check_in <? check_out) = true ->
  exact_duplicate check_in check_out guest_name e = true -> overlaps check_in check_out e = true.
Proof.
  intros Ht Hlt. unfold exact_duplicate. rewrite !andb_true_iff, !opt_eqb_eq.
  intros [[Hi Ho] _]. now apply same_dates_overlap.
Qed.

Lemma duplicate_clause_redundant (guest_name : string) (l : list Interval) :
  Py.truthy check_in = true -> (check_in <? check_out) = true ->
  has_duplicate_booking check_in check_out guest_name l =
  overlap_only check_in check_out l.
Proof.
  intros Ht Hlt.
  rewrite has_duplicate_booking_existsb, overlap_only_existsb.
  induction l as [| e l IH]; simpl; [reflexivity |].
  rewrite IH. f_equal.
  destruct (exact_duplicate check_in check_out guest_name e) eqn:D; [| reflexivity].
  simpl. symmetry. now apply (exact_duplicate_overlaps guest_name).
Qed.

(** Intersecting half-open ranges pass the two comparisons. *)
Lemma intersection_overlaps (e : Interval) :
  Py.truthy (Py.get_str (checkIn e)) = true ->
  ranges_intersect check_in check_out
                   (Py.get_str (checkIn e)) (Py.get_str (checkOut e)) ->
  overlaps check_in check_out e = true.
Proof.
  intros Ht [x [[H1 H2] [H3 H4]]]. unfold overlaps.
  rewrite Ht, (ltb_truthy _ _ H4). simpl.
  rewrite (leb_ltb_trans _ _ _ H1 H4), (leb_ltb_trans _ _ _ H3 H2). reflexivity.
Qed.

(** Conversely the comparisons give a common date when neither range is
    empty. *)
Lemma overlaps_intersection (e : Interval) :
  (check_in <? check_out) = true ->
  (Py.get_str (checkIn e) <? Py.get_str (checkOut e)) = true ->
  overlaps check_in check_out e = true ->
  ranges_intersect check_in check_out
                   (Py.get_str (checkIn e)) (Py.get_str (checkOut e)).
Proof.
  intros Hc He. unfold overlaps. rewrite !andb_true_iff.
  intros [_ [H1 H2]].
  destruct (String.leb_total check_in (Py.get_str (checkIn e))) as [L | L].
  - exists (Py.get_str (checkIn e)). unfold in_range.
    rewrite L, H2, He, leb_refl. auto.
  - exists check_in. unfold in_range. rewrite L, H1, Hc, leb_refl. auto.
Qed.

Lemma has_duplicate_of_intersection (guest_name : string) (l : list Interval)
      (e : Interval) :
  In e l ->
  Py.truthy (Py.get_str (checkIn e)) = true ->
  ranges_intersect check_in check_out
                   (Py.get_str (checkIn e)) (Py.get_str (checkOut e)) ->
  has_duplicate_booking check_in check_out guest_name l = true.
Proof.
  intros Hin Ht Hx. rewrite has_duplicate_booking_existsb.
  apply existsb_exists. exists e. split; [exact Hin |].
  rewrite (intersection_overlaps e Ht Hx). apply orb_true_r.
Qed.

Lemma apart_no_conflict (guest_name : string) (e : Interval) :
  (check_in <? check_out) = true -> apart check_in check_out e ->
  exact_duplicate check_in check_out guest_name e || overlaps check_in check_out e = false.
Proof.
  intros Hlt Hap. apply orb_false_iff. split.
  - destruct (exact_duplicate check_in check_out guest_name e) eqn:D; [| reflexivity].
    unfold exact_duplicate in D. rewrite !andb_true_iff, !opt_eqb_eq in D.
    destruct D as [[Hi Ho] _]. unfold apart in Hap. rewrite Hi, Ho in Hap.
    simpl in Hap. destruct Hap as [H | H];
      apply leb_ltb_false in H; congruence.
  - unfold overlaps. destruct Hap as [H | H]; apply leb_ltb_false in H;
      rewrite H; now rewrite ?andb_false_r.
Qed.

Lemma has_duplicate_apart (guest_name : string) (l : list Interval) :
  (check_in <? check_out) = true ->
  (forall e, In e l -> apart check_in check_out e) ->
  has_duplicate_booking check_in check_out guest_name l = false.
Proof.
  intros Hlt Hall. rewrite has_duplicate_booking_existsb.
  induction l as [| e l IH]; simpl; [reflexivity |].
  rewrite (apart_no_conflict guest_name e Hlt) by (apply Hall; now left).
  apply IH. intros x Hx. apply Hall. now right.
Qed.

(** On a room whose intervals all have a non-empty range, and for a
    candidate with a non-empty range, the test decides exactly whether the
    candidate's range intersects the range of an existing interval. *)
Lemma conflict_iff_intersection (guest_name : string) (l : list Interval) :
  (check_in <? check_out) = true ->
  (forall e, In e l ->
             Py.truthy (Py.get_str (checkIn e)) = true
             /\ (Py.get_str (checkIn e) <? Py.get_str (checkOut e)) = true) ->
  has_duplicate_booking check_in check_out guest_name l = true <->
  exists e, In e l
            /\ ranges_intersect check_in check_out
                                (Py.get_str (checkIn e)) (Py.get_str (checkOut e)).
Proof.
  intros Hlt Hwf. split.
  - rewrite has_duplicate_booking_existsb, existsb_exists.
    intros [e [Hin Hc]]. exists e. split; [exact Hin |].
    destruct (Hwf e Hin) as [Ht He].
    apply (overlaps_intersection e Hlt He).
    apply orb_true_iff in Hc. destruct Hc as [Hd | Ho]; [| exact Ho].
    pose proof Hd as Hd'. unfold exact_duplicate in Hd'.
    rewrite !andb_true_iff, !opt_eqb_eq in Hd'. destruct Hd' as [[Hi _] _].
    rewrite Hi in Ht. simpl in Ht.
    exact (exact_duplicate_overlaps guest_name e Ht Hlt Hd).
  - intros [e [Hin Hx]]. destruct (Hwf e Hin) as [Ht _].
    exact (has_duplicate_of_intersection guest_name l e Hin Ht Hx).
Qed.

End Conflict.

(** C5, as amended. For every list of existing intervals and every
    candidate with a non-empty check-in and [checkIn < checkOut] whose dates
    equal those of some existing interval, [has_duplicate_booking] decides
    the same with and without its exact-duplicate clause: both report a
    conflict, because equal non-empty ranges overlap. *)
Theorem exact_duplicate_subsumed
        (check_in check_out guest_name : string) (l : list Interval) :
  Py.truthy check_in = true ->
  (check_in <? check_out) = true ->
  (exists e, In e l /\ checkIn e = Some check_in /\ checkOut e = Some check_out) ->
  has_duplicate_booking check_in check_out guest_name l =
  overlap_only check_in check_out l
  /\ overlap_only check_in check_out l = true.
Proof.
  intros Ht Hlt [e [Hin [Hi Ho]]]. split.
  - now apply duplicate_clause_redundant.
  - rewrite overlap_only_existsb. apply existsb_exists. exists e.
    split; [exact Hin |]. now apply same_dates_overlap.
Qed.

Lemma exact_duplicate_subsumed_witness :
  let e := Sample.stay "2024-06-01" "2024-06-05" "An" in
  has_duplicate_booking "2024-06-01" "2024-06-05" "Binh" [e] =
  overlap_only "2024-06-01" "2024-06-05" [e]
  /\ overlap_only "2024-06-01" "2024-06-05" [e] = true.
Proof.
  apply (exact_duplicate_subsumed "2024-06-01" "2024-06-05" "Binh"
           [Sample.stay "2024-06-01" "2024-06-05" "An"]);
    [reflexivity | reflexivity |].
  exists (Sample.stay "2024-06-01" "2024-06-05" "An").
  split; [now left | split; reflexivity].
Defined.

(** C5 as stated fails on a candidate whose range is empty: a second request
    for the same-day stay that the room already holds for the same guest is
    a conflict by the exact-duplicate clause alone. *)
Lemma exact_duplicate_not_subsumed :
  let e := Sample.stay "2024-06-05" "2024-06-05" "An" in
  (checkIn e = Some "2024-06-05" /\ checkOut e = Some "2024-06-05")
  /\ has_duplicate_booking "2024-06-05" "2024-06-05" "An" [e] = true
  /\ overlap_only "2024-06-05" "2024-06-05" [e] = false
  /\ ~ (forall check_in check_out guest_name l,
           (exists e, In e l /\ checkIn e = Some check_in
                      /\ checkOut e = Some check_out) ->
           has_duplicate_booking check_in check_out guest_name l =
           overlap_only check_in check_out l).
Proof.
  repeat split.
  intro H.
  specialize (H "2024-06-05" "2024-06-05" "An"
                [Sample.stay "2024-06-05" "2024-06-05" "An"]).
  assert (X : exists e, In e [Sample.stay "2024-06-05" "2024-06-05" "An"]
                        /\ checkIn e = Some "2024-06-05"
                        /\ checkOut e = Some "2024-06-05").
  { exists (Sample.stay "2024-06-05" "2024-06-05" "An").
    split; [now left | split; reflexivity]. }
  specialize (H X). discriminate H.
Qed.

(* ===================================================================== *)
(** * Booking a room *)
(* ===================================================================== *)

Section Book.

Lemma find_for_booking_found (c : Collection) (room_id : string)
      (i : DocId) (r : Room) :
  find_for_booking c room_id = inr (Some (i, Some r)) ->
  failure c = None /\ List.find (has_id i) (docs c) = Some r.
Proof.
  unfold find_for_booking, Mongo.find_one, Mongo.guard.
  destruct (failure c); [discriminate |]. cbn [bind ret].
  destruct (List.find (has_id (StrId room_id)) (docs c)) as [x |] eqn:F.
  - intro H. inversion H; subst. auto.
  - destruct (ObjectId room_id) as [oid |]; [| discriminate].
    intro H. inversion H; subst. auto.
Qed.

(** What [located] gives in each mode. *)
Lemma located_active (s : Server) (room_id : string) (i : DocId) (room : Room) :
  located s room_id i room ->
  List.find (has_id i) (active_rooms s) = Some room.
Proof.
  unfold located, active_rooms, find_fallback.
  destruct (rooms_collection s) as [c |].
  - intro H. now apply find_for_booking_found in H.
  - now intros [-> H].
Qed.

(** A [$push] always modifies the document. *)
Lemma push_modifies (t : option Timestamp) (iv : Interval) (r : Room) :
  Room_eqb r (set_updated_at t (Mongo.push_interval iv r)) = false.
Proof.
  destruct (Room_eqb r (set_updated_at t (Mongo.push_interval iv r))) eqn:E;
    [| reflexivity].
  apply Room_eqb_intervals in E. destruct E as [E _].
  unfold intervals_of, Mongo.push_interval in E. cbn in E.
  rewrite length_app in E. cbn in E. lia.
Qed.

Variables (env : Env) (s : Server) (room_id : string) (data : BookingData).

Let check_in := Py.get_str (b_checkIn data).
Let check_out := Py.get_str (b_checkOut data).
Let guest_name := Py.get_str (b_guestName data).

Hypothesis valid :
  Py.truthy_opt (b_checkIn data) = true
  /\ Py.truthy_opt (b_checkOut data) = true
  /\ Py.truthy_opt (b_guestName data) = true.

Lemma book_room_conflict (i : DocId) (room : Room) :
  located s room_id i room ->
  has_duplicate_booking check_in check_out guest_name (intervals_of room) = true ->
  book_room env s room_id data =
  (s, envelope_error 409
        "Booking already exists or dates overlap with existing booking").
Proof.
  destruct valid as [V1 [V2 V3]].
  unfold located, book_room. rewrite V1, V2, V3. cbn [negb orb].
  fold check_in check_out guest_name.
  destruct (rooms_collection s) as [c |]; intros Hloc Hdup.
  - rewrite Hloc. cbn [bind]. now rewrite Hdup.
  - destruct Hloc as [_ Hloc]. now rewrite Hloc, Hdup.
Qed.

Lemma book_room_appends (i : DocId) (room : Room) :
  located s room_id i room ->
  has_duplicate_booking check_in check_out guest_name (intervals_of room) = false ->
  let interval := new_interval env data check_in check_out guest_name in
  exists s',
    book_room env s room_id data =
    (s', envelope_message 200 "Booking created successfully" (Booking interval))
    /\ active_rooms s' =
       update_first (has_id i)
         (fun _ => set_updated_at (Some (booking_stamp s (now_again env)))
                     (set_bookedIntervals
                        (Some (intervals_of room ++ [interval])) room))
         (active_rooms s).
Proof.
  destruct valid as [V1 [V2 V3]].
  intros Hloc Hdup interval.
  pose proof (located_active s room_id i room Hloc) as Hact.
  unfold located in Hloc. unfold book_room, booking_stamp.
  rewrite V1, V2, V3. cbn [negb orb].
  fold check_in check_out guest_name. fold interval.
  unfold active_rooms in *.
  destruct (rooms_collection s) as [c |] eqn:Hmode.
  - rewrite Hloc. cbn [bind]. rewrite Hdup.
    destruct (find_for_booking_found c room_id i room Hloc) as [Hup Hfind].
    unfold Mongo.update_one, Mongo.guard. rewrite Hup, Hfind. cbn [bind ret].
    rewrite push_modifies. cbn [Mongo.modified_count Nat.eqb run].
    eexists. split; [reflexivity |].
    destruct (sync_keeps_store
                (set_collection
                   (mkCollection
                      (update_first (has_id i)
                         (fun r => set_updated_at (Some (Mongo.date (now_again env)))
                                     (Mongo.push_interval interval r))
                         (docs c)) None) s)) as [_ [C _]].
    rewrite C. cbn.
    apply (update_first_hit (has_id i)
             (fun r => set_updated_at (Some (Mongo.date (now_again env)))
                         (Mongo.push_interval interval r)) (docs c) room Hfind).
  - destruct Hloc as [-> Hloc]. rewrite Hloc, Hdup. cbn [run ret].
    eexists. split; [reflexivity |].
    match goal with
    | |- context [save_fallback_data ?t] =>
        destruct (save_fallback_rooms t) as [F [C _]]; rewrite C, F
    end.
    cbn. rewrite Hmode.
    apply (update_first_hit (has_id (StrId room_id))
             (fun r => set_updated_at (Some (Text (Py.isoformat (now_again env))))
                         (set_bookedIntervals
                            (Some (intervals_of r ++ [interval])) r))
             (fallback_rooms s) room Hloc).
Qed.

End Book.

(** C1, as amended. For every room reached by [book] and every candidate
    with the three required fields: the request is rejected with 409 when
    the candidate's half-open range intersects the half-open range of an
    existing interval whose check-in is not empty, whoever the guests are;
    it is accepted when the candidate has [checkIn < checkOut] and every
    existing interval lies apart from it, back to back included; on
    acceptance the interval is appended to the room's [bookedIntervals]
    and nothing else in the store changes but the room's [updated_at]. *)
Theorem book_room_policy
        (env : Env) (s : Server) (room_id : string) (data : BookingData)
        (i : DocId) (room : Room) :
  Py.truthy_opt (b_checkIn data) = true ->
  Py.truthy_opt (b_checkOut data) = true ->
  Py.truthy_opt (b_guestName data) = true ->
  located s room_id i room ->
  let check_in := Py.get_str (b_checkIn data) in
  let check_out := Py.get_str (b_checkOut data) in
  let interval :=
    new_interval env data check_in check_out (Py.get_str (b_guestName data)) in
  ((exists e, In e (intervals_of room)
              /\ Py.truthy (Py.get_str (checkIn e)) = true
              /\ ranges_intersect check_in check_out
                                  (Py.get_str (checkIn e)) (Py.get_str (checkOut e))) ->
   book_room env s room_id data =
   (s, mkResponse 409 false None
         (Some "Booking already exists or dates overlap with existing booking")
         NoData None None))
  /\ ((check_in <? check_out) = true ->
      (forall e, In e (intervals_of room) -> apart check_in check_out e) ->
      exists s',
        book_room env s room_id data =
        (s', mkResponse 200 true (Some "Booking created successfully") None
                        (Booking interval) None None)
        /\ active_rooms s' =
           update_first (has_id i)
             (fun _ => set_updated_at (Some (booking_stamp s (now_again env)))
                         (set_bookedIntervals
                            (Some (intervals_of room ++ [interval])) room))
             (active_rooms s)).
Proof.
  intros V1 V2 V3 Hloc check_in check_out interval.
  assert (valid : Py.truthy_opt (b_checkIn data) = true
                  /\ Py.truthy_opt (b_checkOut data) = true
                  /\ Py.truthy_opt (b_guestName data) = true) by auto.
  split.
  - intros [e [Hin [Ht Hx]]].
    apply (book_room_conflict env s room_id data valid i room Hloc).
    exact (has_duplicate_of_intersection check_in check_out _ _ e Hin Ht Hx).
  - intros Hlt Hap.
    apply (book_room_appends env s room_id data valid i room Hloc).
    exact (has_duplicate_apart check_in check_out _ _ Hlt Hap).
Qed.

Lemma book_room_policy_witness :
  let held := Sample.stay "2024-06-01" "2024-06-05" "An" in
  let s := Sample.file_mode [Sample.room "0101" [held]] in
  book_room Sample.env s "0101" (Sample.booking "2024-06-03" "2024-06-08" "Binh") =
  (s, mkResponse 409 false None
        (Some "Booking already exists or dates overlap with existing booking")
        NoData None None)
  /\ exists s',
      fst (book_room Sample.env s "0101"
                     (Sample.booking "2024-06-05" "2024-06-08" "Binh")) = s'
      /\ map intervals_of (active_rooms s') =
         [[held; Sample.stay "2024-06-05" "2024-06-08" "Binh"]].
Proof.
  intros held s. split.
  - apply (proj1 (book_room_policy Sample.env s "0101"
                    (Sample.booking "2024-06-03" "2024-06-08" "Binh")
                    (StrId "0101") (Sample.room "0101" [held])
                    eq_refl eq_refl eq_refl (conj eq_refl eq_refl))).
    exists held. split; [now left |]. split; [reflexivity |].
    exists "2024-06-03". repeat split; reflexivity.
  - destruct (proj2 (book_room_policy Sample.env s "0101"
                       (Sample.booking "2024-06-05" "2024-06-08" "Binh")
                       (StrId "0101") (Sample.room "0101" [held])
                       eq_refl eq_refl eq_refl (conj eq_refl eq_refl)))
      as [s' [E A]].
    + reflexivity.
    + intros e [<- | []]. left. reflexivity.
    + exists s'. rewrite E. split; [reflexivity |]. rewrite A. reflexivity.
Defined.

(** C1 as stated fails on a same-day stay: the room holds it after a first
    request; the second request for the same guest has its check-in equal to
    the check-out of the interval held and an empty range, which intersects
    nothing, and it is rejected. It also fails on a snapshot room holding an
    interval with an empty check-in: a candidate inside that interval's
    range is accepted, because the comparisons are skipped for it. *)
Lemma book_room_back_to_back_rejected :
  let request := Sample.booking "2024-06-05" "2024-06-05" "An" in
  let first := book_room Sample.env (Sample.file_mode [Sample.room "0101" []])
                         "0101" request in
  let open_start :=
    mkInterval (Some "") (Some "2024-06-10") (Some "Binh") None None None None None in
  (status (snd first) = 200
   /\ map (fun r => map dates (intervals_of r)) (active_rooms (fst first)) =
      [[("2024-06-05", "2024-06-05")]]
   /\ ~ ranges_intersect "2024-06-05" "2024-06-05" "2024-06-05" "2024-06-05"
   /\ status (snd (book_room Sample.later (fst first) "0101" request)) = 409)
  /\ (ranges_intersect "2024-06-01" "2024-06-05" "" "2024-06-10"
      /\ status (snd (book_room Sample.env
                                (Sample.file_mode [Sample.room "0101" [open_start]])
                                "0101"
                                (Sample.booking "2024-06-01" "2024-06-05" "An"))) = 200).
Proof.
  split.
  - repeat split.
    intros [x [[H1 H2] _]].
    pose proof (leb_ltb_trans _ _ _ H1 H2) as H.
    rewrite ltb_irrefl in H. discriminate H.
  - split; [| reflexivity].
    exists "2024-06-01". repeat split.
Qed.

(* ===================================================================== *)
(** * Cancelling a booking *)
(* ===================================================================== *)

Section Unbook.

Lemma pair_equal_total (ci co : string) (e : Interval) :
  has_dates e = true -> pair_equal ci co e = inr (Mongo.pair_matches ci co e).
Proof.
  unfold has_dates, pair_equal, Mongo.pair_matches.
  destruct (checkIn e) as [x |], (checkOut e) as [y |]; try discriminate.
  intros _. simpl. now destruct (x =? ci).
Qed.

Lemma filterM_total (ci co : string) (l : list Interval) :
  forallb has_dates l = true ->
  filterM (fun e => hit <- pair_equal ci co e ;; ret (negb hit)) l =
  inr (List.filter (fun e => negb (Mongo.pair_matches ci co e)) l).
Proof.
  induction l as [| e l IH]; simpl; [reflexivity |].
  rewrite andb_true_iff. intros [He Hl].
  rewrite (pair_equal_total ci co e He), (IH Hl). reflexivity.
Qed.

Lemma set_bookedIntervals_same (room : Room) (l : list Interval) :
  bookedIntervals room = Some l -> set_bookedIntervals (Some l) room = room.
Proof. destruct room. simpl. now intros ->. Qed.

Lemma set_fallback_rooms_same (s : Server) :
  set_fallback_rooms (fallback_rooms s) s = s.
Proof. now destruct s. Qed.

(** A [$pull] that removes an element modifies the document. *)
Lemma pull_modifies (t : option Timestamp) (ci co : string) (r : Room)
      (l : list Interval) (e : Interval) :
  bookedIntervals r = Some l -> In e l -> Mongo.pair_matches ci co e = true ->
  Room_eqb r (set_updated_at t (Mongo.pull_pair ci co r)) = false.
Proof.
  intros Hl Hin Hm.
  destruct (Room_eqb r (set_updated_at t (Mongo.pull_pair ci co r))) eqn:E;
    [| reflexivity].
  apply Room_eqb_intervals in E. destruct E as [E _].
  unfold intervals_of, Mongo.pull_pair in E. rewrite Hl in E. cbn in E.
  pose proof (filter_drops (fun i => negb (Mongo.pair_matches ci co i)) l e Hin
                           (f_equal negb Hm)) as D.
  lia.
Qed.

Variables (env : Env) (s : Server) (room_id : string) (data : BookingData).

Let check_in := Py.get_str (b_checkIn data).
Let check_out := Py.get_str (b_checkOut data).

Hypothesis valid :
  Py.truthy_opt (b_checkIn data) = true /\ Py.truthy_opt (b_checkOut data) = true.

Lemma unbook_room_removes (i : DocId) (room : Room) (l : list Interval) (e : Interval) :
  located s room_id i room ->
  bookedIntervals room = Some l ->
  (rooms_collection s = None -> forallb has_dates l = true) ->
  In e l -> Mongo.pair_matches check_in check_out e = true ->
  exists s',
    unbook_room env s room_id data =
    (s', envelope_message 200 "Booking cancelled successfully" NoData)
    /\ active_rooms s' =
       update_first (has_id i)
         (fun _ => set_updated_at (Some (booking_stamp s (now env)))
                     (set_bookedIntervals
                        (Some (List.filter
                                 (fun e => negb (Mongo.pair_matches check_in check_out e))
                                 l)) room))
         (active_rooms s).
Proof.
  destruct valid as [V1 V2].
  intros Hloc Hl Hkeys Hin Hm.
  unfold located in Hloc. unfold unbook_room. rewrite V1, V2. cbn [negb orb].
  fold check_in check_out. unfold active_rooms, booking_stamp.
  destruct (rooms_collection s) as [c |] eqn:Hmode.
  - rewrite Hloc. cbn [bind].
    destruct (find_for_booking_found c room_id i room Hloc) as [Hup Hfind].
    unfold Mongo.update_one, Mongo.guard. rewrite Hup, Hfind. cbn [bind ret].
    rewrite (pull_modifies _ check_in check_out room l e Hl Hin Hm).
    cbn [Mongo.modified_count Nat.eqb run].
    eexists. split; [reflexivity |].
    match goal with
    | |- context [sync_mongodb_to_json ?t] =>
        destruct (sync_keeps_store t) as [_ [C _]]; rewrite C
    end.
    cbn.
    rewrite (update_first_hit (has_id i)
               (fun r => set_updated_at (Some (Mongo.date (now env)))
                           (Mongo.pull_pair check_in check_out r))
               (docs c) room Hfind).
    unfold Mongo.pull_pair. now rewrite Hl.
  - destruct Hloc as [-> Hloc]. rewrite Hloc, Hl.
    rewrite (filterM_total check_in check_out l (Hkeys eq_refl)). cbn [bind].
    pose proof (filter_drops (fun i => negb (Mongo.pair_matches check_in check_out i))
                             l e Hin (f_equal negb Hm)) as D.
    destruct (Nat.eqb_spec
                (List.length (List.filter
                                (fun i => negb (Mongo.pair_matches check_in check_out i)) l))
                (List.length l)) as [E | _]; [lia |].
    cbn [run ret].
    eexists. split; [reflexivity |].
    match goal with
    | |- context [save_fallback_data ?t] =>
        destruct (save_fallback_rooms t) as [F [C _]]; rewrite C, F
    end.
    cbn. rewrite Hmode.
    apply (update_first_hit (has_id (StrId room_id))
             (fun r => set_updated_at (Some (Text (Py.isoformat (now env))))
                         (set_bookedIntervals
                            (Some (List.filter
                                     (fun e => negb (Mongo.pair_matches check_in check_out e))
                                     l)) r))
             (fallback_rooms s) room Hloc).
Qed.

Lemma unbook_room_not_found (room : Room) (l : list Interval) :
  rooms_collection s = None ->
  find_fallback room_id (fallback_rooms s) = Some room ->
  bookedIntervals room = Some l ->
  forallb has_dates l = true ->
  (forall e, In e l -> Mongo.pair_matches check_in check_out e = false) ->
  unbook_room env s room_id data = (s, envelope_error 404 "Booking not found").
Proof.
  destruct valid as [V1 V2].
  intros Hmode Hroom Hl Hkeys Hnone.
  unfold unbook_room. rewrite V1, V2, Hmode, Hroom, Hl. cbn [negb orb].
  fold check_in check_out.
  rewrite (filterM_total check_in check_out l Hkeys). cbn [bind].
  rewrite (filter_keeps_all (fun i => negb (Mongo.pair_matches check_in check_out i)) l)
    by (intros x Hx; now rewrite (Hnone x Hx)).
  rewrite Nat.eqb_refl. cbn [run ret].
  rewrite (update_first_same (has_id (StrId room_id)) (set_bookedIntervals (Some l))
             (fallback_rooms s) room Hroom (set_bookedIntervals_same room l Hl)).
  now rewrite set_fallback_rooms_same.
Qed.

End Unbook.

(** C7, as amended. For every room reached by [unbook] that has a
    [bookedIntervals] list (in file mode, one whose intervals all carry both
    dates) and every pair: when some interval has exactly the pair, the
    request answers 200 and the list keeps exactly the intervals that do not
    have the pair, so that every match is removed, the first and only one
    when the pair is unique; in file mode, when no interval has the pair,
    the request answers 404 "Booking not found" and the state is as it
    was. *)
Theorem unbook_room_policy
        (env : Env) (s : Server) (room_id : string) (data : BookingData)
        (i : DocId) (room : Room) (l : list Interval) :
  Py.truthy_opt (b_checkIn data) = true ->
  Py.truthy_opt (b_checkOut data) = true ->
  located s room_id i room ->
  bookedIntervals room = Some l ->
  (rooms_collection s = None -> forallb has_dates l = true) ->
  let check_in := Py.get_str (b_checkIn data) in
  let check_out := Py.get_str (b_checkOut data) in
  let kept := List.filter (fun e => negb (Mongo.pair_matches check_in check_out e)) l in
  ((exists e, In e l /\ Mongo.pair_matches check_in check_out e = true) ->
   exists s',
     unbook_room env s room_id data =
     (s', mkResponse 200 true (Some "Booking cancelled successfully") None
                     NoData None None)
     /\ active_rooms s' =
        update_first (has_id i)
          (fun _ => set_updated_at (Some (booking_stamp s (now env)))
                      (set_bookedIntervals (Some kept) room))
          (active_rooms s)
     /\ (forall e, In e kept <->
                   In e l /\ Mongo.pair_matches check_in check_out e = false))
  /\ (rooms_collection s = None ->
      (forall e, In e l -> Mongo.pair_matches check_in check_out e = false) ->
      unbook_room env s room_id data =
      (s, mkResponse 404 false None (Some "Booking not found") NoData None None)).
Proof.
  intros V1 V2 Hloc Hl Hkeys check_in check_out kept. split.
  - intros [e [Hin Hm]].
    destruct (unbook_room_removes env s room_id data (conj V1 V2) i room l e
                                  Hloc Hl Hkeys Hin Hm) as [s' [E A]].
    exists s'. split; [exact E |]. split; [exact A |].
    intro x. unfold kept. rewrite filter_In, negb_true_iff. tauto.
  - intros Hmode Hnone.
    unfold located in Hloc. rewrite Hmode in Hloc. destruct Hloc as [_ Hroom].
    exact (unbook_room_not_found env s room_id data (conj V1 V2) room l
                                 Hmode Hroom Hl (Hkeys Hmode) Hnone).
Qed.

Lemma unbook_room_policy_witness :
  let june := Sample.stay "2024-06-01" "2024-06-05" "An" in
  let july := Sample.stay "2024-07-01" "2024-07-03" "Binh" in
  let s := Sample.file_mode [Sample.room "0101" [june; july]] in
  (exists s',
      unbook_room Sample.env s "0101" (Sample.booking "2024-06-01" "2024-06-05" "") =
      (s', mkResponse 200 true (Some "Booking cancelled successfully") None
                      NoData None None)
      /\ map intervals_of (active_rooms s') = [[july]])
  /\ unbook_room Sample.env s "0101" (Sample.booking "2024-06-01" "2024-06-04" "") =
     (s, mkResponse 404 false None (Some "Booking not found") NoData None None).
Proof.
  intros june july s. split.
  - destruct (proj1 (unbook_room_policy Sample.env s "0101"
                       (Sample.booking "2024-06-01" "2024-06-05" "")
                       (StrId "0101") (Sample.room "0101" [june; july]) [june; july]
                       eq_refl eq_refl (conj eq_refl eq_refl) eq_refl
                       (fun _ => eq_refl)))
      as [s' [E [A _]]].
    + exists june. split; [now left | reflexivity].
    + exists s'. split; [exact E |]. rewrite A. reflexivity.
  - apply (proj2 (unbook_room_policy Sample.env s "0101"
                    (Sample.booking "2024-06-01" "2024-06-04" "")
                    (StrId "0101") (Sample.room "0101" [june; july]) [june; july]
                    eq_refl eq_refl (conj eq_refl eq_refl) eq_refl
                    (fun _ => eq_refl))).
    + reflexivity.
    + intros e [<- | [<- | []]]; reflexivity.
Defined.

(** C7 as stated fails on a room holding two intervals with the same pair,
    which two same-day bookings for different guests produce: [unbook]
    removes both, where removing the first match would keep the second. *)
Lemma unbook_room_removes_every_match :
  let s0 := Sample.file_mode [Sample.room "0101" []] in
  let first := book_room Sample.env s0 "0101"
                         (Sample.booking "2024-06-05" "2024-06-05" "An") in
  let second := book_room Sample.later (fst first) "0101"
                          (Sample.booking "2024-06-05" "2024-06-05" "Binh") in
  let cancel := unbook_room Sample.later (fst second) "0101"
                            (Sample.booking "2024-06-05" "2024-06-05" "") in
  status (snd first) = 200 /\ status (snd second) = 200
  /\ map (fun r => map guestName (intervals_of r)) (active_rooms (fst second)) =
     [[Some "An"; Some "Binh"]]
  /\ status (snd cancel) = 200
  /\ map intervals_of (active_rooms (fst cancel)) = [[]]
  /\ map (fun r => map guestName
                       (remove_first_pair "2024-06-05" "2024-06-05" (intervals_of r)))
         (active_rooms (fst second)) = [[Some "Binh"]].
Proof. repeat split. Qed.

(** In database mode the pull comes with a new [updated_at], so that the
    document counts as modified even when no interval has the pair: the
    request then answers 200 where file mode answers 404. *)
Lemma unbook_room_db_without_match :
  let june := Sample.stay "2024-06-01" "2024-06-05" "An" in
  let s := Sample.db_mode [Sample.room "0101" [june]] in
  let cancel := unbook_room Sample.env s "0101"
                            (Sample.booking "2024-07-01" "2024-07-03" "") in
  status (snd cancel) = 200
  /\ map intervals_of (active_rooms (fst cancel)) = [[june]]
  /\ status (snd (unbook_room Sample.env
                              (Sample.file_mode [Sample.room "0101" [june]]) "0101"
                              (Sample.booking "2024-07-01" "2024-07-03" ""))) = 404.
Proof. repeat split. Qed.

(* ===================================================================== *)
(** * Updating the guest of a booking *)
(* ===================================================================== *)

Section UpdateBooking.

Variables (check_in check_out : string) (f : Interval -> Interval).

Lemma update_first_pair_total (l : list Interval) :
  forallb has_dates l = true ->
  update_first_pair check_in check_out f l =
  inr (if existsb (Mongo.pair_matches check_in check_out) l
       then Some (update_first (Mongo.pair_matches check_in check_out) f l)
       else None).
Proof.
  induction l as [| e l IH]; simpl; [reflexivity |].
  rewrite andb_true_iff. intros [He Hl].
  rewrite (pair_equal_total check_in check_out e He). cbn [bind].
  destruct (Mongo.pair_matches check_in check_out e); [reflexivity |].
  rewrite (IH Hl). cbn [bind ret orb].
  now destruct (existsb (Mongo.pair_matches check_in check_out) l).
Qed.

End UpdateBooking.

(** In file mode [update_booking] does what the specification says: on a
    room whose intervals carry both dates, the first interval with the pair
    has its guest fields and [updatedAt] overwritten and every other interval
    is kept; without such an interval the answer is 404 and nothing
    changes. *)
Lemma update_booking_file_mode
      (env : Env) (s : Server) (room_id : string) (data : BookingData)
      (room : Room) (l : list Interval) :
  Py.truthy_opt (b_checkIn data) = true ->
  Py.truthy_opt (b_checkOut data) = true ->
  Py.truthy_opt (b_guestName data) = true ->
  rooms_collection s = None ->
  find_fallback room_id (fallback_rooms s) = Some room ->
  bookedIntervals room = Some l ->
  forallb has_dates l = true ->
  let check_in := Py.get_str (b_checkIn data) in
  let check_out := Py.get_str (b_checkOut data) in
  let overwrite :=
    set_guest (Py.get_str (b_guestName data)) (Py.get_str (b_guestPhone data))
              (Py.get_str (b_guestEmail data)) (Py.get_str (b_notes data))
              (Text (Py.isoformat (now env))) in
  (existsb (Mongo.pair_matches check_in check_out) l = true ->
   exists s',
     update_booking env s room_id data =
     (s', envelope_message 200 "Booking updated successfully" NoData)
     /\ fallback_rooms s' =
        update_first (has_id (StrId room_id))
          (fun _ => set_updated_at (Some (Text (Py.isoformat (now_again env))))
                      (set_bookedIntervals
                         (Some (update_first (Mongo.pair_matches check_in check_out)
                                             overwrite l)) room))
          (fallback_rooms s))
  /\ (existsb (Mongo.pair_matches check_in check_out) l = false ->
      update_booking env s room_id data = (s, envelope_error 404 "Booking not found"))
  /\ (forall e, checkIn (overwrite e) = checkIn e
                /\ checkOut (overwrite e) = checkOut e
                /\ createdAt (overwrite e) = createdAt e).
Proof.
  intros V1 V2 V3 Hmode Hroom Hl Hkeys check_in check_out overwrite.
  unfold update_booking. rewrite V1, V2, V3, Hmode, Hroom, Hl. cbn [negb orb].
  fold check_in check_out overwrite.
  rewrite (update_first_pair_total check_in check_out overwrite l Hkeys).
  cbn [bind].
  split; [| split].
  - intros ->. cbn [run ret]. eexists. split; [reflexivity |].
    match goal with
    | |- context [save_fallback_data ?t] =>
        destruct (save_fallback_rooms t) as [F _]; rewrite F
    end.
    cbn.
    apply (update_first_hit (has_id (StrId room_id))
             (fun r => set_updated_at (Some (Text (Py.isoformat (now_again env))))
                         (set_bookedIntervals
                            (Some (update_first (Mongo.pair_matches check_in check_out)
                                                overwrite l)) r))
             (fallback_rooms s) room Hroom).
  - now intros ->.
  - intro e. repeat split.
Qed.

(** C8 fails in database mode. The room holds two intervals and the request
    names the check-in of the first with the check-out of the second, a pair
    that no interval has. The filter of [update_one] is met by the two
    intervals together, so that the request answers 200 and the guest of one
    of the intervals is overwritten, whichever way the positional operator
    is resolved; file mode answers 404 on the same room. In file mode the
    answer is also 200, with nothing changed, when the room has no
    [bookedIntervals] key. *)
Theorem update_booking_unmatched_pair :
  let june := Sample.stay "2024-06-01" "2024-06-05" "An" in
  let july := Sample.stay "2024-07-10" "2024-07-15" "Binh" in
  let rooms := [Sample.room "0101" [june; july]] in
  let request := Sample.booking "2024-06-01" "2024-07-15" "Chi" in
  let outcome (by_last : bool) :=
    update_booking (Sample.resolving by_last) (Sample.db_mode rooms) "0101" request in
  (forall e, In e [june; july] ->
             Mongo.pair_matches "2024-06-01" "2024-07-15" e = false)
  /\ status (snd (outcome true)) = 200
  /\ map (fun r => map guestName (intervals_of r)) (active_rooms (fst (outcome true))) =
     [[Some "An"; Some "Chi"]]
  /\ status (snd (outcome false)) = 200
  /\ map (fun r => map guestName (intervals_of r)) (active_rooms (fst (outcome false))) =
     [[Some "Chi"; Some "Binh"]]
  /\ update_booking Sample.later (Sample.file_mode rooms) "0101" request =
     (Sample.file_mode rooms, envelope_error 404 "Booking not found")
  /\ update_booking Sample.later (Sample.file_mode [Sample.bare_room "0301"])
                    "0301" request =
     (Sample.file_mode [Sample.bare_room "0301"],
      envelope_message 200 "Booking updated successfully" NoData).
Proof.
  repeat split.
  intros e [<- | [<- | []]]; reflexivity.
Qed.

(* ===================================================================== *)
(** * The format of a caller-supplied room id *)
(* ===================================================================== *)

Section CustomId.

Lemma ascii_isdigit_char (c : ascii) :
  (Py.code c <? 128)%N = true -> Py.isdigit_char c = Py.is_ascii_digit c.
Proof.
  unfold Py.isdigit_char. intro H. apply N.ltb_lt in H.
  destruct (N.eqb_spec (Py.code c) 178); [lia |].
  destruct (N.eqb_spec (Py.code c) 179); [lia |].
  destruct (N.eqb_spec (Py.code c) 185); [lia |].
  now rewrite !orb_false_r.
Qed.

Lemma ascii_all_digits (c : string) :
  Py.isascii c = true ->
  Py.all_chars Py.isdigit_char c = Py.all_chars Py.is_ascii_digit c.
Proof.
  unfold Py.isascii. induction c as [| a c IH]; simpl; [reflexivity |].
  rewrite andb_true_iff. intros [Ha Hc].
  now rewrite (ascii_isdigit_char a Ha), (IH Hc).
Qed.

(** On a non-empty ASCII [custom_id] the test rejects everything but four
    ASCII digits. *)
Lemma bad_custom_id_ascii (c : string) :
  Py.truthy c = true -> Py.isascii c = true ->
  bad_custom_id (Some c) =
  negb ((String.length c =? 4)%nat && Py.all_chars Py.is_ascii_digit c).
Proof.
  intros Ht Ha. unfold bad_custom_id, Py.isdigit.
  rewrite Ht, (ascii_all_digits c Ha). simpl.
  destruct (Py.all_chars Py.is_ascii_digit c), (String.length c =? 4)%nat;
    reflexivity.
Qed.

Lemma add_room_rejects_malformed_id (env : Env) (s : Server) (data : RoomData)
      (c : string) :
  has_required_fields data = true ->
  d_custom_id data = Some c ->
  Py.truthy c = true -> Py.isascii c = true ->
  (String.length c =? 4)%nat && Py.all_chars Py.is_ascii_digit c = false ->
  add_room env s data =
  (s, envelope_error 400 "Room ID must be exactly 4 digits (e.g., 0101, 0201)").
Proof.
  intros Hreq Hc Ht Ha Hbad. unfold add_room.
  now rewrite Hreq, Hc, (bad_custom_id_ascii c Ht Ha), Hbad.
Qed.

Lemma custom_id_examples :
  bad_custom_id (Some "101") = true
  /\ bad_custom_id (Some "10101") = true
  /\ bad_custom_id (Some "01a1") = true
  /\ bad_custom_id (Some "0101") = false.
Proof. repeat split. Qed.

End CustomId.

(** C3 fails on a [custom_id] of four superscript digits: [str.isdigit]
    holds of it and its length is 4, so that the room is created under an
    id that is not made of ASCII digits; from then on a create without
    [custom_id] answers 500, because [int] does not read that id. *)
Theorem add_room_superscript_id :
  let request := Sample.new_room_data (Some Sample.superscript_id) in
  let created := add_room Sample.env (Sample.file_mode []) request in
  String.length Sample.superscript_id = 4
  /\ Py.isascii Sample.superscript_id = false
  /\ Py.all_chars Py.is_ascii_digit Sample.superscript_id = false
  /\ bad_custom_id (Some Sample.superscript_id) = false
  /\ status (snd created) = 201
  /\ map _id (fallback_rooms (fst created)) = [Some (StrId Sample.superscript_id)]
  /\ add_room Sample.later (fst created) (Sample.new_room_data None) =
     (fst created,
      envelope_error 500 ("invalid literal for int() with base 10: '"
                            ++ Sample.superscript_id ++ "'")%string).
Proof. repeat split. Qed.

(* ===================================================================== *)
(** * Runs of the handlers *)
(* ===================================================================== *)

Section Runs.

Let june := Sample.stay "2024-06-01" "2024-06-05" "An".
Let on_june_3rd := mkEnv (Py.mkDatetime "2024-06-03" "12:00:00" 0)
                         (Py.mkDatetime "2024-06-03" "12:00:00" 250)
                         (Py.mkDatetime "2024-06-03" "05:00:00" 0)
                         (Py.mkDatetime "2024-06-03" "05:00:00" 125)
                         "65f0c0ffee0123456789abcf" true.

(** File mode synthesizes the next numeric id, zero-padded to four digits. *)
Example add_room_next_id :
  let s := Sample.file_mode [Sample.room "0101" []; Sample.room "0007" []] in
  let out := add_room Sample.env s (Sample.new_room_data None) in
  status (snd out) = 201
  /\ map _id (fallback_rooms (fst out)) =
     [Some (StrId "0101"); Some (StrId "0007"); Some (StrId "0102")]
  /\ json_file (fst out) = map jsonify_room (fallback_rooms (fst out)).
Proof. repeat split. Qed.

(** Database mode stores the room under a new ObjectId, and rejects an id
    in use. *)
Example add_room_database :
  let s := Sample.db_mode [Sample.room "0101" []] in
  let out := add_room Sample.env s (Sample.new_room_data None) in
  map _id (active_rooms (fst out)) =
  [Some (StrId "0101"); Some (ObjId "65f0c0ffee0123456789abcd")]
  /\ add_room Sample.env s (Sample.new_room_data (Some "0101")) =
     (s, envelope_error 400 "Room with ID 0101 already exists").
Proof. repeat split. Qed.

(** Database mode applies the same conflict test. *)
Example book_room_database :
  let s := Sample.db_mode [Sample.room "0101" [june]] in
  status (snd (book_room Sample.env s "0101"
                         (Sample.booking "2024-06-04" "2024-06-06" "Binh"))) = 409
  /\ status (snd (book_room Sample.env s "0101"
                            (Sample.booking "2024-05-28" "2024-06-01" "Binh"))) = 200
  /\ map (fun r => map dates (intervals_of r))
         (active_rooms (fst (book_room Sample.env s "0101"
                                       (Sample.booking "2024-06-05" "2024-06-08" "Binh")))) =
     [[("2024-06-01", "2024-06-05"); ("2024-06-05", "2024-06-08")]].
Proof. repeat split. Qed.

Example get_room_status_booked :
  get_room_status on_june_3rd (Sample.file_mode [Sample.room "0101" [june]]) "0101" =
  mkResponse 200 true None None
             (RoomStatus "0101" false "booked" (Some ("2024-06-01", "2024-06-05")))
             None None.
Proof. reflexivity. Qed.

Example get_available_rooms_today :
  let s := Sample.file_mode [Sample.room "0101" [june]; Sample.room "0102" []] in
  count (get_available_rooms on_june_3rd s) = Some 1
  /\ count (get_available_rooms Sample.env s) = Some 2.
Proof. repeat split. Qed.

Example get_public_rooms_sources :
  source (get_public_rooms (Sample.file_mode [Sample.room "0101" []])) = Some "fallback"
  /\ source (get_public_rooms (Sample.db_mode [Sample.room "0101" []])) = Some "mongodb".
Proof. repeat split. Qed.

End Runs.

(* ===================================================================== *)
(** * Equality of documents, states and updates *)
(* ===================================================================== *)

Section Soundness.

Lemma option_eqb_sound {A : Type} (eqb : A -> A -> bool) :
  (forall x y, eqb x y = true -> x = y) ->
  forall a b, option_eqb eqb a b = true -> a = b.
Proof.
  intros H a b. destruct a as [x |], b as [y |]; simpl; try discriminate; auto.
  intro E. now rewrite (H x y E).
Qed.

Lemma list_eqb_sound {A : Type} (eqb : A -> A -> bool) :
  (forall x y, eqb x y = true -> x = y) ->
  forall a b, list_eqb eqb a b = true -> a = b.
Proof.
  intros H a. induction a as [| x a IH]; intros [| y b]; simpl;
    try discriminate; [reflexivity |].
  rewrite andb_true_iff. intros [E1 E2]. now rewrite (H x y E1), (IH b E2).
Qed.

Lemma string_eqb_sound (x y : string) : (x =? y) = true -> x = y.
Proof. apply String.eqb_eq. Qed.

Lemma float_eqb_sound (x y : spec_float) : float_eqb x y = true -> x = y.
Proof.
  destruct x as [a | a | | a m e], y as [b | b | | b n f]; simpl;
    try discriminate; try reflexivity.
  - intro H. apply Bool.eqb_prop in H. now subst.
  - intro H. apply Bool.eqb_prop in H. now subst.
  - rewrite !andb_true_iff, Pos.eqb_eq, Z.eqb_eq. intros [[H -> ] ->].
    apply Bool.eqb_prop in H. now subst.
Qed.

Lemma number_eqb_sound (x y : Py.number) : number_eqb x y = true -> x = y.
Proof.
  destruct x as [a | a], y as [b | b]; simpl; try discriminate.
  - rewrite Z.eqb_eq. now intros ->.
  - intro H. now rewrite (float_eqb_sound a b H).
Qed.

Lemma Timestamp_eqb_sound (x y : Timestamp) : Timestamp_eqb x y = true -> x = y.
Proof.
  destruct x as [a | [a1 a2 a3]], y as [b | [b1 b2 b3]]; simpl; try discriminate.
  - rewrite String.eqb_eq. now intros ->.
  - unfold datetime_eqb. simpl.
    rewrite !andb_true_iff, !String.eqb_eq, N.eqb_eq. now intros [[-> ->] ->].
Qed.

Lemma Interval_eqb_sound (a b : Interval) : Interval_eqb a b = true -> a = b.
Proof.
  destruct a, b. unfold Interval_eqb. simpl. rewrite !andb_true_iff.
  intros [[[[[[[H1 H2] H3] H4] H5] H6] H7] H8].
  apply (option_eqb_sound _ string_eqb_sound) in H1, H2, H3, H4, H5, H6, H7.
  apply (option_eqb_sound _ Timestamp_eqb_sound) in H8.
  now subst.
Qed.

Lemma Room_eqb_sound (a b : Room) : Room_eqb a b = true -> a = b.
Proof.
  destruct a, b. unfold Room_eqb. simpl. rewrite !andb_true_iff.
  intros [[[[[[[[H1 H2] H3] H4] H5] H6] H7] H8] H9].
  apply (option_eqb_sound _ (fun x y => proj1 (id_eqb_eq x y))) in H1.
  apply (option_eqb_sound _ string_eqb_sound) in H2, H5.
  apply (option_eqb_sound _ Timestamp_eqb_sound) in H8, H9.
  apply (option_eqb_sound _ number_eqb_sound) in H3.
  apply (option_eqb_sound _ (fun x y => proj1 (Z.eqb_eq x y))) in H4.
  apply (option_eqb_sound _ (list_eqb_sound _ string_eqb_sound)) in H6.
  apply (option_eqb_sound _ (list_eqb_sound _ Interval_eqb_sound)) in H7.
  now subst.
Qed.

Lemma set_collection_same (s : Server) (c : Collection) :
  rooms_collection s = Some c ->
  set_collection (mkCollection (docs c) (failure c)) s = s.
Proof. destruct s, c. simpl. now intros ->. Qed.

Lemma with_active_same (s : Server) : with_active (active_rooms s) s = s.
Proof.
  unfold with_active, active_rooms.
  destruct (rooms_collection s) as [c |] eqn:E.
  - now apply set_collection_same.
  - now destruct s.
Qed.

End Soundness.

Section MoreLists.

Context {A : Type}.
Variable p : A -> bool.

Lemma update_first_miss (f : A -> A) (l : list A) :
  List.find p l = None -> update_first p f l = l.
Proof.
  induction l as [| x l IH]; simpl; [reflexivity |].
  destruct (p x); [discriminate |]. intro H. now rewrite IH.
Qed.

Lemma remove_first_miss (l : list A) :
  existsb p l = false -> remove_first p l = l.
Proof.
  induction l as [| x l IH]; simpl; [reflexivity |].
  destruct (p x); [discriminate |]. simpl. intro H. now rewrite IH.
Qed.

Lemma remove_first_length (l : list A) :
  existsb p l = true -> S (List.length (remove_first p l)) = List.length l.
Proof.
  induction l as [| x l IH]; simpl; [discriminate |].
  destruct (p x); simpl; [reflexivity |]. intro H. now rewrite IH.
Qed.

Lemma filter_same_length (l : list A) :
  List.length (List.filter p l) = List.length l -> List.filter p l = l.
Proof.
  induction l as [| y l IH]; simpl; [reflexivity |].
  destruct (p y); simpl; intro H.
  - f_equal. apply IH. lia.
  - pose proof (filter_length_le p l). lia.
Qed.

Lemma find_app_miss (l : list A) (x : A) :
  List.find p l = None -> p x = true -> List.find p (l ++ [x]) = Some x.
Proof.
  induction l as [| y l IH]; simpl; intros H K.
  - now rewrite K.
  - destruct (p y); [discriminate | auto].
Qed.

Lemma find_none_existsb (l : list A) :
  List.find p l = None <-> existsb p l = false.
Proof.
  induction l as [| y l IH]; simpl; [tauto |].
  destruct (p y); simpl; [split; discriminate | exact IH].
Qed.

Lemma find_filter_negb (l : list A) :
  List.find p (List.filter (fun x => negb (p x)) l) = None.
Proof.
  induction l as [| y l IH]; simpl; [reflexivity |].
  destruct (p y) eqn:E; simpl; [exact IH |]. now rewrite E.
Qed.

End MoreLists.

(* ===================================================================== *)
(** * The outcomes of the mutating handlers *)
(* ===================================================================== *)

Section Outcomes.

Lemma active_rooms_mirror (s : Server) : active_rooms (mirror s) = active_rooms s.
Proof.
  unfold mirror. destruct (rooms_collection s);
    [apply active_rooms_sync | apply active_rooms_save].
Qed.

Lemma active_rooms_with_active (l : list Room) (s : Server) :
  active_rooms (with_active l s) = l.
Proof.
  unfold with_active, active_rooms.
  now destruct (rooms_collection s) as [c |] eqn:E; simpl; rewrite ?E.
Qed.

Lemma rooms_collection_mirror (s : Server) :
  rooms_collection (mirror s) = rooms_collection s.
Proof.
  unfold mirror. destruct (rooms_collection s) eqn:E.
  - destruct (sync_keeps_store s) as [_ [C _]]. now rewrite C.
  - destruct (save_fallback_rooms s) as [_ [C _]]. now rewrite C.
Qed.

(** Either [book_room] fails and the state is as it was, or it found the
    room, saw no conflict, and stored the room with the interval appended. *)
Lemma book_room_cases (env : Env) (s : Server) (room_id : string) (data : BookingData) :
  let check_in := Py.get_str (b_checkIn data) in
  let check_out := Py.get_str (b_checkOut data) in
  let guest_name := Py.get_str (b_guestName data) in
  let interval := new_interval env data check_in check_out guest_name in
  (success (snd (book_room env s room_id data)) = false
   /\ fst (book_room env s room_id data) = s)
  \/ exists i room,
      located s room_id i room
      /\ Py.truthy check_in = true /\ Py.truthy check_out = true
      /\ has_duplicate_booking check_in check_out guest_name (intervals_of room) = false
      /\ book_room env s room_id data =
         (mirror (with_active
                    (update_first (has_id i)
                       (fun _ => set_updated_at (Some (booking_stamp s (now_again env)))
                                   (set_bookedIntervals
                                      (Some (intervals_of room ++ [interval])) room))
                       (active_rooms s)) s),
          envelope_message 200 "Booking created successfully" (Booking interval)).
Proof.
  intros check_in check_out guest_name interval.
  unfold book_room.
  destruct (Py.truthy_opt (b_checkIn data)) eqn:V1; [| left; split; reflexivity].
  destruct (Py.truthy_opt (b_checkOut data)) eqn:V2; [| left; split; reflexivity].
  destruct (Py.truthy_opt (b_guestName data)) eqn:V3; [| left; split; reflexivity].
  cbn [negb orb]. fold check_in check_out guest_name. fold interval.
  assert (T1 : Py.truthy check_in = true).
  { unfold check_in. destruct (b_checkIn data); [exact V1 | discriminate]. }
  assert (T2 : Py.truthy check_out = true).
  { unfold check_out. destruct (b_checkOut data); [exact V2 | discriminate]. }
  unfold located, with_active, mirror, active_rooms, booking_stamp.
  destruct (rooms_collection s) as [c |] eqn:Hmode.
  - destruct (find_for_booking c room_id) as [e | [[i [room |]] |]] eqn:F;
      cbn [bind run]; try (left; split; reflexivity).
    destruct (has_duplicate_booking check_in check_out guest_name (intervals_of room))
      eqn:D; [left; split; reflexivity |].
    destruct (find_for_booking_found c room_id i room F) as [Hup Hfind].
    unfold Mongo.update_one, Mongo.guard. rewrite Hup, Hfind. cbn [bind ret].
    rewrite push_modifies. cbn [Mongo.modified_count Nat.eqb run].
    right. exists i, room. repeat split; try assumption.
    cbn [rooms_collection set_collection].
    rewrite (update_first_hit (has_id i)
               (fun r => set_updated_at (Some (Mongo.date (now_again env)))
                           (Mongo.push_interval interval r)) (docs c) room Hfind).
    reflexivity.
  - destruct (find_fallback room_id (fallback_rooms s)) as [room |] eqn:F;
      [| left; split; reflexivity].
    destruct (has_duplicate_booking check_in check_out guest_name (intervals_of room))
      eqn:D; [left; split; reflexivity |].
    cbn [run ret]. right. exists (StrId room_id), room.
    repeat split; try assumption.
    cbn [rooms_collection set_fallback_rooms]. rewrite Hmode.
    rewrite (update_first_hit (has_id (StrId room_id))
               (fun r => set_updated_at (Some (Text (Py.isoformat (now_again env))))
                           (set_bookedIntervals
                              (Some (intervals_of r ++ [interval])) r))
               (fallback_rooms s) room F).
    reflexivity.
Qed.


Lemma find_for_booking_spec (c : Collection) (room_id : string)
      (i : DocId) (o : option Room) :
  find_for_booking c room_id = inr (Some (i, o)) ->
  failure c = None /\ o = List.find (has_id i) (docs c).
Proof.
  unfold find_for_booking, Mongo.find_one, Mongo.guard.
  destruct (failure c); [discriminate |]. cbn [bind ret].
  destruct (List.find (has_id (StrId room_id)) (docs c)) as [x |] eqn:F.
  - intro H. inversion H; subst. auto.
  - destruct (ObjectId room_id) as [oid |]; [| discriminate].
    intro H. inversion H; subst. auto.
Qed.

Lemma find_for_booking_up (c : Collection) (room_id : string)
      (x : option (DocId * option Room)) :
  find_for_booking c room_id = inr x -> failure c = None.
Proof.
  unfold find_for_booking, Mongo.find_one, Mongo.guard.
  destruct (failure c); [discriminate | reflexivity].
Qed.

Lemma set_collection_id (s : Server) (c : Collection) :
  rooms_collection s = Some c -> set_collection c s = s.
Proof. destruct s. simpl. now intros ->. Qed.

Lemma pair_equal_value (ci co : string) (e : Interval) (b : bool) :
  pair_equal ci co e = inr b -> b = Mongo.pair_matches ci co e.
Proof.
  unfold pair_equal, Mongo.pair_matches.
  destruct (checkIn e) as [x |]; [| discriminate]. simpl.
  destruct (x =? ci); simpl.
  - destruct (checkOut e) as [y |]; [| discriminate]. simpl.
    intro H. now inversion H.
  - intro H. now inversion H.
Qed.

Lemma filterM_value (ci co : string) (l kept : list Interval) :
  filterM (fun e => hit <- pair_equal ci co e ;; ret (negb hit)) l = inr kept ->
  kept = List.filter (fun e => negb (Mongo.pair_matches ci co e)) l.
Proof.
  revert kept. induction l as [| e l IH]; simpl; intros kept H.
  - now inversion H.
  - destruct (pair_equal ci co e) as [x | b] eqn:P; [discriminate |].
    cbn [bind ret] in H.
    destruct (filterM (fun e => hit <- pair_equal ci co e ;; ret (negb hit)) l)
      as [x | ys]; [discriminate |].
    cbn [bind ret] in H. inversion H; subst.
    rewrite (pair_equal_value ci co e b P), (IH ys eq_refl). reflexivity.
Qed.

(** Either [unbook_room] fails and the state is as it was, or the room has
    no [bookedIntervals] key and nothing happens, or the room is stored
    again without the intervals that have the pair. *)
Lemma unbook_room_cases (env : Env) (s : Server) (room_id : string) (data : BookingData) :
  let check_in := Py.get_str (b_checkIn data) in
  let check_out := Py.get_str (b_checkOut data) in
  let cancelled := envelope_message 200 "Booking cancelled successfully" NoData in
  (success (snd (unbook_room env s room_id data)) = false
   /\ fst (unbook_room env s room_id data) = s)
  \/ (unbook_room env s room_id data = (s, cancelled)
      /\ rooms_collection s = None
      /\ exists room, find_fallback room_id (fallback_rooms s) = Some room
                      /\ bookedIntervals room = None)
  \/ exists i room,
      located s room_id i room
      /\ unbook_room env s room_id data =
         (mirror (with_active
                    (update_first (has_id i)
                       (fun _ => set_updated_at (Some (booking_stamp s (now env)))
                                   (Mongo.pull_pair check_in check_out room))
                       (active_rooms s)) s),
          cancelled).
Proof.
  intros check_in check_out cancelled.
  unfold unbook_room.
  destruct (Py.truthy_opt (b_checkIn data)) eqn:V1; [| left; split; reflexivity].
  destruct (Py.truthy_opt (b_checkOut data)) eqn:V2; [| left; split; reflexivity].
  cbn [negb orb]. fold check_in check_out. fold cancelled.
  unfold located, with_active, mirror, active_rooms, booking_stamp.
  destruct (rooms_collection s) as [c |] eqn:Hmode.
  - destruct (find_for_booking c room_id) as [e | [[i o] |]] eqn:F;
      cbn [bind run]; try (left; split; reflexivity).
    destruct (find_for_booking_spec c room_id i o F) as [Hup Ho].
    unfold Mongo.update_one, Mongo.guard. rewrite Hup, <- Ho. cbn [bind ret].
    destruct o as [old |]; cbn [Mongo.modified_count Nat.eqb run fst snd].
    + destruct (Room_eqb old (set_updated_at (Some (Mongo.date (now env)))
                                (Mongo.pull_pair check_in check_out old))) eqn:E;
        cbn [Mongo.modified_count Nat.eqb run fst snd].
      * left. split; [reflexivity |].
        apply Room_eqb_sound in E.
        rewrite (update_first_same (has_id i) _ (docs c) old (eq_sym Ho) (eq_sym E)).
        rewrite <- Hup. now apply set_collection_same.
      * right. right. exists i, old. split; [reflexivity |].
        cbn [rooms_collection set_collection].
        rewrite (update_first_hit (has_id i)
                   (fun r => set_updated_at (Some (Mongo.date (now env)))
                               (Mongo.pull_pair check_in check_out r))
                   (docs c) old (eq_sym Ho)).
        reflexivity.
    + left. split; [reflexivity |]. now apply set_collection_id.
  - destruct (find_fallback room_id (fallback_rooms s)) as [room |] eqn:F;
      [| left; split; reflexivity].
    destruct (bookedIntervals room) as [l |] eqn:Hl.
    + destruct (filterM (fun e => hit <- pair_equal check_in check_out e ;;
                                  ret (negb hit)) l) as [e | kept] eqn:K;
        cbn [bind run]; [left; split; reflexivity |].
      apply filterM_value in K. subst kept.
      destruct (Nat.eqb_spec
                  (List.length (List.filter
                                  (fun e => negb (Mongo.pair_matches check_in check_out e)) l))
                  (List.length l)) as [E | E]; cbn [run ret fst snd].
      * left. split; [reflexivity |].
        rewrite (filter_same_length _ l E).
        rewrite (update_first_same (has_id (StrId room_id)) _ (fallback_rooms s) room F
                                   (set_bookedIntervals_same room l Hl)).
        apply set_fallback_rooms_same.
      * right. right. exists (StrId room_id), room. split; [now split |].
        cbn [rooms_collection set_fallback_rooms]. rewrite Hmode.
        rewrite (update_first_hit (has_id (StrId room_id))
                   (fun r => set_updated_at (Some (Text (Py.isoformat (now env))))
                               (set_bookedIntervals
                                  (Some (List.filter
                                           (fun e => negb (Mongo.pair_matches check_in check_out e))
                                           l)) r))
                   (fallback_rooms s) room F).
        unfold Mongo.pull_pair. rewrite Hl. reflexivity.
    + right. left. split; [reflexivity |]. split; [reflexivity |].
      exists room. now split.
Qed.


Lemma update_first_pair_dates (ci co : string) (f : Interval -> Interval)
      (l l' : list Interval) :
  (forall e, dates (f e) = dates e) ->
  update_first_pair ci co f l = inr (Some l') -> map dates l' = map dates l.
Proof.
  intro Hf. revert l'. induction l as [| e l IH]; simpl; intros l' H.
  - discriminate.
  - destruct (pair_equal ci co e) as [x | [|]]; [discriminate | |]; cbn [bind ret] in H.
    + inversion H; subst. simpl. now rewrite Hf.
    + destruct (update_first_pair ci co f l) as [x | [r |]]; try discriminate;
        cbn [bind ret option_map] in H; inversion H; subst.
      simpl. now rewrite (IH r eq_refl).
Qed.

Lemma update_nth_map {A B : Type} (g : A -> B) (f : A -> A) (k : nat) (l : list A) :
  (forall x, g (f x) = g x) -> map g (update_nth k f l) = map g l.
Proof.
  intro H. revert k. induction l as [| x l IH]; intros [| k]; simpl;
    rewrite ?H, ?IH; reflexivity.
Qed.

Lemma set_positional_frame (by_last : bool) (ci co : string)
      (f : Interval -> Interval) (r : Room) :
  (forall e, dates (f e) = dates e) ->
  _id (Mongo.set_positional by_last ci co f r) = _id r
  /\ map dates (intervals_of (Mongo.set_positional by_last ci co f r)) =
     map dates (intervals_of r).
Proof.
  intro Hf. unfold Mongo.set_positional, intervals_of.
  destruct (bookedIntervals r) as [l |] eqn:Hl; [| now rewrite Hl].
  destruct (Mongo.positional by_last ci co l) as [k |]; [| now rewrite Hl].
  simpl. split; [reflexivity |]. now apply update_nth_map.
Qed.

Lemma find_for_booking_id (c : Collection) (room_id : string)
      (i : DocId) (o : option Room) :
  find_for_booking c room_id = inr (Some (i, o)) ->
  i = StrId room_id \/ ObjectId room_id = Some i.
Proof.
  unfold find_for_booking, Mongo.find_one, Mongo.guard.
  destruct (failure c); [discriminate |]. cbn [bind ret].
  destruct (List.find (has_id (StrId room_id)) (docs c)) as [x |].
  - intro H. inversion H. now left.
  - destruct (ObjectId room_id) as [oid |]; [| discriminate].
    intro H. inversion H; subst. now right.
Qed.

Lemma named_by_id (room_id : string) (i : DocId) (r : Room) :
  i = StrId room_id \/ ObjectId room_id = Some i ->
  has_id i r = true -> named room_id r = true.
Proof.
  unfold named. intros [-> | ->] H; rewrite H; [reflexivity | apply orb_true_r].
Qed.

(** Either [update_booking] fails and the state is as it was, or the room
    has no [bookedIntervals] key and nothing happens, or one room that the
    path parameter names is stored again under the same id with intervals of
    the same dates. *)
Lemma update_booking_cases (env : Env) (s : Server) (room_id : string)
      (data : BookingData) :
  let updated := envelope_message 200 "Booking updated successfully" NoData in
  (success (snd (update_booking env s room_id data)) = false
   /\ fst (update_booking env s room_id data) = s)
  \/ (update_booking env s room_id data = (s, updated)
      /\ rooms_collection s = None
      /\ exists room, find_fallback room_id (fallback_rooms s) = Some room
                      /\ bookedIntervals room = None)
  \/ exists p room room',
      List.find p (active_rooms s) = Some room
      /\ named room_id room = true
      /\ _id room' = _id room
      /\ map dates (intervals_of room') = map dates (intervals_of room)
      /\ update_booking env s room_id data =
         (mirror (with_active (update_first p (fun _ => room') (active_rooms s)) s),
          updated).
Proof.
  intro updated. unfold update_booking.
  destruct (Py.truthy_opt (b_checkIn data)) eqn:V1; [| left; split; reflexivity].
  destruct (Py.truthy_opt (b_checkOut data)) eqn:V2; [| left; split; reflexivity].
  destruct (Py.truthy_opt (b_guestName data)) eqn:V3; [| left; split; reflexivity].
  cbn [negb orb]. fold updated.
  set (check_in := Py.get_str (b_checkIn data)).
  set (check_out := Py.get_str (b_checkOut data)).
  set (overwrite := set_guest (Py.get_str (b_guestName data))
                              (Py.get_str (b_guestPhone data))
                              (Py.get_str (b_guestEmail data))
                              (Py.get_str (b_notes data))).
  assert (Hd : forall t e, dates (overwrite t e) = dates e) by reflexivity.
  unfold with_active, mirror, active_rooms.
  destruct (rooms_collection s) as [c |] eqn:Hmode.
  - destruct (find_for_booking c room_id) as [e | [[i o] |]] eqn:F;
      cbn [bind run]; try (left; split; reflexivity).
    pose proof (find_for_booking_up c room_id _ F) as Hup.
    unfold Mongo.update_one, Mongo.guard. rewrite Hup. cbn [bind ret].
    destruct (List.find (fun r => has_id i r && Mongo.array_filter check_in check_out r)
                        (docs c)) as [old |] eqn:G;
      cbn [Mongo.matched_count Nat.eqb run fst snd].
    + right. right.
      exists (fun r => has_id i r && Mongo.array_filter check_in check_out r), old,
        (set_updated_at (Some (Mongo.date (now_again env)))
           (Mongo.set_positional (positional_by_last env) check_in check_out
                                 (overwrite (Mongo.date (now env))) old)).
      destruct (set_positional_frame (positional_by_last env) check_in check_out
                                     (overwrite (Mongo.date (now env))) old
                                     (Hd (Mongo.date (now env)))) as [I D].
      split; [exact G |].
      split.
      { apply (named_by_id room_id i old (find_for_booking_id c room_id i o F)).
        apply find_some in G. destruct G as [_ G].
        apply andb_true_iff in G. exact (proj1 G). }
      split; [exact I |]. split; [exact D |].
      cbn [rooms_collection set_collection].
      rewrite (update_first_hit _
                 (fun r => set_updated_at (Some (Mongo.date (now_again env)))
                             (Mongo.set_positional (positional_by_last env)
                                                   check_in check_out
                                                   (overwrite (Mongo.date (now env))) r))
                 (docs c) old G).
      reflexivity.
    + left. split; [reflexivity |]. now apply set_collection_id.
  - destruct (find_fallback room_id (fallback_rooms s)) as [room |] eqn:F;
      [| left; split; reflexivity].
    destruct (bookedIntervals room) as [l |] eqn:Hl.
    + destruct (update_first_pair check_in check_out
                                  (overwrite (Text (Py.isoformat (now env)))) l)
        as [e | [l' |]] eqn:U;
        cbn [bind run]; try (left; split; reflexivity).
      right. right.
      exists (has_id (StrId room_id)), room,
        (set_updated_at (Some (Text (Py.isoformat (now_again env))))
                        (set_bookedIntervals (Some l') room)).
      split; [exact F |].
      split.
      { apply (named_by_id room_id (StrId room_id) room (or_introl eq_refl)).
        exact (proj2 (find_some _ _ F)). }
      split; [reflexivity |].
      split.
      { unfold intervals_of. rewrite Hl. cbn.
        exact (update_first_pair_dates check_in check_out _ l l' (Hd _) U). }
      cbn [rooms_collection set_fallback_rooms]. rewrite Hmode.
      rewrite (update_first_hit (has_id (StrId room_id))
                 (fun r => set_updated_at (Some (Text (Py.isoformat (now_again env))))
                             (set_bookedIntervals (Some l') r))
                 (fallback_rooms s) room F).
      reflexivity.
    + right. left. split; [reflexivity |]. split; [reflexivity |].
      exists room. now split.
Qed.


Lemma existsb_false_all {A : Type} (p : A -> bool) (l : list A) :
  existsb p l = false -> forall x, In x l -> p x = false.
Proof.
  intros H x Hx. destruct (p x) eqn:E; [| reflexivity].
  assert (K : existsb p l = true) by (apply existsb_exists; eauto). congruence.
Qed.

Lemma stored_id (s : Server) (r : Room) : _id (stored s r) = _id r.
Proof. unfold stored. now destruct (rooms_collection s). Qed.

Lemma has_id_stored (s : Server) (i : DocId) (r : Room) :
  has_id i (stored s r) = has_id i r.
Proof. unfold has_id. now rewrite stored_id. Qed.

Lemma bson_interval_dates (e : Interval) : dates (Mongo.bson_interval e) = dates e.
Proof. reflexivity. Qed.

Lemma stored_dates (s : Server) (r : Room) :
  map dates (intervals_of (stored s r)) = map dates (intervals_of r).
Proof.
  unfold stored, intervals_of, Mongo.bson_room.
  destruct (rooms_collection s); [| reflexivity]. cbn.
  destruct (bookedIntervals r) as [l |]; [| reflexivity]. cbn.
  rewrite map_map. now apply map_ext.
Qed.

Lemma stored_new (s : Server) (r : Room) :
  bookedIntervals r = Some [] -> bookedIntervals (stored s r) = Some [].
Proof.
  unfold stored. destruct (rooms_collection s); [| auto]. cbn. now intros ->.
Qed.

(** Either [add_room] fails and the state is as it was, or both numbers
    converted and it stores the room built from them under the id it
    resolved: appended when no stored room has the id, written over the
    document with that ObjectId otherwise. The answer shows the room as the
    handler built it, the store holds it as the backend keeps it. *)
Lemma add_room_built (env : Env) (s : Server) (data : RoomData) :
  (success (snd (add_room env s data)) = false /\ fst (add_room env s data) = s)
  \/ exists i p n rooms',
      resolve_id env s data = inr i
      /\ py_float (d_price data) = inr p
      /\ py_int (d_capacity data) = inr n
      /\ ((existsb (has_id i) (active_rooms s) = false
           /\ rooms' = active_rooms s
                       ++ [stored s (set_id (Some i) (new_room env data p n))])
          \/ (existsb (has_id i) (active_rooms s) = true
              /\ Py.truthy_opt (d_custom_id data) = false
              /\ rooms' = update_first
                            (has_id i)
                            (fun _ => stored s (set_id (Some i) (new_room env data p n)))
                            (active_rooms s)))
      /\ add_room env s data =
         (mirror (with_active rooms' s),
          envelope_message 201 "Room added successfully"
            (OneRoom (convert_room_for_api (set_id (Some i) (new_room env data p n))))).
Proof.
  unfold add_room.
  destruct (has_required_fields data); [| left; split; reflexivity].
  destruct (bad_custom_id (d_custom_id data)); [left; split; reflexivity |].
  cbn [negb].
  destruct (py_float (d_price data)) as [e | p]; [left; split; reflexivity |].
  destruct (py_int (d_capacity data)) as [e | n]; [left; split; reflexivity |].
  cbn [bind].
  unfold with_active, mirror, active_rooms, stored.
  destruct (rooms_collection s) as [c |] eqn:Hmode.
  - destruct (resolve_id env s data) as [e | i] eqn:R; [left; split; reflexivity |].
    cbn [bind].
    destruct (failure c) as [msg |] eqn:Hup.
    { left. unfold Mongo.find_one, Mongo.replace_one_upsert, Mongo.guard.
      rewrite Hup. destruct (Py.truthy_opt (d_custom_id data)); split; reflexivity. }
    set (room := set_id (Some i) (new_room env data p n)).
    destruct (Py.truthy_opt (d_custom_id data)) eqn:Hcustom.
    + unfold Mongo.find_one, Mongo.replace_one_upsert, Mongo.guard. rewrite Hup.
      cbn [bind ret].
      destruct (List.find (has_id i) (docs c)) as [x |] eqn:F;
        [left; split; reflexivity |].
      destruct (Mongo.encodable room); [| left; split; reflexivity].
      apply find_none_existsb in F. rewrite F. cbn [run ret bind].
      right. exists i, p, n, (docs c ++ [Mongo.bson_room room]).
      repeat split; auto.
    + unfold Mongo.replace_one_upsert, Mongo.guard. rewrite Hup. cbn [bind ret run].
      destruct (Mongo.encodable room); [| left; split; reflexivity].
      cbn [run].
      right. exists i, p, n.
      destruct (existsb (has_id i) (docs c)) eqn:X; eexists; repeat split; eauto.
  - destruct (resolve_id env s data) as [e | i] eqn:R; [left; split; reflexivity |].
    cbn [bind].
    destruct (List.find (has_id i) (fallback_rooms s)) as [x |] eqn:F;
      [left; split; reflexivity |].
    apply find_none_existsb in F. cbn [run ret].
    right. exists i, p, n,
      (fallback_rooms s ++ [set_id (Some i) (new_room env data p n)]).
    repeat split; auto.
    cbn [rooms_collection set_fallback_rooms]. now rewrite Hmode.
Qed.

(** The same, keeping of the room only its id and its empty calendar. *)
Lemma add_room_cases (env : Env) (s : Server) (data : RoomData) :
  (success (snd (add_room env s data)) = false /\ fst (add_room env s data) = s)
  \/ exists i room rooms',
      resolve_id env s data = inr i
      /\ _id room = Some i
      /\ bookedIntervals room = Some []
      /\ ((existsb (has_id i) (active_rooms s) = false
           /\ rooms' = active_rooms s ++ [stored s room])
          \/ (existsb (has_id i) (active_rooms s) = true
              /\ Py.truthy_opt (d_custom_id data) = false
              /\ rooms' = update_first (has_id i) (fun _ => stored s room)
                                       (active_rooms s)))
      /\ add_room env s data =
         (mirror (with_active rooms' s),
          envelope_message 201 "Room added successfully"
                           (OneRoom (convert_room_for_api room))).
Proof.
  destruct (add_room_built env s data)
    as [K | [i [p [n [rooms' [R [_ [_ [Shape E]]]]]]]]]; [now left |].
  right. exists i, (set_id (Some i) (new_room env data p n)), rooms'.
  repeat split; assumption.
Qed.

(** The assignments of [update_room] leave the id and the intervals alone,
    wherever they stop. *)
Lemma apply_update_fallback_frame (env : Env) (data : RoomData) (old : Room) :
  _id (fst (apply_update_fallback env data old)) = _id old
  /\ bookedIntervals (fst (apply_update_fallback env data old)) = bookedIntervals old.
Proof.
  unfold apply_update_fallback, assign_price, assign_persons, assign_name,
    assign_description, assign_amenities.
  destruct (d_price data) as [v |];
    [destruct (py_float (Some v)) as [e | p] |];
    (destruct (d_capacity data) as [w |];
     [destruct (py_int (Some w)) as [e' | n] |]);
    destruct (d_name data), (d_description data), (d_amenities data);
    cbn; split; reflexivity.
Qed.

Lemma apply_update_mongo_frame (env : Env) (i : DocId) (data : RoomData)
      (old new : Room) :
  apply_update_mongo env i data old = inr new ->
  _id new = Some i /\ bookedIntervals new = bookedIntervals old.
Proof.
  unfold apply_update_mongo, assign_price, assign_persons, assign_name,
    assign_description, assign_amenities.
  destruct (d_price data) as [v |];
    [destruct (py_float (Some v)) as [e | p]; [discriminate |] |];
    (destruct (d_capacity data) as [w |];
     [destruct (py_int (Some w)) as [e' | n]; [discriminate |] |]);
    (destruct (d_persons data) as [u |];
     [destruct (py_int (Some u)) as [e'' | m]; [discriminate |] |]);
    destruct (d_name data), (d_description data), (d_amenities data);
    cbn; intro H; inversion H; subst; split; reflexivity.
Qed.

Lemma apply_update_fallback_stamp (env : Env) (data : RoomData) (old new : Room) :
  apply_update_fallback env data old = (new, None) ->
  updated_at new = Some (Text (Py.isoformat (utcnow env)))
  /\ created_at new = created_at old.
Proof.
  unfold apply_update_fallback, assign_price, assign_persons, assign_name,
    assign_description, assign_amenities.
  destruct (d_price data) as [v |];
    [destruct (py_float (Some v)) as [e | p] |];
    (destruct (d_capacity data) as [w |];
     [destruct (py_int (Some w)) as [e' | n] |]);
    destruct (d_name data), (d_description data), (d_amenities data);
    cbn; intro H; inversion H; subst; split; reflexivity.
Qed.

Lemma apply_update_mongo_stamp (env : Env) (i : DocId) (data : RoomData)
      (old new : Room) :
  apply_update_mongo env i data old = inr new ->
  updated_at new = Some (Instant (utcnow env))
  /\ created_at new = created_at old.
Proof.
  unfold apply_update_mongo, assign_price, assign_persons, assign_name,
    assign_description, assign_amenities.
  destruct (d_price data) as [v |];
    [destruct (py_float (Some v)) as [e | p]; [discriminate |] |];
    (destruct (d_capacity data) as [w |];
     [destruct (py_int (Some w)) as [e' | n]; [discriminate |] |]);
    (destruct (d_persons data) as [u |];
     [destruct (py_int (Some u)) as [e'' | m]; [discriminate |] |]);
    destruct (d_name data), (d_description data), (d_amenities data);
    cbn; intro H; inversion H; subst; split; reflexivity.
Qed.

(** Either [update_room] fails and the state is as it was; or, in file mode,
    a conversion raised between two assignments and the room found is left
    changed in memory, with its id and its intervals, and nothing is saved;
    or the room found is stored again with the same id, the same intervals,
    the same [created_at] and a new [updated_at]. *)
Lemma update_room_built (env : Env) (s : Server) (room_id : string) (data : RoomData) :
  (success (snd (update_room env s room_id data)) = false
   /\ fst (update_room env s room_id data) = s)
  \/ (exists old new e,
         rooms_collection s = None
         /\ find_fallback room_id (fallback_rooms s) = Some old
         /\ apply_update_fallback env data old = (new, Some e)
         /\ _id new = _id old
         /\ bookedIntervals new = bookedIntervals old
         /\ update_room env s room_id data =
            (with_active (update_first (has_id (StrId room_id)) (fun _ => new)
                                       (active_rooms s)) s,
             internal_error e))
  \/ exists i old new,
      lookup_room s room_id = inr (Some (i, old))
      /\ _id new = _id old
      /\ bookedIntervals new = bookedIntervals old
      /\ created_at new = created_at old
      /\ updated_at new = Some (update_stamp env s)
      /\ update_room env s room_id data =
         (mirror (with_active (update_first (has_id i) (fun _ => stored s new)
                                            (active_rooms s)) s),
          envelope_message 200 "Room updated successfully"
                           (OneRoom (convert_room_for_api new))).
Proof.
  unfold update_room, lookup_room, with_active, mirror, active_rooms, stored,
    update_stamp.
  destruct (rooms_collection s) as [c |] eqn:Hmode.
  - destruct (find_by_either c room_id) as [e | [[i old] |]] eqn:F;
      cbn [bind run]; try (left; split; reflexivity).
    destruct (find_by_either_found c room_id i old F) as [Hup Hfind].
    destruct (apply_update_mongo env i data old) as [e | new] eqn:A;
      cbn [bind run]; [left; split; reflexivity |].
    unfold Mongo.replace_one_upsert, Mongo.guard. rewrite Hup. cbn [bind ret].
    destruct (Mongo.encodable new); cbn [bind run]; [| left; split; reflexivity].
    rewrite (find_existsb _ _ _ Hfind). cbn [run].
    right. right. exists i, old, new.
    destruct (apply_update_mongo_frame env i data old new A) as [I B].
    destruct (apply_update_mongo_stamp env i data old new A) as [U C].
    split; [reflexivity |].
    split; [rewrite I; symmetry; exact (find_has_id _ _ _ Hfind) |].
    repeat split; assumption.
  - destruct (find_fallback room_id (fallback_rooms s)) as [old |] eqn:F;
      [| left; split; reflexivity].
    destruct (apply_update_fallback_frame env data old) as [I B].
    destruct (apply_update_fallback env data old) as [new [e |]] eqn:A;
      cbn [fst] in I, B.
    + right. left. exists old, new, e. repeat split; auto.
    + right. right. exists (StrId room_id), old, new.
      destruct (apply_update_fallback_stamp env data old new A) as [U C].
      split; [reflexivity |]. split; [exact I |]. split; [exact B |].
      split; [exact C |]. split; [exact U |].
      cbn [rooms_collection set_fallback_rooms]. now rewrite Hmode.
Qed.

(** The same, keeping of the room written only its id and its intervals. *)
Lemma update_room_cases (env : Env) (s : Server) (room_id : string) (data : RoomData) :
  (success (snd (update_room env s room_id data)) = false
   /\ fst (update_room env s room_id data) = s)
  \/ (exists old new e,
         rooms_collection s = None
         /\ find_fallback room_id (fallback_rooms s) = Some old
         /\ apply_update_fallback env data old = (new, Some e)
         /\ _id new = _id old
         /\ bookedIntervals new = bookedIntervals old
         /\ update_room env s room_id data =
            (with_active (update_first (has_id (StrId room_id)) (fun _ => new)
                                       (active_rooms s)) s,
             internal_error e))
  \/ exists i old new,
      lookup_room s room_id = inr (Some (i, old))
      /\ _id new = _id old
      /\ bookedIntervals new = bookedIntervals old
      /\ update_room env s room_id data =
         (mirror (with_active (update_first (has_id i) (fun _ => stored s new)
                                            (active_rooms s)) s),
          envelope_message 200 "Room updated successfully"
                           (OneRoom (convert_room_for_api new))).
Proof.
  destruct (update_room_built env s room_id data)
    as [K | [K | [i [old [new [L [I [B [_ [_ E]]]]]]]]]];
    [now left | now right; left |].
  right. right. exists i, old, new. repeat split; assumption.
Qed.

(** Either [delete_room] fails and the state is as it was, or rooms with the
    id are gone: all of them in file mode, the first document under the
    string id, or else under the ObjectId, in database mode. *)
Lemma delete_room_cases (s : Server) (room_id : string) :
  (success (snd (delete_room s room_id)) = false /\ fst (delete_room s room_id) = s)
  \/ exists rooms',
      delete_room s room_id =
      (mirror (with_active rooms' s),
       envelope_message 200 "Room deleted successfully" NoData)
      /\ ((rooms_collection s = None
           /\ existsb (has_id (StrId room_id)) (active_rooms s) = true
           /\ rooms' = List.filter (fun r => negb (has_id (StrId room_id) r))
                                   (active_rooms s))
          \/ exists i,
              rooms_collection s <> None
              /\ existsb (has_id i) (active_rooms s) = true
              /\ rooms' = remove_first (has_id i) (active_rooms s)
              /\ (i = StrId room_id
                  \/ (existsb (has_id (StrId room_id)) (active_rooms s) = false
                      /\ ObjectId room_id = Some i))).
Proof.
  unfold delete_room, with_active, mirror, active_rooms.
  destruct (rooms_collection s) as [c |] eqn:Hmode.
  - unfold delete_one, Mongo.guard.
    destruct (failure c) as [msg |] eqn:Hup; [left; split; reflexivity |].
    cbn [bind ret fst snd].
    destruct (existsb (has_id (StrId room_id)) (docs c)) eqn:X1;
      cbn [Nat.eqb fst snd run ret].
    + right. eexists. split; [reflexivity |]. right.
      exists (StrId room_id). repeat split; auto. discriminate.
    + rewrite (remove_first_miss _ _ X1).
      destruct (ObjectId room_id) as [oid |] eqn:O; cbn [failure docs fst snd].
      * cbn [ret fst snd].
        destruct (existsb (has_id oid) (docs c)) eqn:X2;
          cbn [Nat.eqb fst snd run ret].
        -- right. eexists. split; [reflexivity |]. right.
           exists oid. repeat split; auto. discriminate.
        -- left. split; [reflexivity |]. rewrite (remove_first_miss _ _ X2).
           rewrite <- Hup. now apply set_collection_same.
      * cbn [Nat.eqb fst snd run ret]. left. split; [reflexivity |].
        rewrite <- Hup. now apply set_collection_same.
  - cbn [fallback_rooms set_fallback_rooms].
    destruct (Nat.eqb_spec
                (List.length (List.filter (fun r => negb (has_id (StrId room_id) r))
                                          (fallback_rooms s)))
                (List.length (fallback_rooms s))) as [E | E]; cbn [run ret fst snd].
    + left. split; [reflexivity |].
      rewrite (filter_same_length _ _ E). apply set_fallback_rooms_same.
    + right. eexists. split; [| left; split; [reflexivity | split; [| reflexivity]]].
      * cbn [rooms_collection set_fallback_rooms]. now rewrite Hmode.
      * destruct (existsb (has_id (StrId room_id)) (fallback_rooms s)) eqn:X;
          [reflexivity |].
        exfalso. apply E. f_equal. apply filter_keeps_all.
        intros x Hx. now rewrite (existsb_false_all _ _ X x Hx).
Qed.

End Outcomes.

(* ===================================================================== *)
(** * While the database raises *)
(* ===================================================================== *)

Section DatabaseDown.

Variables (env : Env) (s : Server) (c : Collection) (msg : string).
Hypothesis mode : rooms_collection s = Some c.
Hypothesis down : failure c = Some msg.

Lemma find_for_booking_down (room_id : string) :
  find_for_booking c room_id = inl (PyMongoError msg).
Proof. unfold find_for_booking, Mongo.find_one, Mongo.guard. now rewrite down. Qed.

Lemma find_by_either_down (room_id : string) :
  find_by_either c room_id = inl (PyMongoError msg).
Proof. unfold find_by_either, Mongo.find_one, Mongo.guard. now rewrite down. Qed.

Lemma book_room_down (room_id : string) (data : BookingData) :
  success (snd (book_room env s room_id data)) = false.
Proof.
  unfold book_room. rewrite mode, find_for_booking_down.
  now destruct (Py.truthy_opt (b_checkIn data)), (Py.truthy_opt (b_checkOut data)),
    (Py.truthy_opt (b_guestName data)).
Qed.

Lemma unbook_room_down (room_id : string) (data : BookingData) :
  success (snd (unbook_room env s room_id data)) = false.
Proof.
  unfold unbook_room. rewrite mode, find_for_booking_down.
  now destruct (Py.truthy_opt (b_checkIn data)), (Py.truthy_opt (b_checkOut data)).
Qed.

Lemma update_booking_down (room_id : string) (data : BookingData) :
  success (snd (update_booking env s room_id data)) = false.
Proof.
  unfold update_booking. rewrite mode, find_for_booking_down.
  now destruct (Py.truthy_opt (b_checkIn data)), (Py.truthy_opt (b_checkOut data)),
    (Py.truthy_opt (b_guestName data)).
Qed.

Lemma update_room_down (room_id : string) (data : RoomData) :
  update_room env s room_id data = (s, envelope_error 500 msg).
Proof. unfold update_room. now rewrite mode, find_by_either_down. Qed.

Lemma delete_room_down (room_id : string) :
  delete_room s room_id = (s, envelope_error 500 msg).
Proof. unfold delete_room, delete_one, Mongo.guard. now rewrite mode, down. Qed.

Lemma add_room_down (data : RoomData) :
  success (snd (add_room env s data)) = false.
Proof.
  unfold add_room. rewrite mode.
  destruct (has_required_fields data); [| reflexivity].
  destruct (bad_custom_id (d_custom_id data)); [reflexivity |]. cbn [negb].
  destruct (py_float (d_price data)); [reflexivity |].
  destruct (py_int (d_capacity data)); [reflexivity |]. cbn [bind].
  destruct (resolve_id env s data); [reflexivity |]. cbn [bind].
  unfold Mongo.find_one, Mongo.replace_one_upsert, Mongo.guard. rewrite down.
  now destruct (Py.truthy_opt (d_custom_id data)).
Qed.

End DatabaseDown.

(** X1. While the database raises, every handler but the public list answers
    500 with the text of the exception, once the request has passed the
    handler's own validation, and the state stays as it was. A create reaches
    the database after [float(price)] and [int(capacity)]: the answer is the
    database's when both return. *)
Theorem database_failure_answers
        (env : Env) (s : Server) (c : Collection) (msg : string)
        (room_id : string) (room : RoomData) (booking : BookingData) :
  rooms_collection s = Some c -> failure c = Some msg ->
  let failed := mkResponse 500 false None (Some msg) NoData None None in
  get_all_rooms s = failed
  /\ get_room s room_id = failed
  /\ get_public_room s room_id = failed
  /\ get_room_status env s room_id = failed
  /\ get_available_rooms env s = failed
  /\ delete_room s room_id = (s, failed)
  /\ update_room env s room_id room = (s, failed)
  /\ (has_required_fields room = true -> bad_custom_id (d_custom_id room) = false ->
      convertible room = true ->
      add_room env s room = (s, failed))
  /\ (Py.truthy_opt (b_checkIn booking) = true ->
      Py.truthy_opt (b_checkOut booking) = true ->
      unbook_room env s room_id booking = (s, failed)
      /\ (Py.truthy_opt (b_guestName booking) = true ->
          book_room env s room_id booking = (s, failed)
          /\ update_booking env s room_id booking = (s, failed))).
Proof.
  intros mode down failed.
  pose proof (find_for_booking_down c msg down room_id) as F.
  pose proof (find_by_either_down c msg down room_id) as G.
  split; [| split; [| split; [| split; [| split; [| split; [| split; [| split]]]]]]].
  - unfold get_all_rooms, Mongo.find, Mongo.guard. now rewrite mode, down.
  - unfold get_room, lookup_room. now rewrite mode, G.
  - unfold get_public_room, lookup_room. now rewrite mode, G.
  - unfold get_room_status, lookup_room. now rewrite mode, G.
  - unfold get_available_rooms, all_rooms, Mongo.find, Mongo.guard.
    now rewrite mode, down.
  - exact (delete_room_down s c msg mode down room_id).
  - exact (update_room_down env s c msg mode down room_id room).
  - intros Hreq Hid Hconv.
    destruct (converted_numbers _ Hconv) as [p [n [Hp Hn]]].
    unfold add_room. rewrite Hreq, Hid, Hp, Hn, mode.
    cbn [negb bind ret].
    destruct (resolve_id env s room) as [e | i] eqn:R.
    + unfold resolve_id in R. rewrite mode in R.
      destruct (Py.truthy_opt (d_custom_id room)); discriminate R.
    + cbn [bind]. unfold Mongo.find_one, Mongo.replace_one_upsert, Mongo.guard.
      rewrite down. now destruct (Py.truthy_opt (d_custom_id room)).
  - intros V1 V2. split.
    + unfold unbook_room. now rewrite V1, V2, mode, F.
    + intro V3. split.
      * unfold book_room. now rewrite V1, V2, V3, mode, F.
      * unfold update_booking. now rewrite V1, V2, V3, mode, F.
Qed.

Lemma database_failure_answers_witness :
  let s := Sample.db_down [Sample.room "0101" []] in
  get_all_rooms s = envelope_error 500 "connection closed"
  /\ book_room Sample.env s "0101" (Sample.booking "2024-06-01" "2024-06-05" "An") =
     (s, envelope_error 500 "connection closed")
  /\ add_room Sample.env s (Sample.new_room_data (Some "0102")) =
     (s, envelope_error 500 "connection closed").
Proof.
  intro s.
  pose proof (database_failure_answers
                Sample.env s (mkCollection [] (Some "connection closed"))
                "connection closed" "0101" (Sample.new_room_data (Some "0102"))
                (Sample.booking "2024-06-01" "2024-06-05" "An") eq_refl eq_refl)
    as [A [_ [_ [_ [_ [_ [_ [N B]]]]]]]].
  split; [exact A |]. split.
  - exact (proj1 (proj2 (B eq_refl eq_refl) eq_refl)).
  - exact (N eq_refl eq_refl eq_refl).
Defined.

(* ===================================================================== *)
(** * What a request leaves alone *)
(* ===================================================================== *)

Section Frames.

Lemma map_update_first_same {A B : Type} (g : A -> B) (p : A -> bool)
      (x x' : A) (l : list A) :
  List.find p l = Some x -> g x' = g x ->
  map g (update_first p (fun _ => x') l) = map g l.
Proof.
  intros F E. induction l as [| y l IH]; simpl in *; [discriminate |].
  destruct (p y).
  - inversion F; subst. simpl. now rewrite E.
  - simpl. now rewrite IH.
Qed.

Lemma lookup_room_active (s : Server) (room_id : string) (i : DocId) (room : Room) :
  lookup_room s room_id = inr (Some (i, room)) ->
  List.find (has_id i) (active_rooms s) = Some room.
Proof.
  unfold lookup_room, active_rooms, find_fallback.
  destruct (rooms_collection s) as [c |].
  - intro H. now apply find_by_either_found in H.
  - destruct (List.find (has_id (StrId room_id)) (fallback_rooms s)) eqn:F; simpl;
      intro H; inversion H; subst. exact F.
Qed.

Lemma In_id_existsb (i : DocId) (l : list Room) :
  In (Some i) (map _id l) -> existsb (has_id i) l = true.
Proof.
  rewrite in_map_iff. intros [r [E Hr]]. apply existsb_exists. exists r.
  split; [exact Hr |]. now apply has_id_eq.
Qed.

Lemma NoDup_snoc {A : Type} (l : list A) (x : A) :
  NoDup l -> ~ In x l -> NoDup (l ++ [x]).
Proof.
  induction l as [| y l IH]; simpl; intros N H.
  - constructor; [tauto | constructor].
  - inversion N; subst. constructor.
    + rewrite in_app_iff. simpl. intros [K | [K | []]]; [tauto | subst; tauto].
    + apply IH; tauto.
Qed.

Lemma NoDup_map_filter {A B : Type} (g : A -> B) (p : A -> bool) (l : list A) :
  NoDup (map g l) -> NoDup (map g (List.filter p l)).
Proof.
  induction l as [| y l IH]; simpl; intro N; [constructor |].
  inversion N; subst. destruct (p y); simpl; [| auto].
  constructor; [| auto].
  rewrite in_map_iff. intros [z [E Hz]]. apply filter_In in Hz.
  apply H1. rewrite in_map_iff. exists z. tauto.
Qed.

Lemma NoDup_map_remove_first {A B : Type} (g : A -> B) (p : A -> bool) (l : list A) :
  NoDup (map g l) -> NoDup (map g (remove_first p l)).
Proof.
  induction l as [| y l IH]; simpl; intro N; [constructor |].
  inversion N; subst. destruct (p y); simpl; [assumption |].
  constructor; [| auto].
  rewrite in_map_iff. intros [z [E Hz]]. apply H1. rewrite in_map_iff.
  exists z. split; [exact E |].
  clear - Hz. induction l as [| w l IH]; simpl in *; [tauto |].
  destruct (p w); simpl in *; tauto.
Qed.

End Frames.

(** X2. A request that is answered with [success: false] by [add_room],
    [delete_room], [book_room], [unbook_room] or [update_booking] leaves the
    rooms, the collection and the mirror file exactly as they were. *)
Theorem failed_request_keeps_state
        (env : Env) (s : Server) (room_id : string)
        (room : RoomData) (booking : BookingData) :
  (success (snd (add_room env s room)) = false -> fst (add_room env s room) = s)
  /\ (success (snd (delete_room s room_id)) = false ->
      fst (delete_room s room_id) = s)
  /\ (success (snd (book_room env s room_id booking)) = false ->
      fst (book_room env s room_id booking) = s)
  /\ (success (snd (unbook_room env s room_id booking)) = false ->
      fst (unbook_room env s room_id booking) = s)
  /\ (success (snd (update_booking env s room_id booking)) = false ->
      fst (update_booking env s room_id booking) = s).
Proof.
  split; [| split; [| split; [| split]]].
  - destruct (add_room_cases env s room) as [[_ E] | [i [r [l [_ [_ [_ [_ E]]]]]]]];
      [auto | rewrite E; discriminate].
  - destruct (delete_room_cases s room_id) as [[_ E] | [l [E _]]];
      [auto | rewrite E; discriminate].
  - destruct (book_room_cases env s room_id booking)
      as [[_ E] | [i [r [_ [_ [_ [_ E]]]]]]]; [auto | rewrite E; discriminate].
  - destruct (unbook_room_cases env s room_id booking)
      as [[_ E] | [[E _] | [i [r [_ E]]]]]; [auto | | ]; rewrite E; discriminate.
  - destruct (update_booking_cases env s room_id booking)
      as [[_ E] | [[E _] | [p [r [r' [_ [_ [_ [_ E]]]]]]]]]; [auto | | ];
      rewrite E; discriminate.
Qed.

Lemma failed_request_keeps_state_witness :
  let held := Sample.stay "2024-06-01" "2024-06-05" "An" in
  let s := Sample.db_mode [Sample.room "0101" [held]] in
  fst (book_room Sample.env s "0101" (Sample.booking "2024-06-03" "2024-06-08" "Binh")) = s.
Proof.
  intros held s.
  apply (proj1 (proj2 (proj2 (failed_request_keeps_state
                                Sample.env s "0101" (Sample.new_room_data None)
                                (Sample.booking "2024-06-03" "2024-06-08" "Binh"))))).
  reflexivity.
Defined.

(* ===================================================================== *)
(** * The mirror file follows the store *)
(* ===================================================================== *)

Section MirrorInvariant.

Variable s : Server.
Hypothesis writable : disk_writable s = true.

Lemma mirrored_after_write (l : list Room) :
  (forall c, rooms_collection s = Some c -> failure c = None) ->
  mirrored (mirror (with_active l s)).
Proof.
  intro up. unfold mirrored. rewrite active_rooms_mirror, active_rooms_with_active.
  unfold mirror, with_active.
  destruct (rooms_collection s) as [c |] eqn:Hmode.
  - cbn [rooms_collection set_collection].
    unfold sync_mongodb_to_json, Mongo.find, Mongo.guard.
    cbn [rooms_collection set_collection failure docs disk_writable].
    now rewrite (up c eq_refl), writable.
  - cbn [rooms_collection set_fallback_rooms]. rewrite Hmode.
    unfold save_fallback_data. cbn [disk_writable set_fallback_rooms].
    now rewrite writable.
Qed.

End MirrorInvariant.

(** X3. When the disk is writable and the mirror file holds the rooms of the
    backend in use, it still does after any request to a mutating handler,
    whatever the answer; for [update_room] in file mode, provided [float] and
    [int] return on the numbers of the request: an exception there leaves a
    room changed in memory that was not saved. *)
Theorem mirror_follows_store
        (env : Env) (s : Server) (room_id : string)
        (room : RoomData) (booking : BookingData) :
  disk_writable s = true -> mirrored s ->
  mirrored (fst (add_room env s room))
  /\ ((rooms_collection s = None -> update_converts s room = true) ->
      mirrored (fst (update_room env s room_id room)))
  /\ mirrored (fst (delete_room s room_id))
  /\ mirrored (fst (book_room env s room_id booking))
  /\ mirrored (fst (unbook_room env s room_id booking))
  /\ mirrored (fst (update_booking env s room_id booking)).
Proof.
  intros W M.
  assert (up : forall r : Response,
             success r = true ->
             (forall c msg, rooms_collection s = Some c -> failure c = Some msg ->
                            success r = false) ->
             forall c, rooms_collection s = Some c -> failure c = None).
  { intros r T D c Hc. destruct (failure c) as [msg |] eqn:F; [| reflexivity].
    rewrite (D c msg Hc F) in T. discriminate T. }
  split; [| split; [| split; [| split; [| split]]]].
  - destruct (add_room_cases env s room) as [[_ E] | [i [r [l [_ [_ [_ [_ E]]]]]]]];
      [now rewrite E |].
    rewrite E. apply (mirrored_after_write s W).
    apply (up (snd (add_room env s room))); [now rewrite E |].
    intros c msg Hc F. exact (add_room_down env s c msg Hc F room).
  - intro Hconv. destruct (update_room_cases env s room_id room)
      as [[_ E] | [[o [n [e [Hm [_ [A _]]]]]] | [i [o [n [_ [_ [_ E]]]]]]]];
      [now rewrite E | |].
    + destruct (apply_update_fallback_fields env room s o Hm (Hconv Hm))
        as [n' [A' _]].
      rewrite A' in A. discriminate A.
    + rewrite E. apply (mirrored_after_write s W).
      apply (up (snd (update_room env s room_id room))); [now rewrite E |].
      intros c msg Hc F. now rewrite (update_room_down env s c msg Hc F).
  - destruct (delete_room_cases s room_id) as [[_ E] | [l [E _]]]; [now rewrite E |].
    rewrite E. apply (mirrored_after_write s W).
    apply (up (snd (delete_room s room_id))); [now rewrite E |].
    intros c msg Hc F. now rewrite (delete_room_down s c msg Hc F).
  - destruct (book_room_cases env s room_id booking)
      as [[_ E] | [i [r [_ [_ [_ [_ E]]]]]]]; [now rewrite E |].
    rewrite E. apply (mirrored_after_write s W).
    apply (up (snd (book_room env s room_id booking))); [now rewrite E |].
    intros c msg Hc F. exact (book_room_down env s c msg Hc F room_id booking).
  - destruct (unbook_room_cases env s room_id booking)
      as [[_ E] | [[E _] | [i [r [_ E]]]]]; [now rewrite E | now rewrite E |].
    rewrite E. apply (mirrored_after_write s W).
    apply (up (snd (unbook_room env s room_id booking))); [now rewrite E |].
    intros c msg Hc F. exact (unbook_room_down env s c msg Hc F room_id booking).
  - destruct (update_booking_cases env s room_id booking)
      as [[_ E] | [[E _] | [p [r [r' [_ [_ [_ [_ E]]]]]]]]];
      [now rewrite E | now rewrite E |].
    rewrite E. apply (mirrored_after_write s W).
    apply (up (snd (update_booking env s room_id booking))); [now rewrite E |].
    intros c msg Hc F. exact (update_booking_down env s c msg Hc F room_id booking).
Qed.

Lemma mirror_follows_store_witness :
  let s := Sample.db_mode [Sample.room "0101" []] in
  json_file (fst (book_room Sample.env s "0101"
                            (Sample.booking "2024-06-01" "2024-06-05" "An"))) =
  map jsonify_room
      (active_rooms (fst (book_room Sample.env s "0101"
                                    (Sample.booking "2024-06-01" "2024-06-05" "An")))).
Proof.
  intro s.
  exact (proj1 (proj2 (proj2 (proj2
           (mirror_follows_store Sample.env s "0101" (Sample.new_room_data None)
                                 (Sample.booking "2024-06-01" "2024-06-05" "An")
                                 eq_refl eq_refl))))).
Defined.

(* ===================================================================== *)
(** * Identifiers and calendars across requests *)
(* ===================================================================== *)

Lemma calendars_and_ids
        (env : Env) (s : Server) (room_id : string)
        (room : RoomData) (booking : BookingData) :
  map calendar (active_rooms (fst (update_room env s room_id room))) =
  map calendar (active_rooms s)
  /\ map calendar (active_rooms (fst (update_booking env s room_id booking))) =
     map calendar (active_rooms s)
  /\ map _id (active_rooms (fst (book_room env s room_id booking))) =
     map _id (active_rooms s)
  /\ map _id (active_rooms (fst (unbook_room env s room_id booking))) =
     map _id (active_rooms s).
Proof.
  split; [| split; [| split]].
  - destruct (update_room_cases env s room_id room)
      as [[_ E] | [[o [n [e [Hm [F [_ [I [B E]]]]]]]] | [i [o [n [L [I [B E]]]]]]]];
      rewrite E; [reflexivity | |]; cbn [fst].
    + rewrite active_rooms_with_active.
      apply (map_update_first_same calendar (has_id (StrId room_id)) o n).
      * unfold active_rooms. rewrite Hm. exact F.
      * unfold calendar, intervals_of. now rewrite I, B.
    + rewrite active_rooms_mirror, active_rooms_with_active.
      apply (map_update_first_same calendar (has_id i) o (stored s n) _
               (lookup_room_active _ _ _ _ L)).
      unfold calendar. rewrite stored_id, stored_dates, I.
      unfold intervals_of. now rewrite B.
  - destruct (update_booking_cases env s room_id booking)
      as [[_ E] | [[E _] | [p [r [r' [F [_ [I [D E]]]]]]]]]; rewrite E;
      [reflexivity | reflexivity |].
    cbn [fst]. rewrite active_rooms_mirror, active_rooms_with_active.
    apply (map_update_first_same calendar p r r' _ F).
    unfold calendar. now rewrite I, D.
  - destruct (book_room_cases env s room_id booking)
      as [[_ E] | [i [r [L [_ [_ [_ E]]]]]]]; rewrite E; [reflexivity |].
    cbn [fst]. rewrite active_rooms_mirror, active_rooms_with_active.
    now apply (map_update_first_same _id (has_id i) r _ _ (located_active _ _ _ _ L)).
  - destruct (unbook_room_cases env s room_id booking)
      as [[_ E] | [[E _] | [i [r [L E]]]]]; rewrite E; [reflexivity | reflexivity |].
    cbn [fst]. rewrite active_rooms_mirror, active_rooms_with_active.
    apply (map_update_first_same _id (has_id i) r _ _ (located_active _ _ _ _ L)).
    unfold Mongo.pull_pair. now destruct (bookedIntervals r).
Qed.

(** X4. [update_room] and [update_booking] never change the id of a room, the
    number of its intervals or their dates, and [book_room] and
    [unbook_room] never change the id of a room: whatever the request and
    the answer, the rooms keep their ids, in the same order. *)
Theorem requests_keep_ids
        (env : Env) (s : Server) (room_id : string)
        (room : RoomData) (booking : BookingData) :
  map calendar (active_rooms (fst (update_room env s room_id room))) =
  map calendar (active_rooms s)
  /\ map calendar (active_rooms (fst (update_booking env s room_id booking))) =
     map calendar (active_rooms s)
  /\ map _id (active_rooms (fst (book_room env s room_id booking))) =
     map _id (active_rooms s)
  /\ map _id (active_rooms (fst (unbook_room env s room_id booking))) =
     map _id (active_rooms s).
Proof. exact (calendars_and_ids env s room_id room booking). Qed.

(** X5. When no two rooms have the same id, no request to a mutating handler
    makes two rooms have the same id. *)
Theorem unique_ids_kept
        (env : Env) (s : Server) (room_id : string)
        (room : RoomData) (booking : BookingData) :
  unique_ids (active_rooms s) ->
  unique_ids (active_rooms (fst (add_room env s room)))
  /\ unique_ids (active_rooms (fst (update_room env s room_id room)))
  /\ unique_ids (active_rooms (fst (delete_room s room_id)))
  /\ unique_ids (active_rooms (fst (book_room env s room_id booking)))
  /\ unique_ids (active_rooms (fst (unbook_room env s room_id booking)))
  /\ unique_ids (active_rooms (fst (update_booking env s room_id booking))).
Proof.
  intro U. unfold unique_ids in *.
  destruct (calendars_and_ids env s room_id room booking) as [K1 [K2 [K3 K4]]].
  assert (ids : forall a b : list Room,
             map calendar a = map calendar b -> map _id a = map _id b).
  { intros a b H. apply (f_equal (map fst)) in H. rewrite !map_map in H. exact H. }
  apply ids in K1, K2.
  repeat split.
  - destruct (add_room_cases env s room)
      as [[_ E] | [i [r [l [_ [I [_ [[[X L] | [X [_ L]]] E]]]]]]]]; rewrite E;
      [assumption | |]; cbn [fst];
      rewrite active_rooms_mirror, active_rooms_with_active; subst l.
    + rewrite map_app. cbn [map]. rewrite stored_id, I.
      apply NoDup_snoc; [assumption |].
      intro H. apply In_id_existsb in H. congruence.
    + destruct (existsb_find _ _ X) as [o F].
      rewrite (map_update_first_same _id (has_id i) o (stored s r) _ F);
        [assumption |].
      rewrite stored_id, I. symmetry. exact (find_has_id _ _ _ F).
  - now rewrite K1.
  - destruct (delete_room_cases s room_id)
      as [[_ E] | [l [E [[_ [_ L]] | [i [_ [_ [L _]]]]]]]]; rewrite E;
      [assumption | |]; cbn [fst];
      rewrite active_rooms_mirror, active_rooms_with_active; subst l.
    + now apply NoDup_map_filter.
    + now apply NoDup_map_remove_first.
  - now rewrite K3.
  - now rewrite K4.
  - now rewrite K2.
Qed.

Lemma unique_ids_kept_witness :
  let s := Sample.file_mode [Sample.room "0101" []; Sample.room "0102" []] in
  unique_ids (active_rooms (fst (add_room Sample.env s (Sample.new_room_data None)))).
Proof.
  intro s.
  apply (unique_ids_kept Sample.env s "0101" (Sample.new_room_data None)
                         (Sample.booking "2024-06-01" "2024-06-05" "An")).
  unfold unique_ids. cbn.
  repeat constructor; cbn; intuition discriminate.
Defined.

(* ===================================================================== *)
(** * Looking a room up after a write *)
(* ===================================================================== *)

Section LookupAfterWrite.

Lemma answered_while_up (s : Server) (r : Response) :
  success r = true ->
  (forall c msg, rooms_collection s = Some c -> failure c = Some msg ->
                 success r = false) ->
  forall c, rooms_collection s = Some c -> failure c = None.
Proof.
  intros T D c Hc. destruct (failure c) as [msg |] eqn:F; [| reflexivity].
  rewrite (D c msg Hc F) in T. discriminate T.
Qed.

Lemma lookup_room_mirror (s : Server) (room_id : string) :
  lookup_room (mirror s) room_id = lookup_room s room_id.
Proof.
  unfold lookup_room. rewrite rooms_collection_mirror.
  destruct (rooms_collection s) as [c |] eqn:E; [reflexivity |].
  unfold mirror. rewrite E. destruct (save_fallback_rooms s) as [F _]. now rewrite F.
Qed.

Lemma lookup_after_write (l : list Room) (s : Server) (room_id : string) :
  lookup_room (mirror (with_active l s)) room_id =
  match rooms_collection s with
  | None => ret (option_map (fun r => (StrId room_id, r)) (find_fallback room_id l))
  | Some c => find_by_either (mkCollection l (failure c)) room_id
  end.
Proof.
  rewrite lookup_room_mirror. unfold lookup_room, with_active.
  now destruct (rooms_collection s) as [c |] eqn:E; simpl; rewrite ?E.
Qed.

Lemma lookup_written (l : list Room) (s : Server) (room_id : string)
      (i : DocId) (room : Room) :
  (forall c, rooms_collection s = Some c -> failure c = None) ->
  (rooms_collection s = None -> i = StrId room_id) ->
  names room_id i l ->
  List.find (has_id i) l = Some room ->
  lookup_room (mirror (with_active l s)) room_id = inr (Some (i, room)).
Proof.
  intros up file N F. rewrite lookup_after_write.
  destruct (rooms_collection s) as [c |] eqn:E.
  - unfold find_by_either, Mongo.find_one, Mongo.guard. cbn [failure docs].
    rewrite (up c eq_refl). cbn [bind ret].
    destruct N as [-> | [O X]].
    + now rewrite F.
    + apply find_none_existsb in X. rewrite X, O. now rewrite F.
  - rewrite (file eq_refl) in *. unfold find_fallback. now rewrite F.
Qed.

Lemma existsb_update_first {A : Type} (p q : A -> bool) (x : A) (l : list A) :
  existsb p l = false -> p x = false ->
  existsb p (update_first q (fun _ => x) l) = false.
Proof.
  intros E X. induction l as [| y l IH]; simpl in *; [reflexivity |].
  apply orb_false_iff in E. destruct E as [E1 E2].
  destruct (q y); simpl; [now rewrite X | now rewrite E1, IH].
Qed.

Lemma existsb_remove_first {A : Type} (p q : A -> bool) (l : list A) :
  existsb p l = false -> existsb p (remove_first q l) = false.
Proof.
  induction l as [| y l IH]; simpl; [reflexivity |].
  intro E. apply orb_false_iff in E. destruct E as [E1 E2].
  destruct (q y); simpl; [exact E2 | now rewrite E1, IH].
Qed.

Lemma other_id (i j : DocId) (r : Room) :
  _id r = Some i -> i <> j -> has_id j r = false.
Proof.
  intros I N. destruct (has_id j r) eqn:H; [| reflexivity].
  apply has_id_eq in H. congruence.
Qed.

(** What [located] gives to the lookup of the read handlers. *)
Lemma located_names (s : Server) (room_id : string) (i : DocId) (room : Room) :
  located s room_id i room ->
  (forall c, rooms_collection s = Some c -> failure c = None)
  /\ (rooms_collection s = None -> i = StrId room_id)
  /\ names room_id i (active_rooms s)
  /\ List.find (has_id i) (active_rooms s) = Some room.
Proof.
  unfold located, active_rooms, names.
  destruct (rooms_collection s) as [c |].
  - intro L. split.
    { intros c' E. inversion E; subst. exact (find_for_booking_up _ _ _ L). }
    split; [discriminate |].
    destruct (find_for_booking_spec _ _ _ _ L) as [U F]. split; [| now symmetry].
    revert L. unfold find_for_booking, Mongo.find_one, Mongo.guard. rewrite U.
    cbn [bind ret].
    destruct (List.find (has_id (StrId room_id)) (docs c)) as [x |] eqn:G.
    + intro H. inversion H. now left.
    + destruct (ObjectId room_id) as [oid |]; [| discriminate].
      intro H. inversion H; subst. right. split; [reflexivity |].
      now apply find_none_existsb.
  - intros [-> F]. split; [discriminate |]. split; [reflexivity |].
    split; [now left | exact F].
Qed.

(** Writing a room over the one stored under [i] keeps what [i] names. *)
Lemma names_update_first (room_id : string) (i : DocId) (x : Room) (l : list Room) :
  _id x = Some i -> names room_id i l ->
  names room_id i (update_first (has_id i) (fun _ => x) l).
Proof.
  intros I [N | [O E]]; [now left |]. right. split; [exact O |].
  apply existsb_update_first; [exact E |].
  destruct (has_id (StrId room_id) x) eqn:H; [| reflexivity].
  apply has_id_eq in H. rewrite I in H. inversion H; subst.
  unfold ObjectId in O.
  destruct (String.length room_id =? 24)%nat; [| discriminate].
  destruct (Py.fromhex room_id); discriminate.
Qed.

End LookupAfterWrite.

(* ===================================================================== *)
(** * Round trips through the room handlers *)
(* ===================================================================== *)

Lemma bson_datetime_whole (d : Py.datetime) :
  (Py.microsecond d mod 1000 = 0)%N -> Mongo.bson_datetime d = d.
Proof.
  intro H. unfold Mongo.bson_datetime. destruct d as [y h u]. cbn in *.
  f_equal. pose proof (N.div_mod u 1000). lia.
Qed.

(** X6. After [add_room] answered 201, both single-room handlers serve, under
    the id the room was given (the custom id, the next number in file mode,
    or the generated ObjectId in database mode), the room as the backend
    keeps it. The answer showed the room as it was built, with the two
    readings of the clock: what is served differs from it at most in the two
    timestamps, and not at all in file mode or when both readings are whole
    milliseconds, which is what the database keeps of them. For the
    generated ObjectId this needs what the driver guarantees of it: it is 24
    lower-case hexadecimal digits, and no document has that string as its
    id. *)
Theorem added_room_is_served (env : Env) (s : Server) (request : RoomData) :
  success (snd (add_room env s request)) = true ->
  (forall c, rooms_collection s = Some c ->
             Py.truthy_opt (d_custom_id request) = false ->
             ObjectId (fresh_oid env) = Some (ObjId (fresh_oid env))
             /\ existsb (has_id (StrId (fresh_oid env))) (docs c) = false) ->
  exists i room,
    resolve_id env s request = inr i
    /\ _id room = Some i
    /\ created_at room = Some (Instant (utcnow env))
    /\ updated_at room = Some (Instant (utcnow_again env))
    /\ snd (add_room env s request) =
       envelope_message 201 "Room added successfully"
                        (OneRoom (convert_room_for_api room))
    /\ get_room (fst (add_room env s request)) (str_id i) =
       mkResponse 200 true None None
                  (OneRoom (convert_room_for_api (stored s room))) None None
    /\ get_public_room (fst (add_room env s request)) (str_id i) =
       mkResponse 200 true None None
                  (OneRoom (convert_room_for_api (stored s room))) None None
    /\ untimed (convert_room_for_api (stored s room)) =
       untimed (convert_room_for_api room)
    /\ (rooms_collection s = None
        \/ ((Py.microsecond (utcnow env) mod 1000 = 0)%N
            /\ (Py.microsecond (utcnow_again env) mod 1000 = 0)%N) ->
        convert_room_for_api (stored s room) = convert_room_for_api room).
Proof.
  intros T G.
  assert (up : forall c, rooms_collection s = Some c -> failure c = None).
  { apply (answered_while_up s _ T). intros c msg Hc F.
    exact (add_room_down env s c msg Hc F request). }
  destruct (add_room_built env s request)
    as [[K _] | [i [p [n [rooms' [R [_ [_ [Shape E]]]]]]]]]; [congruence |].
  set (room := set_id (Some i) (new_room env request p n)) in *.
  assert (I : _id room = Some i) by reflexivity.
  assert (H : has_id i (stored s room) = true)
    by (rewrite has_id_stored; now apply has_id_eq).
  assert (L : lookup_room (fst (add_room env s request)) (str_id i)
              = inr (Some (i, stored s room))).
  { rewrite E. cbn [fst]. apply lookup_written.
    - exact up.
    - intro M. revert R. unfold resolve_id. rewrite M.
      destruct (Py.truthy_opt (d_custom_id request)).
      + intro R. now inversion R.
      + destruct (numeric_ids (fallback_rooms s)); cbn [bind ret]; [discriminate |].
        destruct (Py.str_of_int (Py.max_with_zero l + 1)); [| discriminate].
        intro R. now inversion R.
    - destruct i as [x | h]; [now left |]. right.
      revert R. unfold resolve_id.
      destruct (Py.truthy_opt (d_custom_id request)) eqn:C; [discriminate |].
      destruct (rooms_collection s) as [c |] eqn:M.
      + intro R. inversion R; subst. destruct (G c eq_refl eq_refl) as [O X].
        split; [exact O |]. cbn [str_id].
        assert (N : has_id (StrId (fresh_oid env)) (stored s room) = false).
        { rewrite has_id_stored.
          apply (other_id (ObjId (fresh_oid env))); [exact I | discriminate]. }
        unfold active_rooms in Shape. rewrite M in Shape.
        destruct Shape as [[_ ->] | [_ [_ ->]]].
        * rewrite existsb_app, X. simpl. now rewrite N.
        * now apply existsb_update_first.
      + destruct (numeric_ids (fallback_rooms s)); cbn [bind ret]; [discriminate |].
        destruct (Py.str_of_int (Py.max_with_zero l + 1)); discriminate.
    - destruct Shape as [[X ->] | [X [_ ->]]].
      + apply find_app_miss; [now apply find_none_existsb | exact H].
      + destruct (List.find (has_id i) (active_rooms s)) as [old |] eqn:F.
        * now apply (find_update_first (has_id i) (fun _ => stored s room) _ old).
        * apply find_none_existsb in F. congruence. }
  exists i, room.
  split; [exact R |]. split; [exact I |].
  split; [reflexivity |]. split; [reflexivity |].
  split; [now rewrite E |].
  unfold get_room, get_public_room. rewrite L.
  split; [reflexivity |]. split; [reflexivity |].
  unfold stored. destruct (rooms_collection s) as [c |]; [| split; reflexivity].
  split; [reflexivity |].
  intros [K | [K1 K2]]; [discriminate K |].
  unfold convert_room_for_api, Mongo.bson_room. cbn.
  now rewrite (bson_datetime_whole _ K1), (bson_datetime_whole _ K2).
Qed.

Lemma added_room_is_served_witness :
  let s := Sample.db_mode [Sample.room "0101" []] in
  let request := Sample.new_room_data None in
  exists i room,
    resolve_id Sample.precise s request = inr i
    /\ _id room = Some i
    /\ created_at room = Some (Instant (utcnow Sample.precise))
    /\ updated_at room = Some (Instant (utcnow_again Sample.precise))
    /\ snd (add_room Sample.precise s request) =
       envelope_message 201 "Room added successfully"
                        (OneRoom (convert_room_for_api room))
    /\ get_room (fst (add_room Sample.precise s request)) (str_id i) =
       mkResponse 200 true None None
                  (OneRoom (convert_room_for_api (stored s room))) None None
    /\ get_public_room (fst (add_room Sample.precise s request)) (str_id i) =
       mkResponse 200 true None None
                  (OneRoom (convert_room_for_api (stored s room))) None None
    /\ untimed (convert_room_for_api (stored s room)) =
       untimed (convert_room_for_api room)
    /\ (rooms_collection s = None
        \/ ((Py.microsecond (utcnow Sample.precise) mod 1000 = 0)%N
            /\ (Py.microsecond (utcnow_again Sample.precise) mod 1000 = 0)%N) ->
        convert_room_for_api (stored s room) = convert_room_for_api room).
Proof.
  intros s request.
  apply (added_room_is_served Sample.precise s request).
  - reflexivity.
  - intros c E _. inversion E; subst. split; reflexivity.
Defined.

Lemma remove_first_unique (i : DocId) (l : list Room) :
  unique_ids l -> existsb (has_id i) (remove_first (has_id i) l) = false.
Proof.
  unfold unique_ids. induction l as [| x l IH]; simpl; intro N; [reflexivity |].
  inversion N as [| y m Hx Hl]; subst.
  destruct (has_id i x) eqn:H.
  - destruct (existsb (has_id i) l) eqn:X; [| reflexivity].
    apply existsb_exists in X. destruct X as [r [Hr K]].
    exfalso. apply Hx. apply has_id_eq in H. apply has_id_eq in K.
    rewrite H, <- K. now apply in_map.
  - simpl. rewrite H. now apply IH.
Qed.

(** X7. After [delete_room] answered 200 the room is gone for the single-room
    handlers: always in file mode, which drops every room with the id; in
    database mode, which deletes one document, when ids are unique and the
    path parameter is unambiguous. *)
Theorem deleted_room_is_gone (s : Server) (room_id : string) :
  success (snd (delete_room s room_id)) = true ->
  (rooms_collection s <> None ->
   unique_ids (active_rooms s) /\ unambiguous room_id (active_rooms s)) ->
  get_room (fst (delete_room s room_id)) room_id = envelope_error 404 "Room not found"
  /\ get_public_room (fst (delete_room s room_id)) room_id =
     envelope_error 404 "Room not found".
Proof.
  intros T G.
  assert (up : forall c, rooms_collection s = Some c -> failure c = None).
  { apply (answered_while_up s _ T). intros c msg Hc F.
    now rewrite (delete_room_down s c msg Hc F). }
  assert (L : lookup_room (fst (delete_room s room_id)) room_id = inr None).
  { destruct (delete_room_cases s room_id) as [[K _] | [rooms' [E Shape]]];
      [congruence |].
    rewrite E. cbn [fst]. rewrite lookup_after_write.
    destruct Shape as [[M [_ ->]] | [i [M [X [-> W]]]]].
    - rewrite M. unfold find_fallback. now rewrite find_filter_negb.
    - destruct (rooms_collection s) as [c |] eqn:Hc; [| congruence].
      destruct (G M) as [U A].
      unfold find_by_either, Mongo.find_one, Mongo.guard. cbn [failure docs].
      rewrite (up c eq_refl). cbn [bind ret].
      pose proof (remove_first_unique i _ U) as Gone.
      destruct W as [-> | [Y O]].
      + apply find_none_existsb in Gone. rewrite Gone.
        destruct (ObjectId room_id) as [oid |] eqn:O; [| reflexivity].
        assert (Z : existsb (has_id oid) (remove_first (has_id (StrId room_id))
                                                       (active_rooms s)) = false)
          by (apply existsb_remove_first; now apply A).
        apply find_none_existsb in Z. now rewrite Z.
      + assert (Z : existsb (has_id (StrId room_id))
                            (remove_first (has_id i) (active_rooms s)) = false)
          by now apply existsb_remove_first.
        apply find_none_existsb in Z. rewrite Z, O.
        apply find_none_existsb in Gone. now rewrite Gone. }
  unfold get_room, get_public_room. rewrite L. split; reflexivity.
Qed.

Lemma deleted_room_is_gone_witness :
  get_room (fst (delete_room (Sample.db_mode [Sample.room "0101" []; Sample.room "0102" []])
                             "0102")) "0102"
  = envelope_error 404 "Room not found"
  /\ get_public_room
       (fst (delete_room (Sample.db_mode [Sample.room "0101" []; Sample.room "0102" []])
                         "0102")) "0102"
     = envelope_error 404 "Room not found".
Proof.
  apply (deleted_room_is_gone
           (Sample.db_mode [Sample.room "0101" []; Sample.room "0102" []]) "0102").
  - reflexivity.
  - intros _. split.
    + unfold unique_ids. simpl.
      constructor; [simpl; intros [H | []]; discriminate H |].
      constructor; [simpl; tauto | constructor].
    + intros oid O. discriminate O.
Defined.

(* ===================================================================== *)
(** * Round trips through the booking handlers *)
(* ===================================================================== *)

Lemma find_snoc_hit {A : Type} (p : A -> bool) (l : list A) (x : A) :
  p x = true -> exists y, List.find p (l ++ [x]) = Some y.
Proof.
  intro H. induction l as [| z l IH]; simpl.
  - rewrite H. eauto.
  - destruct (p z); eauto.
Qed.

(** An accepted candidate leaves no stored interval that has a check-in date
    booked on a date of its own range. *)
Lemma accepted_range_is_free (check_in check_out guest_name x : string)
      (l : list Interval) :
  has_duplicate_booking check_in check_out guest_name l = false ->
  in_range check_in check_out x ->
  (forall e, In e l -> Py.truthy (Py.get_str (checkIn e)) = true) ->
  List.find (booked_on x) l = None.
Proof.
  intros D R W. apply find_none_existsb.
  destruct (existsb (booked_on x) l) eqn:X; [| reflexivity].
  apply existsb_exists in X. destruct X as [e [He B]].
  rewrite (has_duplicate_of_intersection check_in check_out guest_name l e He (W e He))
    in D; [discriminate |].
  exists x. split; [exact R |]. unfold booked_on in B.
  apply andb_true_iff in B. exact B.
Qed.

(** X8. After [book_room] answered 200, [get_room_status] reports the room
    booked on every date of the half-open range of the booking; the current
    booking it names is the new one when every stored interval has a
    check-in date. *)
Theorem booking_shows_in_status (env later : Env) (s : Server) (room_id : string)
        (booking : BookingData) :
  success (snd (book_room env s room_id booking)) = true ->
  in_range (Py.get_str (b_checkIn booking)) (Py.get_str (b_checkOut booking))
           (today later) ->
  exists current,
    get_room_status later (fst (book_room env s room_id booking)) room_id =
    mkResponse 200 true None None
               (RoomStatus room_id false "booked" (Some current)) None None
    /\ ((forall r e, In r (active_rooms s) -> In e (intervals_of r) ->
                     Py.truthy (Py.get_str (checkIn e)) = true) ->
        current = (Py.get_str (b_checkIn booking), Py.get_str (b_checkOut booking))).
Proof.
  intros T R.
  destruct (book_room_cases env s room_id booking)
    as [[K _] | [i [room [L [_ [_ [D E]]]]]]]; [congruence |].
  destruct (located_names s room_id i room L) as [up [file [N F]]].
  set (interval := new_interval env booking (Py.get_str (b_checkIn booking))
                                (Py.get_str (b_checkOut booking))
                                (Py.get_str (b_guestName booking))) in *.
  set (room' := set_updated_at (Some (booking_stamp s (now_again env)))
                  (set_bookedIntervals (Some (intervals_of room ++ [interval])) room))
    in *.
  assert (I : _id room' = Some i) by (apply find_has_id in F; exact F).
  assert (B : booked_on (today later) interval = true).
  { destruct R as [R1 R2]. unfold booked_on, interval, new_interval. cbn.
    now rewrite R1, R2. }
  assert (Look : lookup_room (fst (book_room env s room_id booking)) room_id
                 = inr (Some (i, room'))).
  { rewrite E. cbn [fst]. apply lookup_written; [exact up | exact file | |].
    - now apply names_update_first.
    - apply (find_update_first (has_id i) (fun _ => room') _ room F).
      now apply has_id_eq. }
  unfold get_room_status. rewrite Look.
  replace (intervals_of room') with (intervals_of room ++ [interval]) by reflexivity.
  rewrite status_scan_find.
  destruct (find_snoc_hit (booked_on (today later)) (intervals_of room) interval B)
    as [y Y].
  rewrite Y. exists (dates y). split; [reflexivity |].
  intro W.
  assert (Free : List.find (booked_on (today later)) (intervals_of room) = None).
  { apply (accepted_range_is_free _ _ _ _ _ D R).
    intros e He. apply (W room e); [| exact He].
    apply find_some in F. tauto. }
  rewrite (find_app_miss _ _ _ Free B) in Y. inversion Y. reflexivity.
Qed.

Lemma booking_shows_in_status_witness :
  exists current,
    get_room_status Sample.later
      (fst (book_room Sample.env (Sample.db_mode [Sample.room "0101" []]) "0101"
                      (Sample.booking "2024-05-20" "2024-05-25" "An"))) "0101" =
    mkResponse 200 true None None
               (RoomStatus "0101" false "booked" (Some current)) None None
    /\ ((forall r e, In r (active_rooms (Sample.db_mode [Sample.room "0101" []])) ->
                     In e (intervals_of r) ->
                     Py.truthy (Py.get_str (checkIn e)) = true) ->
        current = (Py.get_str (b_checkIn (Sample.booking "2024-05-20" "2024-05-25" "An")),
                   Py.get_str (b_checkOut (Sample.booking "2024-05-20" "2024-05-25" "An")))).
Proof.
  apply (booking_shows_in_status Sample.env Sample.later
           (Sample.db_mode [Sample.room "0101" []]) "0101"
           (Sample.booking "2024-05-20" "2024-05-25" "An")).
  - reflexivity.
  - split; reflexivity.
Defined.

(* ===================================================================== *)
(** * No double booking *)
(* ===================================================================== *)

Section Pairs.

Variable A : Type.
Variable R : A -> A -> Prop.

Lemma ForallOrdPairs_snoc (l : list A) (x : A) :
  ForallOrdPairs R l -> (forall e, In e l -> R e x) ->
  ForallOrdPairs R (l ++ [x]).
Proof.
  induction 1 as [| a l Ha Hl IH]; simpl; intro K.
  - constructor; constructor.
  - constructor.
    + apply Forall_app. split; [exact Ha |]. constructor; [| constructor].
      apply K. now left.
    + apply IH. intros e He. apply K. now right.
Qed.

Lemma ForallOrdPairs_filter (p : A -> bool) (l : list A) :
  ForallOrdPairs R l -> ForallOrdPairs R (List.filter p l).
Proof.
  induction 1 as [| a l Ha Hl IH]; simpl; [constructor |].
  destruct (p a); [| exact IH]. constructor; [| exact IH].
  apply Forall_forall. intros e He. apply filter_In in He.
  rewrite Forall_forall in Ha. apply Ha. tauto.
Qed.

End Pairs.

Section Tidy.

Lemma Forall_update_first {A : Type} (P : A -> Prop) (p : A -> bool) (x : A)
      (l : list A) :
  Forall P l -> P x -> Forall P (update_first p (fun _ => x) l).
Proof.
  intros H X. induction H as [| y l Hy Hl IH]; simpl; [constructor |].
  destruct (p y); constructor; assumption.
Qed.

Lemma Forall_remove_first {A : Type} (P : A -> Prop) (p : A -> bool) (l : list A) :
  Forall P l -> Forall P (remove_first p l).
Proof.
  induction 1 as [| y l Hy Hl IH]; simpl; [constructor |].
  destruct (p y); [assumption | now constructor].
Qed.

Lemma Forall_filter_keeps {A : Type} (P : A -> Prop) (p : A -> bool) (l : list A) :
  Forall P l -> Forall P (List.filter p l).
Proof.
  rewrite !Forall_forall. intros H x Hx. apply filter_In in Hx. apply H. tauto.
Qed.

Lemma cons_eq {A : Type} (x y : A) (l m : list A) :
  x :: l = y :: m -> x = y /\ l = m.
Proof. intro H. now inversion H. Qed.

Lemma dates_fields (a b : Interval) :
  dates a = dates b ->
  Py.get_str (checkIn a) = Py.get_str (checkIn b)
  /\ Py.get_str (checkOut a) = Py.get_str (checkOut b).
Proof. unfold dates. intro H. now inversion H. Qed.

Lemma pairwise_apart_dates (l1 l2 : list Interval) :
  map dates l1 = map dates l2 -> pairwise_apart l2 -> pairwise_apart l1.
Proof.
  unfold pairwise_apart. revert l2.
  induction l1 as [| a l1 IH]; intros [| b l2] E H; try discriminate E;
    [constructor |].
  simpl in E. destruct (cons_eq _ _ _ _ E) as [Eab El].
  inversion H as [| b' l' Hb Hl]; subst.
  destruct (dates_fields a b Eab) as [Ei Eo].
  constructor; [| now apply (IH l2)].
  clear - El Hb Ei Eo. rewrite Ei, Eo. revert l2 El Hb.
  induction l1 as [| x l1 IH]; intros [| y l2] El Hb; try discriminate El;
    [constructor |].
  simpl in El. destruct (cons_eq _ _ _ _ El) as [Exy El']. inversion Hb; subst.
  destruct (dates_fields x y Exy) as [Xi Xo].
  constructor; [now rewrite Xi, Xo | now apply (IH l2)].
Qed.

Lemma checked_in_dates (l1 l2 : list Interval) :
  map dates l1 = map dates l2 ->
  Forall (fun e => Py.truthy (Py.get_str (checkIn e)) = true) l2 ->
  Forall (fun e => Py.truthy (Py.get_str (checkIn e)) = true) l1.
Proof.
  revert l2. induction l1 as [| a l1 IH]; intros [| b l2] E H; try discriminate E;
    [constructor |].
  simpl in E. destruct (cons_eq _ _ _ _ E) as [Eab El]. inversion H; subst.
  destruct (dates_fields a b Eab) as [Ei _].
  constructor; [now rewrite Ei | now apply (IH l2)].
Qed.

Lemma tidy_dates (a b : Room) :
  map dates (intervals_of a) = map dates (intervals_of b) -> tidy b -> tidy a.
Proof.
  intros E [P C]. split.
  - exact (pairwise_apart_dates _ _ E P).
  - exact (checked_in_dates _ _ E C).
Qed.

Lemma tidy_calendars (l1 l2 : list Room) :
  map calendar l1 = map calendar l2 -> Forall tidy l2 -> Forall tidy l1.
Proof.
  revert l2. induction l1 as [| a l1 IH]; intros [| b l2] E H; try discriminate E;
    [constructor |].
  simpl in E. destruct (cons_eq _ _ _ _ E) as [Eab El]. inversion H; subst.
  constructor; [| now apply (IH l2)].
  apply (tidy_dates a b); [| assumption].
  unfold calendar in Eab. now inversion Eab.
Qed.

Lemma ranges_intersect_sym (a b c d : string) :
  ranges_intersect a b c d -> ranges_intersect c d a b.
Proof. intros [x [H K]]. exists x. tauto. Qed.

(** A candidate that [has_duplicate_booking] lets through extends a tidy
    calendar to a tidy calendar. *)
Lemma tidy_booked (env : Env) (t : option Timestamp) (booking : BookingData)
      (room : Room) (check_in check_out guest_name : string) :
  tidy room -> Py.truthy check_in = true ->
  has_duplicate_booking check_in check_out guest_name (intervals_of room) = false ->
  tidy (set_updated_at t
          (set_bookedIntervals
             (Some (intervals_of room
                      ++ [new_interval env booking check_in check_out guest_name]))
             room)).
Proof.
  intros [P C] T D. unfold tidy.
  replace (intervals_of (set_updated_at _ _))
    with (intervals_of room ++ [new_interval env booking check_in check_out guest_name])
    by reflexivity.
  split.
  - apply ForallOrdPairs_snoc; [exact P |].
    intros e He X. cbn in X. apply ranges_intersect_sym in X.
    rewrite Forall_forall in C.
    rewrite (has_duplicate_of_intersection check_in check_out guest_name _ e He
                                           (C e He) X) in D.
    discriminate D.
  - apply Forall_app. split; [exact C |]. constructor; [exact T | constructor].
Qed.

Lemma tidy_pulled (t : option Timestamp) (ci co : string) (room : Room) :
  tidy room -> tidy (set_updated_at t (Mongo.pull_pair ci co room)).
Proof.
  intros [P C]. unfold tidy, Mongo.pull_pair, intervals_of in *.
  destruct (bookedIntervals room) as [l |] eqn:B; cbn; rewrite ?B.
  - split; [now apply ForallOrdPairs_filter | now apply Forall_filter_keeps].
  - split; assumption.
Qed.

Lemma tidy_found (p : Room -> bool) (l : list Room) (room : Room) :
  Forall tidy l -> List.find p l = Some room -> tidy room.
Proof.
  intros H F. apply find_some in F. rewrite Forall_forall in H. apply H. tauto.
Qed.

End Tidy.

(** X9. No handler produces a double booking: when every room of the backend in
    use has a tidy calendar (each interval has a check-in date and no two
    intervals share a date), it is so again after any request to the six
    writing handlers, accepted or not. *)
Theorem no_double_booking_kept
        (env : Env) (s : Server) (room_id : string)
        (room : RoomData) (booking : BookingData) :
  no_double_booking s ->
  no_double_booking (fst (add_room env s room))
  /\ no_double_booking (fst (update_room env s room_id room))
  /\ no_double_booking (fst (delete_room s room_id))
  /\ no_double_booking (fst (book_room env s room_id booking))
  /\ no_double_booking (fst (unbook_room env s room_id booking))
  /\ no_double_booking (fst (update_booking env s room_id booking)).
Proof.
  unfold no_double_booking. intro H.
  destruct (calendars_and_ids env s room_id room booking) as [U [B _]].
  split; [| split; [| split; [| split; [| split]]]].
  - destruct (add_room_cases env s room)
      as [[_ E] | [i [r [l [_ [_ [Bk [Shape E]]]]]]]]; [now rewrite E |].
    rewrite E. cbn [fst]. rewrite active_rooms_mirror, active_rooms_with_active.
    assert (T : tidy (stored s r)).
    { unfold tidy, pairwise_apart, intervals_of. rewrite (stored_new s r Bk).
      split; constructor. }
    destruct Shape as [[_ ->] | [_ [_ ->]]].
    + apply Forall_app. split; [exact H |]. constructor; [exact T | constructor].
    + now apply Forall_update_first.
  - exact (tidy_calendars _ _ U H).
  - destruct (delete_room_cases s room_id) as [[_ E] | [l [E Shape]]];
      [now rewrite E |].
    rewrite E. cbn [fst]. rewrite active_rooms_mirror, active_rooms_with_active.
    destruct Shape as [[_ [_ ->]] | [i [_ [_ [-> _]]]]].
    + now apply Forall_filter_keeps.
    + now apply Forall_remove_first.
  - destruct (book_room_cases env s room_id booking)
      as [[_ E] | [i [r [L [T [_ [D E]]]]]]]; [now rewrite E |].
    rewrite E. cbn [fst]. rewrite active_rooms_mirror, active_rooms_with_active.
    apply Forall_update_first; [exact H |].
    destruct (located_names s room_id i r L) as [_ [_ [_ F]]].
    apply tidy_booked; [exact (tidy_found _ _ _ H F) | exact T | exact D].
  - destruct (unbook_room_cases env s room_id booking)
      as [[_ E] | [[E _] | [i [r [L E]]]]]; [now rewrite E | now rewrite E |].
    rewrite E. cbn [fst]. rewrite active_rooms_mirror, active_rooms_with_active.
    apply Forall_update_first; [exact H |].
    destruct (located_names s room_id i r L) as [_ [_ [_ F]]].
    apply tidy_pulled. exact (tidy_found _ _ _ H F).
  - exact (tidy_calendars _ _ B H).
Qed.

Lemma no_double_booking_kept_witness :
  no_double_booking
    (fst (book_room Sample.env
            (Sample.file_mode
               [Sample.room "0101" [Sample.stay "2024-06-01" "2024-06-05" "An"]])
            "0101" (Sample.booking "2024-06-05" "2024-06-08" "Binh"))).
Proof.
  refine (proj1 (proj2 (proj2 (proj2
            (no_double_booking_kept Sample.env
               (Sample.file_mode
                  [Sample.room "0101" [Sample.stay "2024-06-01" "2024-06-05" "An"]])
               "0101" (Sample.new_room_data None)
               (Sample.booking "2024-06-05" "2024-06-08" "Binh") _))))).
  constructor; [| constructor]. split.
  - constructor; constructor.
  - constructor; [reflexivity | constructor].
Defined.

(* ===================================================================== *)
(** * Booking and cancelling *)
(* ===================================================================== *)

Section BookThenCancel.

Lemma located_written (l : list Room) (s : Server) (room_id : string)
      (i : DocId) (room : Room) :
  (forall c, rooms_collection s = Some c -> failure c = None) ->
  (rooms_collection s = None -> i = StrId room_id) ->
  names room_id i l ->
  List.find (has_id i) l = Some room ->
  located (mirror (with_active l s)) room_id i room.
Proof.
  intros up file N F. unfold located. rewrite rooms_collection_mirror.
  unfold mirror, with_active.
  destruct (rooms_collection s) as [c |] eqn:E; cbn [rooms_collection set_collection].
  - unfold find_for_booking, Mongo.find_one, Mongo.guard. cbn [failure docs].
    rewrite (up c eq_refl). cbn [bind ret].
    destruct N as [-> | [O X]].
    + now rewrite F.
    + apply find_none_existsb in X. rewrite X, O. now rewrite F.
  - cbn [rooms_collection set_fallback_rooms]. rewrite E.
    rewrite (file eq_refl) in *. split; [reflexivity |].
    match goal with
    | |- context [save_fallback_data ?t] =>
        destruct (save_fallback_rooms t) as [K _]; rewrite K
    end.
    exact F.
Qed.

Lemma update_first_twice {A : Type} (p : A -> bool) (x y : A) (l : list A) :
  p x = true ->
  update_first p (fun _ => y) (update_first p (fun _ => x) l) =
  update_first p (fun _ => y) l.
Proof.
  intro H. induction l as [| z l IH]; simpl; [reflexivity |].
  destruct (p z) eqn:E; simpl; [now rewrite H | now rewrite E, IH].
Qed.

Lemma truthy_opt_get_str (o : option string) :
  Py.truthy_opt o = Py.truthy (Py.get_str o).
Proof. now destruct o. Qed.

(** A candidate with a non-empty range that [has_duplicate_booking] lets
    through finds no stored interval with its own pair of dates. *)
Lemma accepted_pair_is_new (check_in check_out guest_name : string)
      (l : list Interval) :
  Py.truthy check_in = true -> (check_in <? check_out) = true ->
  has_duplicate_booking check_in check_out guest_name l = false ->
  forall e, In e l -> negb (Mongo.pair_matches check_in check_out e) = true.
Proof.
  intros T Lt D e He. rewrite has_duplicate_booking_existsb in D.
  destruct (Mongo.pair_matches check_in check_out e) eqn:M; [| reflexivity].
  unfold Mongo.pair_matches in M. rewrite andb_true_iff, !opt_eqb_eq in M.
  destruct M as [Hi Ho].
  pose proof (same_dates_overlap check_in check_out e T Lt Hi Ho) as O.
  exfalso. apply (existsb_false_all _ _ D) in He. rewrite O, orb_true_r in He.
  discriminate He.
Qed.

End BookThenCancel.

(** X10. Cancelling what was just booked restores the calendar. After [book_room]
    answered 200 for a booking whose check-in date lies before its check-out
    date, [unbook_room] with the same dates answers 200, and every room has
    the id and the intervals it had before the booking. In file mode the
    stored intervals of the rooms must carry both dates, which the handler
    subscripts. *)
Theorem booking_then_cancelling (env later : Env) (s : Server) (room_id : string)
        (booking : BookingData) :
  success (snd (book_room env s room_id booking)) = true ->
  (Py.get_str (b_checkIn booking) <? Py.get_str (b_checkOut booking)) = true ->
  (rooms_collection s = None ->
   forall r, In r (active_rooms s) -> forallb has_dates (intervals_of r) = true) ->
  snd (unbook_room later (fst (book_room env s room_id booking)) room_id booking) =
  envelope_message 200 "Booking cancelled successfully" NoData
  /\ map _id (active_rooms
                (fst (unbook_room later (fst (book_room env s room_id booking))
                                  room_id booking))) =
     map _id (active_rooms s)
  /\ map intervals_of
         (active_rooms
            (fst (unbook_room later (fst (book_room env s room_id booking))
                              room_id booking))) =
     map intervals_of (active_rooms s).
Proof.
  intros T Lt Keys.
  destruct (book_room_cases env s room_id booking)
    as [[K _] | [i [room [L [V1 [V2 [D E]]]]]]]; [congruence |].
  destruct (located_names s room_id i room L) as [up [file [N F]]].
  set (check_in := Py.get_str (b_checkIn booking)) in *.
  set (check_out := Py.get_str (b_checkOut booking)) in *.
  set (interval := new_interval env booking check_in check_out
                                (Py.get_str (b_guestName booking))) in *.
  set (booked := intervals_of room ++ [interval]) in *.
  set (room' := set_updated_at (Some (booking_stamp s (now_again env)))
                  (set_bookedIntervals (Some booked) room)) in *.
  assert (I : _id room' = Some i) by (apply find_has_id in F; exact F).
  assert (H : has_id i room' = true) by now apply has_id_eq.
  assert (M : Mongo.pair_matches check_in check_out interval = true).
  { unfold Mongo.pair_matches, interval, new_interval. cbn.
    now rewrite !String.eqb_refl. }
  assert (valid : Py.truthy_opt (b_checkIn booking) = true
                  /\ Py.truthy_opt (b_checkOut booking) = true)
    by (rewrite !truthy_opt_get_str; split; assumption).
  rewrite E. cbn [fst].
  set (s1 := mirror (with_active (update_first (has_id i) (fun _ => room')
                                               (active_rooms s)) s)).
  assert (L1 : located s1 room_id i room').
  { apply located_written; [exact up | exact file | |].
    - now apply names_update_first.
    - exact (find_update_first (has_id i) (fun _ => room') _ room F H). }
  assert (Keys1 : rooms_collection s1 = None -> forallb has_dates booked = true).
  { intro Z. unfold s1 in Z. rewrite rooms_collection_mirror in Z.
    assert (Z' : rooms_collection s = None).
    { revert Z. unfold with_active. now destruct (rooms_collection s). }
    unfold booked. rewrite forallb_app.
    rewrite (Keys Z' room) by (apply find_some in F; tauto).
    reflexivity. }
  destruct (unbook_room_removes later s1 room_id booking valid i room' booked interval
                                L1 eq_refl Keys1)
    as [s2 [U A]]; [unfold booked; apply in_or_app; right; now left | exact M |].
  rewrite U. cbn [fst snd]. split; [reflexivity |].
  rewrite A. unfold s1.
  rewrite active_rooms_mirror, active_rooms_with_active.
  rewrite !(update_first_twice (has_id i) room' _ _ H).
  assert (Back : List.filter (fun e => negb (Mongo.pair_matches check_in check_out e))
                             booked = intervals_of room).
  { unfold booked. rewrite filter_app. cbn [List.filter]. rewrite M. cbn [negb].
    rewrite app_nil_r. apply filter_keeps_all.
    exact (accepted_pair_is_new check_in check_out _ _ V1 Lt D). }
  fold check_in check_out. rewrite Back.
  split; apply (map_update_first_same _ (has_id i) room _ _ F); reflexivity.
Qed.

Lemma booking_then_cancelling_witness :
  let s := Sample.file_mode
             [Sample.room "0101" [Sample.stay "2024-06-01" "2024-06-05" "An"]] in
  let b := Sample.booking "2024-06-05" "2024-06-08" "Binh" in
  snd (unbook_room Sample.later (fst (book_room Sample.env s "0101" b)) "0101" b) =
  envelope_message 200 "Booking cancelled successfully" NoData
  /\ map _id (active_rooms
                (fst (unbook_room Sample.later (fst (book_room Sample.env s "0101" b))
                                  "0101" b))) =
     map _id (active_rooms s)
  /\ map intervals_of
         (active_rooms
            (fst (unbook_room Sample.later (fst (book_room Sample.env s "0101" b))
                              "0101" b))) =
     map intervals_of (active_rooms s).
Proof.
  intros s b. apply (booking_then_cancelling Sample.env Sample.later s "0101" b).
  - reflexivity.
  - reflexivity.
  - intros _ r [<- | []]. reflexivity.
Defined.

(* ===================================================================== *)
(** * The snapshot of a process that started on the database *)
(* ===================================================================== *)

Section Snapshot.

Variable s : Server.
Hypothesis mode : rooms_collection s <> None.

Lemma written_in_database (l : list Room) :
  rooms_collection (mirror (with_active l s)) <> None
  /\ fallback_rooms (mirror (with_active l s)) = fallback_rooms s.
Proof.
  rewrite rooms_collection_mirror. unfold mirror, with_active.
  destruct (rooms_collection s) as [c |] eqn:E; [| congruence].
  cbn [rooms_collection set_collection]. split; [discriminate |].
  match goal with
  | |- context [sync_mongodb_to_json ?t] =>
      destruct (sync_keeps_store t) as [F _]; rewrite F
  end.
  reflexivity.
Qed.

Lemma outcome_in_database (out : Server * Response) :
  fst out = s \/ (exists l, fst out = mirror (with_active l s)) ->
  rooms_collection (fst out) <> None /\ fallback_rooms (fst out) = fallback_rooms s.
Proof.
  intros [-> | [l ->]]; [split; [exact mode | reflexivity] |].
  apply written_in_database.
Qed.

Lemma writes_keep_snapshot (env : Env) (r : Request) (out : Server * Response) :
  match r with
  | AddRoom data => out = add_room env s data
  | UpdateRoom room_id data => out = update_room env s room_id data
  | DeleteRoom room_id => out = delete_room s room_id
  | BookRoom room_id data => out = book_room env s room_id data
  | UnbookRoom room_id data => out = unbook_room env s room_id data
  | UpdateBooking room_id data => out = update_booking env s room_id data
  | SyncData => out = sync_data s
  | _ => fst out = s
  end ->
  rooms_collection (fst out) <> None /\ fallback_rooms (fst out) = fallback_rooms s.
Proof.
  destruct r as [| rid | | rid | | rid | d | rid d | rid | rid b | rid b | rid b | |];
    intro H; apply outcome_in_database; try (left; exact H); subst out.
  - destruct (add_room_cases env s d) as [[_ E] | [i [r [l [_ [_ [_ [_ E]]]]]]]];
      [now left | right; exists l; now rewrite E].
  - destruct (update_room_cases env s rid d)
      as [[_ E] | [[o [n [e [Hm _]]]] | [i [o [n [_ [_ [_ E]]]]]]]];
      [now left | now destruct mode | right; eexists; rewrite E; reflexivity].
  - destruct (delete_room_cases s rid) as [[_ E] | [l [E _]]];
      [now left | right; eexists; rewrite E; reflexivity].
  - destruct (book_room_cases env s rid b)
      as [[_ E] | [i [r [_ [_ [_ [_ E]]]]]]];
      [now left | right; eexists; rewrite E; reflexivity].
  - destruct (unbook_room_cases env s rid b)
      as [[_ E] | [[E _] | [i [r [_ E]]]]];
      [now left | left; rewrite E; reflexivity
       | right; eexists; rewrite E; reflexivity].
  - destruct (update_booking_cases env s rid b)
      as [[_ E] | [[E _] | [p [r [r' [_ [_ [_ [_ E]]]]]]]]];
      [now left | left; rewrite E; reflexivity
       | right; eexists; rewrite E; reflexivity].
  - right. exists (active_rooms s). rewrite with_active_same.
    unfold sync_data, mirror.
    destruct (rooms_collection s) as [c |] eqn:E; [| congruence].
    now destruct (sync_succeeds s).
Qed.

End Snapshot.

Lemma writing_keeps_no_snapshot (out : Server * Response) (p : Process) :
  rooms_collection (fst out) <> None
  /\ fallback_rooms (fst out) = fallback_rooms (server p) ->
  without_snapshot p -> without_snapshot (fst (writing out p)).
Proof.
  intros [M F] [_ [E D]]. unfold without_snapshot, writing.
  cbn [fst server data_source]. rewrite F. auto.
Qed.

Lemma handle_keeps_no_snapshot (e : Event) (p : Process) :
  request e <> ReconnectDatabase ->
  without_snapshot p -> without_snapshot (fst (handle e p)).
Proof.
  intros N H.
  pose proof (writes_keep_snapshot (server p) (proj1 H) (clock e) (request e)) as W.
  unfold handle.
  destruct (request e); try exact H; try congruence;
    (apply writing_keeps_no_snapshot; [apply W; reflexivity | exact H]).
Qed.

Lemma serve_keeps_no_snapshot (events : list Event) (p : Process) :
  Forall (fun e => request e <> ReconnectDatabase) events ->
  without_snapshot p -> without_snapshot (serve events p).
Proof.
  intro A. revert p. induction A as [| e events He _ IH]; intros p H; [exact H |].
  simpl. apply IH. now apply handle_keeps_no_snapshot.
Qed.

(** X11. A process that connected at startup never holds a snapshot: whatever
    requests it serves short of a reconnection, [fallback_rooms] stays
    empty. So when the database fails afterwards, the public list has
    nothing to recover from and answers 500; and when a reconnection then
    fails, the process falls back to an empty list of rooms, while the
    answer still names [mongodb] as the source. *)
Theorem connected_process_has_no_snapshot
        (c : Collection) (readable : bool) (file : list Room) (writable : bool)
        (events : list Event) :
  Forall (fun e => request e <> ReconnectDatabase) events ->
  let p := serve events (startup (Connected c) readable file writable) in
  rooms_collection (server p) <> None
  /\ fallback_rooms (server p) = []
  /\ (forall msg, get_public_rooms (database_fails msg (server p)) =
                  envelope_error 500 msg)
  /\ source (snd (reconnect_database Refused p)) = Some "mongodb"
  /\ get_public_rooms (server (fst (reconnect_database Refused p))) =
     envelope_rooms [] (Some "fallback").
Proof.
  intros A p.
  assert (H : without_snapshot p).
  { apply serve_keeps_no_snapshot; [exact A |].
    unfold startup, connect_mongodb, initial, without_snapshot.
    cbn [fst snd server data_source].
    destruct (sync_keeps_store (set_collection c (mkServer None [] file writable)))
      as [F [C _]].
    rewrite F, C. cbn. repeat split. discriminate. }
  destruct H as [M [F D]]. split; [exact M |]. split; [exact F |].
  split; [| split].
  - intro msg. unfold database_fails, get_public_rooms.
    destruct (rooms_collection (server p)) as [k |] eqn:E; [| congruence].
    cbn [rooms_collection set_collection]. unfold Mongo.find, Mongo.guard.
    cbn [failure fallback_rooms set_collection]. now rewrite F.
  - unfold reconnect_database, connect_mongodb. cbn [snd source data_source].
    now rewrite D.
  - unfold reconnect_database, connect_mongodb, clear_collection, get_public_rooms.
    cbn [fst server rooms_collection fallback_rooms]. now rewrite F.
Qed.

Lemma connected_process_has_no_snapshot_witness :
  let events :=
    [mkEvent Sample.env Refused (AddRoom (Sample.new_room_data (Some "0102")));
     mkEvent Sample.later Refused
             (BookRoom "0102" (Sample.booking "2024-06-01" "2024-06-05" "An"))] in
  let p := serve events
                 (startup (Connected (mkCollection [Sample.room "0101" []] None))
                          true [] true) in
  rooms_collection (server p) <> None
  /\ fallback_rooms (server p) = []
  /\ (forall msg, get_public_rooms (database_fails msg (server p)) =
                  envelope_error 500 msg)
  /\ source (snd (reconnect_database Refused p)) = Some "mongodb"
  /\ get_public_rooms (server (fst (reconnect_database Refused p))) =
     envelope_rooms [] (Some "fallback").
Proof.
  intro events.
  apply (connected_process_has_no_snapshot
           (mkCollection [Sample.room "0101" []] None) true [] true events).
  constructor; [discriminate |]. constructor; [discriminate | constructor].
Defined.

(* ===================================================================== *)
(** * The next room number *)
(* ===================================================================== *)

Section Decimal.

Lemma digits_of_uint (d : Decimal.uint) :
  Py.all_chars Py.is_ascii_digit (NilEmpty.string_of_uint d) = true.
Proof. induction d; simpl; auto. Qed.

Lemma int_acc_of_uint_acc (d : Decimal.uint) :
  forall acc : positive,
    Py.int_acc (Z.pos acc) (NilEmpty.string_of_uint d) = Z.pos (Pos.of_uint_acc d acc).
Proof.
  induction d as [| d IH | d IH | d IH | d IH | d IH | d IH | d IH | d IH | d IH | d IH];
    intro acc; [reflexivity | ..];
    cbn [NilEmpty.string_of_uint Py.int_acc Pos.of_uint_acc]; rewrite <- IH;
    f_equal; unfold Py.digit_val, Py.code; cbn [N_of_ascii N_of_digits]; lia.
Qed.

Lemma int_acc_of_uint (d : Decimal.uint) :
  Py.int_acc 0 (NilEmpty.string_of_uint d) = Z.of_N (Pos.of_uint d).
Proof.
  induction d as [| d IH | d IH | d IH | d IH | d IH | d IH | d IH | d IH | d IH | d IH];
    [reflexivity | exact IH | ..];
    cbn [NilEmpty.string_of_uint Py.int_acc Pos.of_uint];
    exact (int_acc_of_uint_acc d _).
Qed.

Lemma int_acc_zeros (k : nat) (s : string) :
  Py.int_acc 0 (Py.zeros k ++ s)%string = Py.int_acc 0 s.
Proof. induction k as [| k IH]; simpl; [reflexivity | exact IH]. Qed.

Lemma digits_zeros (k : nat) (s : string) :
  Py.all_chars Py.is_ascii_digit (Py.zeros k ++ s)%string
  = Py.all_chars Py.is_ascii_digit s.
Proof. induction k as [| k IH]; simpl; [reflexivity | exact IH]. Qed.

Lemma truthy_zeros (k : nat) (s : string) :
  Py.truthy s = true -> Py.truthy (Py.zeros k ++ s)%string = true.
Proof. destruct k; simpl; [tauto | reflexivity]. Qed.

Lemma digit_is_no_sign (c : ascii) :
  Py.is_ascii_digit c = true -> (Ascii.eqb c "-" || Ascii.eqb c "+")%bool = false.
Proof.
  intro H. destruct (Ascii.eqb_spec c "-") as [-> | _]; [discriminate H |].
  destruct (Ascii.eqb_spec c "+") as [-> | _]; [discriminate H | reflexivity].
Qed.

Lemma zfill_digits (w : nat) (s : string) :
  Py.truthy s = true -> Py.all_chars Py.is_ascii_digit s = true ->
  Py.zfill w s = (Py.zeros (w - String.length s) ++ s)%string.
Proof.
  destruct s as [| c s']; simpl; intros T H; [discriminate T |].
  - apply andb_true_iff in H. unfold Py.zfill.
    now rewrite (digit_is_no_sign c (proj1 H)).
Qed.

Lemma uint_nonempty (d : Decimal.uint) :
  d <> Decimal.Nil -> Py.truthy (NilEmpty.string_of_uint d) = true.
Proof. destruct d; [congruence | reflexivity ..]. Qed.

Lemma decimal_pos (p : positive) :
  Py.decimal (Z.pos p) = NilEmpty.string_of_uint (Pos.to_uint p).
Proof.
  pose proof (DecimalPos.Unsigned.to_uint_nonnil p) as NN.
  unfold Py.decimal, Z.to_int, NilZero.string_of_int, NilZero.string_of_uint.
  destruct (Pos.to_uint p); [congruence | reflexivity ..].
Qed.

Lemma length_zeros (k : nat) (s : string) :
  String.length (Py.zeros k ++ s)%string = (k + String.length s)%nat.
Proof. induction k as [| k IH]; simpl; [reflexivity | now rewrite IH]. Qed.

Lemma str_of_int_pos (n : Z) (text : string) :
  (0 < n)%Z -> Py.str_of_int n = Some text ->
  exists p, n = Z.pos p /\ text = NilEmpty.string_of_uint (Pos.to_uint p)
            /\ (String.length text <= Py.max_str_digits)%nat.
Proof.
  destruct n as [| p | p]; try lia. intros _. unfold Py.str_of_int.
  cbn [Z.abs]. rewrite decimal_pos.
  destruct (String.length (NilEmpty.string_of_uint (Pos.to_uint p))
            <=? Py.max_str_digits)%nat eqn:L; [| discriminate].
  intro H. inversion H; subst. exists p. apply Nat.leb_le in L. auto.
Qed.

(** [int(str(n).zfill(w)) == n] for a positive [n] that [str] writes. *)
Lemma int_of_zfill (w : nat) (n : Z) (text : string) :
  (0 < n)%Z -> (w <= Py.max_str_digits)%nat -> Py.str_of_int n = Some text ->
  Py.int_of_str (Py.zfill w text) = Some n.
Proof.
  intros Pn W S. destruct (str_of_int_pos n text Pn S) as [p [-> [-> L]]].
  pose proof (DecimalPos.Unsigned.to_uint_nonnil p) as NN.
  rewrite (zfill_digits _ _ (uint_nonempty _ NN) (digits_of_uint _)).
  unfold Py.int_of_str.
  rewrite (truthy_zeros _ _ (uint_nonempty _ NN)), digits_zeros, digits_of_uint.
  rewrite length_zeros.
  replace (_ <=? Py.max_str_digits)%nat with true
    by (symmetry; apply Nat.leb_le; lia).
  rewrite int_acc_zeros, int_acc_of_uint, DecimalPos.Unsigned.of_to. reflexivity.
Qed.

(** The padded number is a string of decimal digits. *)
Lemma isdigit_zfill (w : nat) (n : Z) (text : string) :
  (0 < n)%Z -> (w <= Py.max_str_digits)%nat -> Py.str_of_int n = Some text ->
  Py.isdigit (Py.zfill w text) = true.
Proof.
  intros H W S. pose proof (int_of_zfill w n text H W S) as I.
  unfold Py.int_of_str in I. unfold Py.isdigit.
  destruct (Py.truthy (Py.zfill w text)); [| discriminate I].
  destruct (Py.all_chars Py.is_ascii_digit (Py.zfill w text)) eqn:A;
    [| discriminate I].
  simpl. clear I. revert A. generalize (Py.zfill w text).
  induction s as [| c s IH]; simpl; [reflexivity |].
  rewrite andb_true_iff. intros [C A]. unfold Py.isdigit_char. rewrite C. simpl.
  now apply IH.
Qed.

End Decimal.

Section Numbering.

Lemma numeric_ids_reads (l : list Room) :
  forallb readable_id l = true ->
  exists ids,
    numeric_ids l = inr ids
    /\ forall r x, In r l -> _id r = Some (StrId x) -> Py.isdigit x = true ->
                   exists n, Py.int_of_str x = Some n /\ In n ids.
Proof.
  induction l as [| r l IH]; simpl; intro H.
  - exists []. split; [reflexivity | tauto].
  - apply andb_true_iff in H. destruct H as [R H].
    destruct (IH H) as [ids [E K]]. rewrite E. unfold readable_id in R.
    destruct (_id r) as [[x | h] |] eqn:I; cbn [str_id].
    + destruct (Py.isdigit x) eqn:D.
      * destruct (Py.int_of_str x) as [n |] eqn:V; [| discriminate R].
        cbn [bind ret]. exists (n :: ids). split; [reflexivity |].
        intros r' x' [<- | Hr] I' D'.
        -- rewrite I in I'. inversion I'; subst. exists n. split; [exact V | now left].
        -- destruct (K r' x' Hr I' D') as [m [V' Hm]]. exists m.
           split; [exact V' | now right].
      * exists ids. split; [reflexivity |].
        intros r' x' [<- | Hr] I' D'; [| eauto].
        rewrite I in I'. inversion I'; subst. congruence.
    + destruct (Py.isdigit h); [discriminate R |].
      exists ids. split; [reflexivity |].
      intros r' x' [<- | Hr] I' D'; [congruence | eauto].
    + exists (0%Z :: ids). split; [reflexivity |].
      intros r' x' [<- | Hr] I' D'; [congruence |].
      destruct (K r' x' Hr I' D') as [m [V' Hm]]. exists m.
      split; [exact V' | now right].
Qed.

Lemma numeric_ids_raises (l : list Room) :
  forallb readable_id l = false -> exists e, numeric_ids l = inl e.
Proof.
  induction l as [| r l IH]; simpl; [discriminate |].
  intro H. apply andb_false_iff in H. unfold readable_id in H.
  destruct (_id r) as [[x | h] |] eqn:I; cbn [str_id].
  - destruct (Py.isdigit x) eqn:D.
    + destruct (Py.int_of_str x) as [n |] eqn:V.
      * destruct H as [H | H]; [discriminate H |].
        destruct (IH H) as [e E]. rewrite E. eexists. reflexivity.
      * eexists. reflexivity.
    + destruct H as [H | H]; [discriminate H | auto].
  - destruct (Py.isdigit h) eqn:D; [eexists; reflexivity |].
    destruct H as [H | H]; [discriminate H | auto].
  - destruct H as [H | H]; [discriminate H |].
    destruct (IH H) as [e E]. rewrite E. eexists. reflexivity.
Qed.

Lemma max_with_zero_bounds (ids : list Z) :
  (0 <= Py.max_with_zero ids)%Z
  /\ forall n, In n ids -> (n <= Py.max_with_zero ids)%Z.
Proof.
  unfold Py.max_with_zero. induction ids as [| m ids [IH0 IH]]; simpl.
  - split; [lia | tauto].
  - split; [lia |]. intros n [<- | H]; [lia |]. specialize (IH n H). lia.
Qed.

End Numbering.

(** X12. In file mode a create without [custom_id] never collides. When
    [int] reads every id that [isdigit] holds of, the number of the room is
    one more than the greatest of them, or 1; when also [float] and [int]
    return on the price and the capacity and [str] writes the number, the
    room is stored under it, four digits wide, which no stored room has, and
    the answer is 201. In every other case an exception was raised, the
    answer is 500 and nothing is stored. The answer is never the 400 of a
    used id. *)
Theorem next_number_is_free (env : Env) (s : Server) (request : RoomData) :
  rooms_collection s = None ->
  has_required_fields request = true ->
  Py.truthy_opt (d_custom_id request) = false ->
  if forallb readable_id (fallback_rooms s)
  then exists ids,
      numeric_ids (fallback_rooms s) = inr ids
      /\ let n := (Py.max_with_zero ids + 1)%Z in
         (0 < n)%Z
         /\ match (if convertible request then Py.str_of_int n else None) with
            | Some text =>
                exists room,
                  _id room = Some (StrId (Py.zfill 4 text))
                  /\ existsb (has_id (StrId (Py.zfill 4 text))) (fallback_rooms s)
                     = false
                  /\ fallback_rooms (fst (add_room env s request)) =
                     fallback_rooms s ++ [room]
                  /\ snd (add_room env s request) =
                     envelope_message 201 "Room added successfully"
                                      (OneRoom (convert_room_for_api room))
            | None =>
                status (snd (add_room env s request)) = 500
                /\ fst (add_room env s request) = s
            end
  else status (snd (add_room env s request)) = 500
       /\ fst (add_room env s request) = s.
Proof.
  intros M Req C.
  assert (B : bad_custom_id (d_custom_id request) = false).
  { unfold bad_custom_id. destruct (d_custom_id request) as [c |]; [| reflexivity].
    simpl in C. now rewrite C. }
  unfold add_room, convertible. rewrite Req, B, M. cbn [negb].
  unfold resolve_id. rewrite C, M.
  destruct (forallb readable_id (fallback_rooms s)) eqn:R.
  - destruct (numeric_ids_reads _ R) as [ids [E K]]. exists ids.
    split; [exact E |]. rewrite E.
    destruct (max_with_zero_bounds ids) as [Z0 Zmax].
    set (n := (Py.max_with_zero ids + 1)%Z) in *. cbv zeta.
    assert (Pn : (0 < n)%Z) by (unfold n; lia).
    split; [exact Pn |].
    destruct (py_float (d_price request)) as [e | p]; [split; reflexivity |].
    destruct (py_int (d_capacity request)) as [e | k]; [split; reflexivity |].
    cbn [bind ret]. fold n.
    destruct (Py.str_of_int n) as [text |] eqn:S; [| split; reflexivity].
    cbn [bind ret].
    assert (W : (4 <= Py.max_str_digits)%nat) by (apply Nat.leb_le; reflexivity).
    assert (Free : List.find (has_id (StrId (Py.zfill 4 text)))
                             (fallback_rooms s) = None).
    { destruct (List.find _ (fallback_rooms s)) as [r |] eqn:F; [| reflexivity].
      exfalso. pose proof (find_has_id _ _ _ F) as I. apply find_some in F.
      destruct (K r _ (proj1 F) I (isdigit_zfill 4 n text Pn W S)) as [m [V Hm]].
      rewrite (int_of_zfill 4 n text Pn W S) in V. inversion V; subst m.
      specialize (Zmax n Hm). unfold n in Zmax. lia. }
    rewrite Free. cbn [run ret fst snd].
    exists (set_id (Some (StrId (Py.zfill 4 text))) (new_room env request p k)).
    split; [reflexivity |].
    split; [now apply find_none_existsb |].
    split; [| reflexivity].
    match goal with
    | |- context [save_fallback_data ?t] =>
        destruct (save_fallback_rooms t) as [F _]; rewrite F
    end.
    reflexivity.
  - destruct (numeric_ids_raises _ R) as [e E]. rewrite E.
    destruct (py_float (d_price request)) as [e' | p]; [split; reflexivity |].
    destruct (py_int (d_capacity request)) as [e' | k]; split; reflexivity.
Qed.

Lemma next_number_is_free_witness :
  let s := Sample.file_mode [Sample.room "0101" []; Sample.room "0203" []] in
  let request := Sample.new_room_data None in
  exists room,
    _id room = Some (StrId "0204")
    /\ existsb (has_id (StrId "0204")) (fallback_rooms s) = false
    /\ fallback_rooms (fst (add_room Sample.env s request)) =
       fallback_rooms s ++ [room]
    /\ snd (add_room Sample.env s request) =
       envelope_message 201 "Room added successfully"
                        (OneRoom (convert_room_for_api room)).
Proof.
  intros s request.
  destruct (next_number_is_free Sample.env s request eq_refl eq_refl eq_refl)
    as [ids [E [_ H]]].
  injection E as <-. exact H.
Defined.

(* ===================================================================== *)
(** * Reading after an update *)
(* ===================================================================== *)

(** What a successful [lookup_room] gives to the next lookup. *)
Lemma lookup_names (s : Server) (room_id : string) (i : DocId) (room : Room) :
  lookup_room s room_id = inr (Some (i, room)) ->
  (forall c, rooms_collection s = Some c -> failure c = None)
  /\ (rooms_collection s = None -> i = StrId room_id)
  /\ names room_id i (active_rooms s)
  /\ List.find (has_id i) (active_rooms s) = Some room.
Proof.
  intro L. pose proof (lookup_room_active s room_id i room L) as F.
  revert L F. unfold lookup_room, active_rooms, names, find_fallback.
  destruct (rooms_collection s) as [c |].
  - unfold find_by_either, Mongo.find_one, Mongo.guard.
    destruct (failure c) as [msg |] eqn:U; [discriminate |]. cbn [bind ret].
    intros L F. split; [intros c' E; inversion E; subst; exact U |].
    split; [discriminate |].
    split; [| exact F].
    destruct (List.find (has_id (StrId room_id)) (docs c)) as [x |] eqn:G.
    + inversion L. now left.
    + destruct (ObjectId room_id) as [oid |]; [| discriminate L].
      destruct (List.find (has_id oid) (docs c)); inversion L; subst.
      right. split; [reflexivity | now apply find_none_existsb].
  - intros L F. split; [discriminate |].
    destruct (List.find (has_id (StrId room_id)) (fallback_rooms s)); simpl in L;
      inversion L; subst.
    split; [reflexivity |]. split; [now left | exact F].
Qed.

Lemma stored_after_update (env : Env) (s : Server) (old new : Room) :
  bookedIntervals new = bookedIntervals old ->
  created_at new = created_at old ->
  updated_at new = Some (update_stamp env s) ->
  stored s old = old ->
  stored s new = set_updated_at (Some (booking_stamp s (utcnow env))) new.
Proof.
  unfold stored, update_stamp, booking_stamp, Mongo.date.
  destruct new as [i n p k d a b c u], old as [i' n' p' k' d' a' b' c' u'].
  cbn [bookedIntervals created_at updated_at]. intros -> -> ->.
  destruct (rooms_collection s); [| reflexivity].
  unfold Mongo.bson_room. cbn. intro H. injection H as Hb Hc _.
  now rewrite Hb, Hc.
Qed.

(** X13. After [update_room] answered 200, both single-room handlers serve,
    under the same path parameter, the room as the backend keeps it. The
    answer showed the room as the handler wrote it: what is served is that
    very room in file mode; in database mode, where the room found is as the
    collection returned it, it is that room with [updated_at] kept to the
    millisecond. *)
Theorem updated_room_is_served (env : Env) (s : Server) (room_id : string)
        (request : RoomData) :
  success (snd (update_room env s room_id request)) = true ->
  exists i old new,
    lookup_room s room_id = inr (Some (i, old))
    /\ updated_at new = Some (update_stamp env s)
    /\ snd (update_room env s room_id request) =
       envelope_message 200 "Room updated successfully"
                        (OneRoom (convert_room_for_api new))
    /\ get_room (fst (update_room env s room_id request)) room_id =
       mkResponse 200 true None None
                  (OneRoom (convert_room_for_api (stored s new))) None None
    /\ get_public_room (fst (update_room env s room_id request)) room_id =
       mkResponse 200 true None None
                  (OneRoom (convert_room_for_api (stored s new))) None None
    /\ (rooms_collection s = None -> stored s new = new)
    /\ (stored s old = old ->
        stored s new = set_updated_at (Some (booking_stamp s (utcnow env))) new).
Proof.
  intro T.
  destruct (update_room_built env s room_id request)
    as [[K _] | [[o [n [e [_ [_ [_ [_ [_ E]]]]]]]]
                | [i [old [new [L [I [B [C [U E]]]]]]]]]];
    [congruence | rewrite E in T; discriminate T |].
  destruct (lookup_names s room_id i old L) as [up [file [N F]]].
  assert (J : _id (stored s new) = Some i)
    by (rewrite stored_id, I; exact (find_has_id _ _ _ F)).
  assert (Look : lookup_room (fst (update_room env s room_id request)) room_id
                 = inr (Some (i, stored s new))).
  { rewrite E. cbn [fst]. apply lookup_written; [exact up | exact file | |].
    - now apply names_update_first.
    - apply (find_update_first (has_id i) (fun _ => stored s new) _ old F).
      now apply has_id_eq. }
  exists i, old, new. split; [exact L |]. split; [exact U |].
  split; [now rewrite E |].
  unfold get_room, get_public_room. rewrite Look.
  split; [reflexivity |]. split; [reflexivity |].
  split; [unfold stored; now intros -> |].
  exact (stored_after_update env s old new B C U).
Qed.

Lemma updated_room_is_served_witness :
  let s := Sample.db_mode [Sample.room "0101" []] in
  let request := Sample.rename "Lake room" in
  exists i old new,
    lookup_room s "0101" = inr (Some (i, old))
    /\ updated_at new = Some (update_stamp Sample.precise s)
    /\ snd (update_room Sample.precise s "0101" request) =
       envelope_message 200 "Room updated successfully"
                        (OneRoom (convert_room_for_api new))
    /\ get_room (fst (update_room Sample.precise s "0101" request)) "0101" =
       mkResponse 200 true None None
                  (OneRoom (convert_room_for_api (stored s new))) None None
    /\ get_public_room (fst (update_room Sample.precise s "0101" request)) "0101" =
       mkResponse 200 true None None
                  (OneRoom (convert_room_for_api (stored s new))) None None
    /\ (rooms_collection s = None -> stored s new = new)
    /\ (stored s old = old ->
        stored s new =
        set_updated_at (Some (booking_stamp s (utcnow Sample.precise))) new).
Proof.
  intros s request.
  exact (updated_room_is_served Sample.precise s "0101" request eq_refl).
Defined.

(* ===================================================================== *)
(** * The admin reads beside the public ones *)
(* ===================================================================== *)

(** X14. The admin handlers read as the public ones do, with one difference: the
    admin list has no recovery. It answers 500 where the public list, the
    database raising and the snapshot not empty, serves the snapshot. *)
Theorem admin_reads_without_recovery (s : Server) (room_id : string) :
  get_room s room_id = get_public_room s room_id
  /\ (get_all_rooms s = get_public_rooms s
      \/ exists c e,
          rooms_collection s = Some c /\ Mongo.find c = inl e
          /\ fallback_rooms s <> []
          /\ get_all_rooms s = internal_error e
          /\ get_public_rooms s =
             envelope_rooms (map convert_room_for_api (fallback_rooms s))
                            (Some "fallback_error_recovery")).
Proof.
  split; [reflexivity |]. unfold get_all_rooms, get_public_rooms.
  destruct (rooms_collection s) as [c |] eqn:M; [| now left].
  destruct (Mongo.find c) as [e | rooms] eqn:F; [| now left].
  destruct (fallback_rooms s) as [| r l] eqn:S; [now left |].
  right. exists c, e. repeat split; congruence.
Qed.

(* ===================================================================== *)
(** * A process that started on the file *)
(* ===================================================================== *)

Section FileMode.

Variable s : Server.
Hypothesis mode : rooms_collection s = None.

Lemma written_in_file (l : list Room) :
  rooms_collection (mirror (with_active l s)) = None.
Proof.
  rewrite rooms_collection_mirror. unfold with_active. now rewrite mode.
Qed.

Lemma writes_keep_file_mode (env : Env) (r : Request) (out : Server * Response) :
  match r with
  | AddRoom data => out = add_room env s data
  | UpdateRoom room_id data => out = update_room env s room_id data
  | DeleteRoom room_id => out = delete_room s room_id
  | BookRoom room_id data => out = book_room env s room_id data
  | UnbookRoom room_id data => out = unbook_room env s room_id data
  | UpdateBooking room_id data => out = update_booking env s room_id data
  | SyncData => out = sync_data s
  | _ => fst out = s
  end ->
  rooms_collection (fst out) = None.
Proof.
  assert (K : fst out = s
              \/ (exists l, fst out = mirror (with_active l s))
              \/ (exists l, fst out = with_active l s) ->
              rooms_collection (fst out) = None).
  { intros [-> | [[l ->] | [l ->]]];
      [exact mode | apply written_in_file | unfold with_active; now rewrite mode]. }
  destruct r as [| rid | | rid | | rid | d | rid d | rid | rid b | rid b | rid b | |];
    intro H; apply K; try (left; exact H); subst out.
  - destruct (add_room_cases env s d) as [[_ E] | [i [r [l [_ [_ [_ [_ E]]]]]]]];
      [now left | right; left; exists l; now rewrite E].
  - destruct (update_room_cases env s rid d)
      as [[_ E] | [[o [n [e [_ [_ [_ [_ [_ E]]]]]]]] | [i [o [n [_ [_ [_ E]]]]]]]];
      [now left | right; right | right; left]; eexists; rewrite E; reflexivity.
  - destruct (delete_room_cases s rid) as [[_ E] | [l [E _]]];
      [now left | right; left; eexists; rewrite E; reflexivity].
  - destruct (book_room_cases env s rid b)
      as [[_ E] | [i [r [_ [_ [_ [_ E]]]]]]];
      [now left | right; left; eexists; rewrite E; reflexivity].
  - destruct (unbook_room_cases env s rid b)
      as [[_ E] | [[E _] | [i [r [_ E]]]]];
      [now left | left; rewrite E; reflexivity
       | right; left; eexists; rewrite E; reflexivity].
  - destruct (update_booking_cases env s rid b)
      as [[_ E] | [[E _] | [p [r [r' [_ [_ [_ [_ E]]]]]]]]];
      [now left | left; rewrite E; reflexivity
       | right; left; eexists; rewrite E; reflexivity].
  - left. unfold sync_data. now rewrite mode.
Qed.

End FileMode.

Lemma handle_keeps_file_mode (e : Event) (p : Process) :
  (request e = ReconnectDatabase -> forall c, link e <> Connected c) ->
  rooms_collection (server p) = None ->
  rooms_collection (server (fst (handle e p))) = None
  /\ data_source (fst (handle e p)) = data_source p.
Proof.
  intros N M.
  pose proof (writes_keep_file_mode (server p) M (clock e) (request e)) as W.
  unfold handle.
  destruct (request e); try (split; [exact M | reflexivity]);
    try (unfold writing; cbn [fst server data_source];
         split; [apply W; reflexivity | reflexivity]).
  unfold reconnect_database, connect_mongodb.
  destruct (link e) as [| | c]; cbn [fst server data_source];
    [split; [exact M | reflexivity] | split; reflexivity |].
  now destruct (N eq_refl c).
Qed.

(** X15. A process that did not connect at startup stays on the file until a
    reconnection succeeds: whatever requests it serves meanwhile, it has no
    collection, the public list and the admin list answer 200 from the
    snapshot, and [data_source] is as the startup left it. *)
Theorem file_process_stays_on_file
        (o : Connection) (readable : bool) (file : list Room) (writable : bool)
        (events : list Event) :
  (forall c, o <> Connected c) ->
  Forall (fun e => request e = ReconnectDatabase -> forall c, link e <> Connected c)
         events ->
  let p := serve events (startup o readable file writable) in
  rooms_collection (server p) = None
  /\ data_source p = (if readable then "fallback_json" else "none")
  /\ get_public_rooms (server p) =
     envelope_rooms (map convert_room_for_api (fallback_rooms (server p)))
                    (Some "fallback")
  /\ get_all_rooms (server p) = get_public_rooms (server p).
Proof.
  intros O A p.
  assert (H : rooms_collection (server p) = None
              /\ data_source p = (if readable then "fallback_json" else "none")).
  { subst p.
    assert (H0 : rooms_collection (server (startup o readable file writable)) = None
                 /\ data_source (startup o readable file writable)
                    = (if readable then "fallback_json" else "none")).
    { unfold startup, connect_mongodb, load_fallback_data, initial.
      destruct o as [| | c]; [| | now destruct (O c)];
        destruct readable; cbn; split; reflexivity. }
    revert H0. generalize (startup o readable file writable).
    induction A as [| e events He _ IH]; intros q H0; [exact H0 |].
    simpl. apply IH. destruct H0 as [M D].
    destruct (handle_keeps_file_mode e q He M) as [M' D'].
    split; [exact M' | now rewrite D']. }
  destruct H as [M D]. split; [exact M |]. split; [exact D |].
  unfold get_all_rooms, get_public_rooms. rewrite M. split; reflexivity.
Qed.

Lemma file_process_stays_on_file_witness :
  let events :=
    [mkEvent Sample.env Refused ReconnectDatabase;
     mkEvent Sample.env NoUri (AddRoom (Sample.new_room_data None));
     mkEvent Sample.later NoUri
             (BookRoom "0102" (Sample.booking "2024-06-01" "2024-06-05" "An"))] in
  let p := serve events (startup Refused true [Sample.room "0101" []] true) in
  rooms_collection (server p) = None
  /\ data_source p = "fallback_json"
  /\ get_public_rooms (server p) =
     envelope_rooms (map convert_room_for_api (fallback_rooms (server p)))
                    (Some "fallback")
  /\ get_all_rooms (server p) = get_public_rooms (server p).
Proof.
  intro events.
  apply (file_process_stays_on_file Refused true [Sample.room "0101" []] true events).
  - discriminate.
  - constructor; [discriminate |].
    constructor; [discriminate |]. constructor; [discriminate | constructor].
Defined.

(* ===================================================================== *)
(** * The rooms a request leaves alone *)
(* ===================================================================== *)

Section Others.

Context {A : Type}.
Variable q : A -> bool.

Lemma filter_update_first_frame (p : A -> bool) (old new : A) (l : list A) :
  List.find p l = Some old -> q old = false -> q new = false ->
  List.filter q (update_first p (fun _ => new) l) = List.filter q l.
Proof.
  intros F O N. induction l as [| y l IH]; simpl in *; [discriminate |].
  destruct (p y).
  - inversion F; subst. simpl. now rewrite O, N.
  - simpl. now rewrite IH.
Qed.

Lemma filter_remove_first_frame (p : A -> bool) (old : A) (l : list A) :
  List.find p l = Some old -> q old = false ->
  List.filter q (remove_first p l) = List.filter q l.
Proof.
  intros F O. induction l as [| y l IH]; simpl in *; [discriminate |].
  destruct (p y).
  - inversion F; subst. now rewrite O.
  - simpl. now rewrite IH.
Qed.

Lemma filter_filter_frame (p : A -> bool) (l : list A) :
  (forall x, q x = true -> p x = true) ->
  List.filter q (List.filter p l) = List.filter q l.
Proof.
  intro H. induction l as [| y l IH]; simpl; [reflexivity |].
  destruct (p y) eqn:P; simpl; [now rewrite IH |].
  destruct (q y) eqn:Q; [| exact IH]. rewrite (H y Q) in P. discriminate P.
Qed.

End Others.

Lemma named_same_id (room_id : string) (a b : Room) :
  _id a = _id b -> named room_id a = named room_id b.
Proof. unfold named, has_id. now intros ->. Qed.

Lemma names_named (room_id : string) (i : DocId) (l : list Room) (r : Room) :
  names room_id i l -> has_id i r = true -> named room_id r = true.
Proof.
  intros [N | [O _]]; apply named_by_id; [now left | now right].
Qed.

(** X16. A request touches only what its path parameter names. The rooms whose
    id is neither the string of the path nor the ObjectId it reads as are,
    after any request to [update_room], [delete_room], [book_room],
    [unbook_room] or [update_booking], the same rooms in the same order;
    [add_room] leaves alone every room that does not have the id it gives
    out. *)
Theorem requests_touch_one_room
        (env : Env) (s : Server) (room_id : string)
        (room : RoomData) (booking : BookingData) :
  let others := fun r => negb (named room_id r) in
  List.filter others (active_rooms (fst (update_room env s room_id room))) =
  List.filter others (active_rooms s)
  /\ List.filter others (active_rooms (fst (delete_room s room_id))) =
     List.filter others (active_rooms s)
  /\ List.filter others (active_rooms (fst (book_room env s room_id booking))) =
     List.filter others (active_rooms s)
  /\ List.filter others (active_rooms (fst (unbook_room env s room_id booking))) =
     List.filter others (active_rooms s)
  /\ List.filter others (active_rooms (fst (update_booking env s room_id booking))) =
     List.filter others (active_rooms s)
  /\ (forall i, resolve_id env s room = inr i ->
                List.filter (fun r => negb (has_id i r))
                            (active_rooms (fst (add_room env s room))) =
                List.filter (fun r => negb (has_id i r)) (active_rooms s)).
Proof.
  intro others.
  assert (Same : forall i old new l,
             names room_id i l -> List.find (has_id i) l = Some old ->
             _id new = _id old ->
             List.filter others (update_first (has_id i) (fun _ => new) l) =
             List.filter others l).
  { intros i old new l N F I.
    assert (O : named room_id old = true)
      by (apply (names_named room_id i l old N); exact (proj2 (find_some _ _ F))).
    apply (filter_update_first_frame others (has_id i) old new l F); unfold others.
    - now rewrite O.
    - now rewrite (named_same_id room_id new old I), O. }
  split; [| split; [| split; [| split; [| split]]]].
  - destruct (update_room_cases env s room_id room)
      as [[_ E] | [[old [new [e [Hm [F [_ [I [_ E]]]]]]]]
                  | [i [old [new [L [I [_ E]]]]]]]]; rewrite E; [reflexivity | |];
      cbn [fst].
    + rewrite active_rooms_with_active.
      apply (Same (StrId room_id) old new); [now left | | exact I].
      unfold active_rooms. rewrite Hm. exact F.
    + rewrite active_rooms_mirror, active_rooms_with_active.
      destruct (lookup_names s room_id i old L) as [_ [_ [N F]]].
      apply (Same i old (stored s new) _ N F). now rewrite stored_id.
  - destruct (delete_room_cases s room_id) as [[_ E] | [l [E Shape]]]; rewrite E;
      [reflexivity |].
    cbn [fst]. rewrite active_rooms_mirror, active_rooms_with_active.
    destruct Shape as [[_ [_ ->]] | [i [_ [X [-> W]]]]].
    + apply filter_filter_frame. intros x Q. unfold others, named in Q.
      destruct (has_id (StrId room_id) x); [discriminate Q | reflexivity].
    + destruct (existsb_find _ _ X) as [old F].
      apply (filter_remove_first_frame others (has_id i) old _ F). unfold others.
      rewrite (named_by_id room_id i old); [reflexivity | | exact (proj2 (find_some _ _ F))].
      destruct W as [-> | [_ O]]; [now left | now right].
  - destruct (book_room_cases env s room_id booking)
      as [[_ E] | [i [r [L [_ [_ [_ E]]]]]]]; rewrite E; [reflexivity |].
    cbn [fst]. rewrite active_rooms_mirror, active_rooms_with_active.
    destruct (located_names s room_id i r L) as [_ [_ [N F]]].
    apply (Same i r _ _ N F). reflexivity.
  - destruct (unbook_room_cases env s room_id booking)
      as [[_ E] | [[E _] | [i [r [L E]]]]]; rewrite E; [reflexivity | reflexivity |].
    cbn [fst]. rewrite active_rooms_mirror, active_rooms_with_active.
    destruct (located_names s room_id i r L) as [_ [_ [N F]]].
    apply (Same i r _ _ N F). unfold Mongo.pull_pair.
    now destruct (bookedIntervals r).
  - destruct (update_booking_cases env s room_id booking)
      as [[_ E] | [[E _] | [p [r [r' [F [O [I [_ E]]]]]]]]]; rewrite E;
      [reflexivity | reflexivity |].
    cbn [fst]. rewrite active_rooms_mirror, active_rooms_with_active.
    apply (filter_update_first_frame others p r r' _ F); unfold others.
    + now rewrite O.
    + now rewrite (named_same_id room_id r' r I), O.
  - intros i R.
    destruct (add_room_cases env s room)
      as [[_ E] | [j [r [l [R' [I [_ [Shape E]]]]]]]]; rewrite E; [reflexivity |].
    cbn [fst]. rewrite active_rooms_mirror, active_rooms_with_active.
    rewrite R in R'. inversion R'; subst j.
    assert (H : has_id i (stored s r) = true)
      by (rewrite has_id_stored; now apply has_id_eq).
    destruct Shape as [[_ ->] | [X [_ ->]]].
    + rewrite filter_app. simpl. rewrite H. simpl. apply app_nil_r.
    + destruct (existsb_find _ _ X) as [old F].
      apply (filter_update_first_frame _ (has_id i) old (stored s r) _ F).
      * now rewrite (proj2 (find_some _ _ F)).
      * now rewrite H.
Qed.

(* ===================================================================== *)
(** * The manual sync *)
(* ===================================================================== *)

(** X17. [sync_data] never changes the rooms. It answers 200 exactly when the
    process has a collection, the collection answers and the file can be
    written, and then the mirror file holds the rooms of the collection;
    with any other answer the state is as it was. Without a collection the
    answer is 400, otherwise 500. *)
Theorem sync_data_outcome (s : Server) :
  active_rooms (fst (sync_data s)) = active_rooms s
  /\ fallback_rooms (fst (sync_data s)) = fallback_rooms s
  /\ (status (snd (sync_data s)) = 200 <-> sync_succeeds s = true)
  /\ (status (snd (sync_data s)) = 200 -> mirrored (fst (sync_data s)))
  /\ (status (snd (sync_data s)) <> 200 -> fst (sync_data s) = s)
  /\ (status (snd (sync_data s)) = 400 <-> rooms_collection s = None).
Proof.
  unfold sync_data, sync_succeeds, sync_mongodb_to_json, mirrored, active_rooms,
    Mongo.find, Mongo.guard.
  destruct s as [[c |] fb jf [|]]; cbn;
    try (destruct (failure c) as [msg |] eqn:F; cbn; rewrite ?F; cbn);
    repeat split; intros; try reflexivity; try discriminate; try congruence.
Qed.
